(** * AgentBOM detection engine: a shallow embedding and its properties

    The development follows the Python sources of the [agentbom] package:

    - [PyStr]   the [str] methods the sources call ([strip], [split], [in], ...);
    - [Re]      a backtracking matcher for the fragment of Python's [re] that the
                sources use, with the patterns written as syntax trees; the
                comment before a pattern quotes the source pattern in the
                layout of re.VERBOSE (blanks between the tokens, DQ for the
                double quote);
    - [DocstringParser]  utils/docstring_parser.py;
    - [BaseDetector]     detectors/base.py;
    - [SchemaExtractors] detectors/schema_extractors.py;
    - [Scanner]          the tool conversion of scanner.py;
    - [LangChainPy], [LangChainTs], [AutoGen], [CrewAI]  the four detectors;
    - [FileWalker]  the file filter and the reading of utils/file_walker.py;
    - [ScanFile]    the detectors of a scanner and the processing of one file
                    in scanner.py.

    Text is modelled as [string] (8-bit characters); characters above 127 are
    neither word characters nor white space.  Python dictionaries keyed by
    parameter names are [gmap string _].  [ast.parse], which belongs to the
    Python standard library, is a section variable of the detectors. *)

From Stdlib Require Import String Ascii List Bool Arith ZArith Lia DecimalString.
From stdpp Require Import gmap strings list fin_maps.

Open Scope string_scope.
Open Scope nat_scope.

(* ===================================================================== *)
(** ** Python [str] methods *)
(* ===================================================================== *)

Module PyStr.

Definition nl : ascii := "010"%char.
Definition tab : ascii := "009"%char.
Definition dq : ascii := "034"%char.
Definition sq : ascii := "039"%char.
Definition bq : ascii := "096"%char.

Definition in_range (lo hi : nat) (c : ascii) : bool :=
  let n := nat_of_ascii c in (lo <=? n) && (n <=? hi).

(** [str.isspace] on the ASCII range: TAB, LF, VT, FF, CR, FS, GS, RS, US
    and the blank. *)
Definition is_space (c : ascii) : bool :=
  in_range 9 13 c || in_range 28 32 c.

Definition is_upper (c : ascii) : bool := in_range 65 90 c.
Definition is_lower (c : ascii) : bool := in_range 97 122 c.
Definition is_digit (c : ascii) : bool := in_range 48 57 c.

(** The class [\w]. *)
Definition is_word (c : ascii) : bool :=
  is_upper c || is_lower c || is_digit c || Ascii.eqb c "_"%char.

Definition lower_char (c : ascii) : ascii :=
  if is_upper c then ascii_of_nat (nat_of_ascii c + 32) else c.

(** [s.lower()] *)
Fixpoint lower (s : string) : string :=
  match s with
  | EmptyString => EmptyString
  | String c t => String (lower_char c) (lower t)
  end.

(** [s.startswith(p)] *)
Fixpoint startswith (s p : string) : bool :=
  match p, s with
  | EmptyString, _ => true
  | String a p', String b s' => Ascii.eqb a b && startswith s' p'
  | String _ _, EmptyString => false
  end.

(** [sub in s] *)
Fixpoint contains (sub s : string) : bool :=
  startswith s sub ||
  match s with
  | EmptyString => false
  | String _ t => contains sub t
  end.

Fixpoint rev_acc (s acc : string) : string :=
  match s with
  | EmptyString => acc
  | String c t => rev_acc t (String c acc)
  end.

Definition rev (s : string) : string := rev_acc s EmptyString.

(** [s.endswith(p)] *)
Definition endswith (s p : string) : bool := startswith (rev s) (rev p).

(** [s.lstrip()], [s.rstrip()], [s.strip()] *)
Fixpoint lstrip (s : string) : string :=
  match s with
  | EmptyString => EmptyString
  | String c t => if is_space c then lstrip t else s
  end.

Definition rstrip (s : string) : string := rev (lstrip (rev s)).

Definition strip (s : string) : string := rstrip (lstrip s).

(** [s.split(sep)] for a one-character separator: the pieces between the
    separators, empty pieces included. *)
Fixpoint split_acc (sep : ascii) (s cur : string) : list string :=
  match s with
  | EmptyString => [rev cur]
  | String c t =>
      if Ascii.eqb c sep then rev cur :: split_acc sep t EmptyString
      else split_acc sep t (String c cur)
  end.

Definition split (sep : ascii) (s : string) : list string :=
  split_acc sep s EmptyString.

(** [sep.join(l)] *)
Fixpoint join (sep : string) (l : list string) : string :=
  match l with
  | [] => EmptyString
  | [x] => x
  | x :: r => x ++ sep ++ join sep r
  end.

(** [s[:n]] and [s[n:]] for [0 <= n]. *)
Fixpoint take (n : nat) (s : string) : string :=
  match n, s with
  | S n', String c t => String c (take n' t)
  | _, _ => EmptyString
  end.

Fixpoint drop (n : nat) (s : string) : string :=
  match n, s with
  | S n', String _ t => drop n' t
  | _, _ => s
  end.

(** Truthiness of a string: [if s:] *)
Definition truthy (s : string) : bool :=
  match s with EmptyString => false | _ => true end.

End PyStr.

(* ===================================================================== *)
(** ** The fragment of Python's [re] used by the sources *)
(* ===================================================================== *)

Module Re.
Import PyStr.

(** Pattern syntax.  [Star g r] is [r*] when [g] is true and [r*?]
    otherwise; [Upto n r] is [r{0,n}]; [Grp n r] is the n-th capturing
    group; [Look r] is [(?=r)]. *)
Inductive re : Type :=
| Eps
| Lit (c : ascii)
| Cls (p : ascii -> bool)
| Dot
| Seq (r1 r2 : re)
| Alt (r1 r2 : re)
| Star (greedy : bool) (r : re)
| Upto (n : nat) (r : re)
| Grp (n : nat) (r : re)
| Look (r : re)
| Bol
| Eol
| EndZ
| WordB.

(** The flags [re.MULTILINE], [re.DOTALL], [re.IGNORECASE]. *)
Record flags : Type := Flags {
  multiline : bool;
  dotall : bool;
  ignorecase : bool
}.

Definition no_flags : flags := Flags false false false.
Definition MULTILINE : flags := Flags true false false.
Definition DOTALL : flags := Flags false true false.
Definition IGNORECASE : flags := Flags false false true.
Definition MULTILINE_DOTALL : flags := Flags true true false.

(** A position in the subject: the offset, the character before it, the
    text still to be read, and the groups captured so far (latest first). *)
Record st : Type := St {
  pos : nat;
  prev : option ascii;
  rest : string;
  caps : list (nat * string)
}.

Definition advance (c : ascii) (t : string) (s : st) : st :=
  St (S (pos s)) (Some c) t (caps s).

Definition lit_eq (fl : flags) (c x : ascii) : bool :=
  if ignorecase fl then Ascii.eqb (lower_char c) (lower_char x)
  else Ascii.eqb c x.

Definition at_bol (fl : flags) (s : st) : bool :=
  match prev s with
  | None => true
  | Some c => multiline fl && Ascii.eqb c nl
  end.

Definition at_eol (fl : flags) (s : st) : bool :=
  match rest s with
  | EmptyString => true
  | String c t =>
      Ascii.eqb c nl &&
      (multiline fl || match t with EmptyString => true | _ => false end)
  end.

Definition at_end (s : st) : bool :=
  match rest s with EmptyString => true | _ => false end.

Definition word_before (s : st) : bool :=
  match prev s with Some c => is_word c | None => false end.

Definition word_after (s : st) : bool :=
  match rest s with String c _ => is_word c | EmptyString => false end.

(** One character that satisfies [p]. *)
Definition step (p : ascii -> bool) (s : st) (k : st -> option st)
  : option st :=
  match rest s with
  | String x t => if p x then k (advance x t s) else None
  | EmptyString => None
  end.

(** The loop of a star over [body]: greedy, one more iteration is tried
    before the continuation; lazy, the continuation is tried first.  An
    iteration must consume a character, so that a count [n] above the
    length of the text still to be read is never exhausted. *)
Fixpoint star_loop (greedy : bool)
    (body : st -> (st -> option st) -> option st)
    (n : nat) (s : st) (k : st -> option st) : option st :=
  match n with
  | 0 => k s
  | S n' =>
      let again (_ : unit) :=
        body s (fun s' => if pos s <? pos s' then star_loop greedy body n' s' k
                          else None) in
      if greedy
      then match again tt with Some e => Some e | None => k s end
      else match k s with Some e => Some e | None => again tt end
  end.

(** The backtracking matcher, in continuation-passing style: [run fl r
    fuel s k] tries the ways [r] matches at [s] in priority order and
    returns the first for which [k] succeeds.  [fuel] is one more than the
    length of the subject. *)
Fixpoint run (fl : flags) (r : re) (fuel : nat) (s : st)
    (k : st -> option st) {struct r} : option st :=
  match r with
  | Eps => k s
  | Lit c => step (lit_eq fl c) s k
  | Cls p => step p s k
  | Dot => step (fun x => dotall fl || negb (Ascii.eqb x nl)) s k
  | Seq r1 r2 => run fl r1 fuel s (fun s' => run fl r2 fuel s' k)
  | Alt r1 r2 =>
      match run fl r1 fuel s k with
      | Some e => Some e
      | None => run fl r2 fuel s k
      end
  | Star greedy r1 => star_loop greedy (run fl r1 fuel) fuel s k
  | Upto bound r1 => star_loop true (run fl r1 fuel) bound s k
  | Grp n r1 =>
      run fl r1 fuel s
        (fun s' =>
           k (St (pos s') (prev s') (rest s')
                 ((n, take (pos s' - pos s) (rest s)) :: caps s')))
  | Look r1 =>
      match run fl r1 fuel s Some with
      | Some s' => k (St (pos s) (prev s) (rest s) (caps s'))
      | None => None
      end
  | Bol => if at_bol fl s then k s else None
  | Eol => if at_eol fl s then k s else None
  | EndZ => if at_end s then k s else None
  | WordB => if xorb (word_before s) (word_after s) then k s else None
  end.

(** A match object: [start()], [end()], [group(0)] and the numbered
    groups. *)
Record rmatch : Type := Match {
  m_start : nat;
  m_end : nat;
  m_text : string;
  m_groups : list (nat * string)
}.

(** [m.group(n)]: [None] when the group took no part in the match. *)
Fixpoint assoc (n : nat) (l : list (nat * string)) : option string :=
  match l with
  | [] => None
  | (i, v) :: l' => if Nat.eqb i n then Some v else assoc n l'
  end.

Definition group (n : nat) (m : rmatch) : option string :=
  assoc n (m_groups m).

(** [m.group(n)] for a group known to take part: the text, [""] otherwise. *)
Definition group_str (n : nat) (m : rmatch) : string :=
  match group n m with Some v => v | None => EmptyString end.

Definition match_at (fl : flags) (r : re) (fuel : nat)
    (p : nat) (pv : option ascii) (s : string) : option rmatch :=
  match run fl r fuel (St p pv s []) Some with
  | Some e => Some (Match p (pos e) (take (pos e - p) s) (caps e))
  | None => None
  end.

Fixpoint search_from (fl : flags) (r : re) (fuel : nat)
    (p : nat) (pv : option ascii) (s : string) : option rmatch :=
  match match_at fl r fuel p pv s with
  | Some m => Some m
  | None =>
      match s with
      | EmptyString => None
      | String c t => search_from fl r fuel (S p) (Some c) t
      end
  end.

(** [re.match(r, s, flags)] *)
Definition re_match (fl : flags) (r : re) (s : string) : option rmatch :=
  match_at fl r (S (String.length s)) 0 None s.

(** [re.search(r, s, flags)] *)
Definition search (fl : flags) (r : re) (s : string) : option rmatch :=
  search_from fl r (S (String.length s)) 0 None s.

(** Moving [n] characters forward from a position. *)
Fixpoint forward (n : nat) (pv : option ascii) (s : string)
  : option ascii * string :=
  match n, s with
  | S n', String c t => forward n' (Some c) t
  | _, _ => (pv, s)
  end.

(** [re.finditer(r, s, flags)]: the successive non-overlapping matches.
    After an empty match the scan resumes one character further. *)
Fixpoint finditer_from (fl : flags) (r : re) (fuel : nat) (n : nat)
    (p : nat) (pv : option ascii) (s : string) : list rmatch :=
  match n with
  | 0 => []
  | S n' =>
      match search_from fl r fuel p pv s with
      | None => []
      | Some m =>
          let e := if m_start m <? m_end m then m_end m else S (m_end m) in
          let '(pv', s') := forward (e - p) pv s in
          m :: (if e - p <=? String.length s
                then finditer_from fl r fuel n' e pv' s' else [])
      end
  end.

Definition finditer (fl : flags) (r : re) (s : string) : list rmatch :=
  finditer_from fl r (S (String.length s)) (S (String.length s)) 0 None s.

(** [re.sub(r, "", s, flags)]: every match removed. *)
Fixpoint remove_matches (ms : list rmatch) (p : nat) (s : string) : string :=
  match ms with
  | [] => s
  | m :: ms' =>
      take (m_start m - p) s ++
      remove_matches ms' (m_end m) (drop (m_end m - p) s)
  end.

Definition sub_empty (fl : flags) (r : re) (s : string) : string :=
  remove_matches (finditer fl r s) 0 s.

(** [reads s s' w]: from [s] to [s'] the text [w] is read and no group is
    captured. *)
Definition reads (s s' : st) (w : string) : Prop :=
  rest s = w ++ rest s' /\ pos s' = pos s + String.length w /\ caps s' = caps s.

(** Every character of [w] satisfies [p]. *)
Fixpoint all_chars (p : ascii -> bool) (w : string) : bool :=
  match w with
  | EmptyString => true
  | String c t => p c && all_chars p t
  end.

(** *** A star over one character class, by recursion on the text *)




(** *** Pattern combinators *)

Fixpoint lit (s : string) : re :=
  match s with
  | EmptyString => Eps
  | String c EmptyString => Lit c
  | String c t => Seq (Lit c) (lit t)
  end.

Fixpoint cat (l : list re) : re :=
  match l with
  | [] => Eps
  | [r] => r
  | r :: l' => Seq r (cat l')
  end.

Fixpoint alts (l : list re) : re :=
  match l with
  | [] => Eps
  | [r] => r
  | r :: l' => Alt r (alts l')
  end.

Definition star (r : re) : re := Star true r.       (* r*  *)
Definition lazy (r : re) : re := Star false r.      (* r*? *)
Definition plus (r : re) : re := Seq r (Star true r).   (* r+ *)
Definition plus_lazy (r : re) : re := Seq r (Star false r). (* r+? *)
Definition opt (r : re) : re := Alt r Eps.          (* r?  *)

Definition ws : re := Cls is_space.                  (* \s *)
Definition nws : re := Cls (fun c => negb (is_space c)). (* \S *)
Definition wd : re := Cls is_word.                   (* \w *)
Definition chr (c : ascii) : re := Lit c.
Definition one_of (l : list ascii) : re :=           (* [...] *)
  Cls (fun c => existsb (Ascii.eqb c) l).
Definition none_of (l : list ascii) : re :=          (* [^...] *)
  Cls (fun c => negb (existsb (Ascii.eqb c) l)).
Definition quote : re := one_of [dq; sq].         (* a quote, double or single *)
Definition not_quote : re := none_of [dq; sq].    (* any character but a quote *)

(** [re.escape(name)] spliced into a pattern matches [name] literally. *)
Definition escaped (name : string) : re := lit name.

End Re.

(* ===================================================================== *)
(** ** utils/docstring_parser.py *)
(* ===================================================================== *)

Module DocstringParser.
Import PyStr Re.

(** [ParameterDoc] *)
Record ParameterDoc : Type := mkParameterDoc {
  pd_name : string;
  pd_type : option string;
  pd_description : option string;
  pd_default : option string;
  pd_required : bool
}.

(** The [returns] dictionary of a [DocstringInfo], keys [type] and
    [description]. *)
Record ReturnsDoc : Type := mkReturnsDoc {
  rd_type : string;
  rd_description : string
}.

(** [DocstringInfo] *)
Record DocstringInfo : Type := mkDocstringInfo {
  di_description : option string;
  di_parameters : list ParameterDoc;
  di_returns : option ReturnsDoc
}.

Definition empty_info : DocstringInfo := mkDocstringInfo None [] None.

Definition word (s : string) : re := lit s.
Definition word_s (s : string) (c : ascii) : re := Seq (lit s) (opt (chr c)).

(** The section names of the Google description pattern, SECTIONS below:
    Args?|Parameters?|Returns?|Yields?|Raises?|Note|Notes|Example|Examples|
    See Also|Attributes?|References? *)
Definition google_sections : re :=
  alts [word_s "Arg" "s"; word_s "Parameter" "s"; word_s "Return" "s";
        word_s "Yield" "s"; word_s "Raise" "s"; word "Note"; word "Notes";
        word "Example"; word "Examples"; word "See Also";
        word_s "Attribute" "s"; word_s "Reference" "s"].

(** ^ ( .*? ) (?= \n \s* (?:SECTIONS) : | $ )     with DOTALL *)
Definition google_desc_pattern : re :=
  cat [Bol; Grp 1 (lazy Dot);
       Look (Alt (cat [chr nl; star ws; google_sections; chr ":"]) Eol)].

(** Args?: \s* \n ( (?: \s+ .* \n? )* ) *)
Definition args_pattern : re :=
  cat [lit "Arg"; opt (chr "s"); chr ":"; star ws; chr nl;
       Grp 1 (star (cat [plus ws; star Dot; opt (chr nl)]))].

(** ^ \s+ ( \w+ ) \s* (?: \( ( .*? ) \) )? \s* : \s* ( .* ) $ *)
Definition google_param_pattern : re :=
  cat [Bol; plus ws; Grp 1 (plus wd); star ws;
       opt (cat [chr "("; Grp 2 (lazy Dot); chr ")"]);
       star ws; chr ":"; star ws; Grp 3 (star Dot); Eol].

(** ^ \s* Returns?: *)
Definition returns_line_pattern : re :=
  cat [Bol; star ws; lit "Return"; opt (chr "s"); chr ":"].

(** ,? \s* optional     with IGNORECASE *)
Definition optional_pattern : re :=
  cat [opt (chr ","); star ws; lit "optional"].

(** [Dd]efaults? \s+ to \s+ ( .+? ) (?: \. | $ ) *)
Definition defaults_to_pattern : re :=
  cat [one_of ["D"; "d"]%char; lit "efault"; opt (chr "s"); plus ws;
       lit "to"; plus ws; Grp 1 (plus_lazy Dot); Alt (chr ".") Eol].

(** Returns?: \s* \n \s+ ( .*? ) (?: \n \s* \n | \n \s* \w+ : | \Z )     with DOTALL *)
Definition google_returns_pattern : re :=
  cat [lit "Return"; opt (chr "s"); chr ":"; star ws; chr nl; plus ws;
       Grp 1 (lazy Dot);
       alts [cat [chr nl; star ws; chr nl];
             cat [chr nl; star ws; plus wd; chr ":"];
             EndZ]].

(** ^ ( \S+? ) : \s* ( .* ) $     with DOTALL *)
Definition type_desc_pattern : re :=
  cat [Bol; Grp 1 (plus_lazy nws); chr ":"; star ws; Grp 2 (star Dot); Eol].

(** [x or None] for a group *)
Definition or_none (o : option string) : option string :=
  match o with
  | Some s => if truthy s then Some s else None
  | None => None
  end.

(** The body of the loop of [_parse_google_style] for a line that matches
    the parameter pattern: from the three groups to the [ParameterDoc]. *)
Definition google_param (name : string) (group2 : option string)
    (group3 : string) : ParameterDoc :=
  let type_info := or_none group2 in
  let desc := strip group3 in
  let '(required, type_info) :=
    match type_info with
    | Some t =>
        let required := negb (contains "optional" (lower t)) in
        let type_clean := strip (sub_empty IGNORECASE optional_pattern t) in
        (required, if truthy type_clean then Some type_clean else None)
    | None => (true, None)
    end in
  match search no_flags defaults_to_pattern desc with
  | Some m =>
      mkParameterDoc name type_info (Some desc)
        (Some (strip (group_str 1 m))) false
  | None => mkParameterDoc name type_info (Some desc) None required
  end.

Definition append_description (p : ParameterDoc) (extra : string)
  : ParameterDoc :=
  mkParameterDoc (pd_name p) (pd_type p)
    (Some (match pd_description p with Some d => d | None => "" end
           ++ " " ++ extra))
    (pd_default p) (pd_required p).

Definition flush (cur : option ParameterDoc) (acc : list ParameterDoc)
  : list ParameterDoc :=
  match cur with Some p => (acc ++ [p])%list | None => acc end.

(** The loop over the lines of the Args section; [cur] is
    [current_param], [acc] is [info.parameters]. *)
Fixpoint google_lines (lines : list string) (cur : option ParameterDoc)
    (acc : list ParameterDoc) : list ParameterDoc :=
  match lines with
  | [] => flush cur acc
  | line :: lines' =>
      match re_match no_flags returns_line_pattern line with
      | Some _ => flush cur acc
      | None =>
          match re_match no_flags google_param_pattern line with
          | Some m =>
              google_lines lines'
                (Some (google_param (group_str 1 m) (group 2 m)
                         (group_str 3 m)))
                (flush cur acc)
          | None =>
              match cur with
              | Some p =>
                  if truthy (strip line)
                     && negb (startswith (strip line) "Returns")
                  then google_lines lines'
                         (Some (append_description p (strip line))) acc
                  else google_lines lines' cur acc
              | None => google_lines lines' cur acc
              end
          end
      end
  end.

Definition google_returns (docstring : string) : option ReturnsDoc :=
  match search DOTALL google_returns_pattern docstring with
  | Some m =>
      let returns_text := strip (group_str 1 m) in
      match re_match DOTALL type_desc_pattern returns_text with
      | Some td => Some (mkReturnsDoc (group_str 1 td) (strip (group_str 2 td)))
      | None => Some (mkReturnsDoc "Any" returns_text)
      end
  | None => None
  end.

Definition _parse_google_style (docstring : string) : DocstringInfo :=
  let description :=
    match re_match DOTALL google_desc_pattern docstring with
    | Some m => Some (strip (group_str 1 m))
    | None => None
    end in
  let parameters :=
    match search no_flags args_pattern docstring with
    | Some m => google_lines (split nl (group_str 1 m)) None []
    | None => []
    end in
  mkDocstringInfo description parameters (google_returns docstring).

(** *** NumPy style *)

(** Parameters? \s* \n \s* -+ \s* \n ( (?: .* \n? )*? ) (?= \n \s* \w+ \s* \n \s* -+ | \Z ) *)
Definition numpy_section (title : string) : re :=
  cat [lit title; opt (chr "s"); star ws; chr nl; star ws; plus (chr "-");
       star ws; chr nl;
       Grp 1 (lazy (cat [star Dot; opt (chr nl)]));
       Look (Alt (cat [chr nl; star ws; plus wd; star ws; chr nl; star ws;
                       plus (chr "-")])
                 EndZ)].

(** ^ ( \w+ ) \s* : \s* ( .*? ) (?: \n | $ ) ( (?: \s+ .* \n? )* )     with MULTILINE *)
Definition numpy_param_pattern : re :=
  cat [Bol; Grp 1 (plus wd); star ws; chr ":"; star ws; Grp 2 (lazy Dot);
       Alt (chr nl) Eol;
       Grp 3 (star (cat [plus ws; star Dot; opt (chr nl)]))].

(** [Dd]efault (?:s)? \s* [:=] \s* ( .+? ) (?: \. | $ ) *)
Definition default_colon_pattern : re :=
  cat [one_of ["D"; "d"]%char; lit "efault"; opt (chr "s"); star ws;
       one_of [":"; "="]%char; star ws; Grp 1 (plus_lazy Dot);
       Alt (chr ".") Eol].

Definition numpy_param (m : rmatch) : ParameterDoc :=
  let name := group_str 1 m in
  let type_info := strip (group_str 2 m) in
  let desc := strip (group_str 3 m) in
  let is_optional := contains "optional" (lower type_info) in
  let type_info :=
    if is_optional
    then strip (sub_empty IGNORECASE optional_pattern type_info)
    else type_info in
  let ty := if truthy type_info then Some type_info else None in
  match search no_flags default_colon_pattern desc with
  | Some d => mkParameterDoc name ty (Some desc) (Some (strip (group_str 1 d))) false
  | None => mkParameterDoc name ty (Some desc) None (negb is_optional)
  end.

Definition numpy_returns (docstring : string) : option ReturnsDoc :=
  match search no_flags (numpy_section "Return") docstring with
  | Some m =>
      match split nl (strip (group_str 1 m)) with
      | [] => None
      | first :: desc_lines =>
          let type_line := strip first in
          Some (mkReturnsDoc
                  (if truthy type_line then type_line else "Any")
                  (strip (join (String nl "") (map strip desc_lines))))
      end
  | None => None
  end.

Definition _parse_numpy_style (docstring : string) : DocstringInfo :=
  let parameters :=
    match search no_flags (numpy_section "Parameter") docstring with
    | Some m => map numpy_param (finditer MULTILINE numpy_param_pattern (group_str 1 m))
    | None => []
    end in
  mkDocstringInfo None parameters (numpy_returns docstring).

(** *** Sphinx style *)

(** :param \s+ ( \w+ ) : \s* ( .*? ) (?= : | \Z )     with DOTALL;
    the same with :type for the types. *)
Definition sphinx_field_pattern (field : string) : re :=
  cat [chr ":"; lit field; plus ws; Grp 1 (plus wd); chr ":"; star ws;
       Grp 2 (lazy Dot); Look (Alt (chr ":") EndZ)].

(** :return (?:s)? : \s* ( .*? ) (?= : | \Z )     with DOTALL *)
Definition sphinx_return_pattern : re :=
  cat [lit ":return"; opt (chr "s"); chr ":"; star ws; Grp 1 (lazy Dot);
       Look (Alt (chr ":") EndZ)].

(** :rtype: \s* ( .*? ) (?= : | \Z )     with DOTALL *)
Definition sphinx_rtype_pattern : re :=
  cat [lit ":rtype:"; star ws; Grp 1 (lazy Dot); Look (Alt (chr ":") EndZ)].

(** The dictionary built by [d[name] = text.strip()] over the matches. *)
Definition sphinx_dict (ms : list rmatch) : gmap string string :=
  fold_left (fun d m => <[group_str 1 m := strip (group_str 2 m)]> d) ms ∅.

Definition sphinx_param (param_descs param_types : gmap string string)
    (name : string) : ParameterDoc :=
  let desc := default "" (param_descs !! name) in
  let type_info := param_types !! name in
  let is_optional :=
    match type_info with
    | Some t => truthy t && contains "optional" (lower t)
    | None => false
    end in
  let type_info :=
    if is_optional
    then option_map (fun t => strip (sub_empty IGNORECASE optional_pattern t)) type_info
    else type_info in
  match (if truthy desc then search no_flags default_colon_pattern desc else None) with
  | Some d => mkParameterDoc name type_info (Some desc) (Some (strip (group_str 1 d))) false
  | None => mkParameterDoc name type_info (Some desc) None (negb is_optional)
  end.

(** [all_params] is a Python [set]; its iteration order is the order of
    [elements]. *)
Definition _parse_sphinx_style (docstring : string) : DocstringInfo :=
  let param_descs := sphinx_dict (finditer DOTALL (sphinx_field_pattern "param") docstring) in
  let param_types := sphinx_dict (finditer DOTALL (sphinx_field_pattern "type") docstring) in
  let all_params : gset string := dom param_descs ∪ dom param_types in
  let parameters := map (sphinx_param param_descs param_types) (elements all_params) in
  let return_desc :=
    option_map (fun m => strip (group_str 1 m))
      (search DOTALL sphinx_return_pattern docstring) in
  let return_type :=
    option_map (fun m => strip (group_str 1 m))
      (search DOTALL sphinx_rtype_pattern docstring) in
  let nonempty (o : option string) :=
    match o with Some t => truthy t | None => false end in
  let returns :=
    if nonempty return_desc || nonempty return_type
    then Some (mkReturnsDoc
                 (if nonempty return_type then default "" return_type else "Any")
                 (if nonempty return_desc then default "" return_desc else ""))
    else None in
  mkDocstringInfo None parameters returns.

(** *** The description before the first section marker *)

Definition nl_section (title : re) : re := cat [chr nl; star ws; title; chr ":"].

(** The alternatives of [_extract_description], joined by a bar:
    \n\s*Args?: | \n\s*Parameters?: | \n\s*Returns?: | \n\s*Yields?: |
    \n\s*Raises?: | \n\s*Note: | \n\s*Example: | \n\s*Examples: |
    \n\s*See Also: | \n\s*Attributes?: | \n\s*References?: | \n\s*-{3,} |
    :param\s+\w+: | :type\s+\w+: | :return: | :rtype: *)
Definition section_marker_pattern : re :=
  alts [nl_section (word_s "Arg" "s"); nl_section (word_s "Parameter" "s");
        nl_section (word_s "Return" "s"); nl_section (word_s "Yield" "s");
        nl_section (word_s "Raise" "s"); nl_section (word "Note");
        nl_section (word "Example"); nl_section (word "Examples");
        nl_section (word "See Also"); nl_section (word_s "Attribute" "s");
        nl_section (word_s "Reference" "s");
        cat [chr nl; star ws; lit "---"; star (chr "-")];
        cat [lit ":param"; plus ws; plus wd; chr ":"];
        cat [lit ":type"; plus ws; plus wd; chr ":"];
        lit ":return:"; lit ":rtype:"].

Definition _extract_description (docstring : string) : option string :=
  let desc :=
    match search no_flags section_marker_pattern docstring with
    | Some m => strip (take (m_start m) docstring)
    | None => strip docstring
    end in
  let cleaned_lines := map strip (split nl desc) in
  let desc := join " " (filter (fun l => truthy l = true) cleaned_lines) in
  if truthy desc then Some desc else None.

Definition is_empty {A} (l : list A) : bool :=
  match l with [] => true | _ => false end.

(** [DocstringParser.parse] *)
Definition parse (docstring : string) : DocstringInfo :=
  if negb (truthy docstring) then empty_info
  else
    let docstring := strip docstring in
    let info := _parse_google_style docstring in
    let info :=
      if is_empty (di_parameters info) then
        let numpy_info := _parse_numpy_style docstring in
        if is_empty (di_parameters numpy_info) then info else numpy_info
      else info in
    let info :=
      if is_empty (di_parameters info) then
        let sphinx_info := _parse_sphinx_style docstring in
        if is_empty (di_parameters sphinx_info) then info else sphinx_info
      else info in
    match di_description info with
    | Some d =>
        if truthy d then info
        else mkDocstringInfo (_extract_description docstring)
               (di_parameters info) (di_returns info)
    | None =>
        mkDocstringInfo (_extract_description docstring)
          (di_parameters info) (di_returns info)
    end.

(** *** A Google style docstring that documents one parameter *)

(** The type hint in brackets after the name of a parameter. *)
Definition type_hint (qualifier : option string) : string :=
  match qualifier with
  | Some q => " (" ++ q ++ ")"
  | None => ""
  end.

(** The line of the Args section for a parameter, indented by four
    blanks. *)
Definition google_param_line (pname : string) (qualifier : option string)
    (description : string) : string :=
  "    " ++ pname ++ type_hint qualifier ++ ": " ++ description.

(** The docstring: a summary, an empty line, the header [Args:] and the
    line of the parameter. *)
Definition google_docstring (summary pname : string)
    (qualifier : option string) (description : string) : string :=
  summary
  ++ String nl (String nl ("Args:"
  ++ String nl (google_param_line pname qualifier description))).




End DocstringParser.

(* ===================================================================== *)
(** ** Python syntax trees, as the [ast] module exposes them *)
(* ===================================================================== *)

Module Ast.
Import PyStr.

(** The value of an [ast.Constant].  A float, complex or bytes constant
    carries the text that [repr] prints for it. *)
Inductive constant : Type :=
| CStr (s : string)
| CInt (z : Z)
| CBool (b : bool)
| CNone
| CEllipsis
| CRepr (text : string).

(** One type for all nodes, as the sources tell the classes apart with
    [isinstance].  The fields are those the sources read, in the order of
    [_fields]; [Other] stands for every other class, with its child nodes
    in the order of [ast.iter_child_nodes].  The context and operator
    leaves ([Load], [Store], [BitOr], ...) are not nodes of the model: no
    source line looks at them while walking, and leaving leaves out does
    not change the order of the other nodes in a walk. *)
#[warnings="-register-all"]
Inductive node : Type :=
| Module_ (body : list node)
| FunctionDef (name : string) (args : node) (body : list node)
    (decorator_list : list node) (returns : option node)
| AsyncFunctionDef (name : string) (args : node) (body : list node)
    (decorator_list : list node) (returns : option node)
| ClassDef (name : string) (bases : list node) (keywords : list node)
    (body : list node) (decorator_list : list node)
| Assign (targets : list node) (value : node)
| AnnAssign (target : node) (annotation : node) (value : option node)
| ImportFrom (module : option string) (names : list node) (level : nat)
| alias (name : string) (asname : option string)
| Expr (value : node)
| Call (func : node) (args : list node) (keywords : list node)
| keyword (arg : option string) (value : node)
| Name (id : string)
| Attribute (value : node) (attr : string)
| Constant (value : constant)
| List_ (elts : list node)
| Tuple_ (elts : list node)
| Dict_ (keys : list (option node)) (values : list node)
| Lambda (args : node) (body : node)
| arguments (posonlyargs : list node) (args : list node)
    (vararg : option node) (kwonlyargs : list node)
    (kw_defaults : list (option node)) (kwarg : option node)
    (defaults : list node)
| arg (name : string) (annotation : option node)
| Subscript (value : node) (slice : node)
| BinOp (left : node) (op : string) (right : node)
| UnaryOp (op : string) (operand : node)
| Other (kind : string) (children : list node).

Definition opt_list {A} (o : option A) : list A :=
  match o with Some x => [x] | None => [] end.

Definition somes {A} (l : list (option A)) : list A :=
  flat_map opt_list l.

(** [ast.iter_child_nodes] *)
Definition iter_child_nodes (n : node) : list node :=
  match n with
  | Module_ body => body
  | FunctionDef _ a body decs ret
  | AsyncFunctionDef _ a body decs ret =>
      (a :: body ++ decs ++ opt_list ret)%list
  | ClassDef _ bases kws body decs => (bases ++ kws ++ body ++ decs)%list
  | Assign targets v => (targets ++ [v])%list
  | AnnAssign t a v => (t :: a :: opt_list v)%list
  | ImportFrom _ names _ => names
  | alias _ _ => []
  | Expr v => [v]
  | Call f a kws => (f :: a ++ kws)%list
  | keyword _ v => [v]
  | Name _ => []
  | Attribute v _ => [v]
  | Constant _ => []
  | List_ elts | Tuple_ elts => elts
  | Dict_ ks vs => (somes ks ++ vs)%list
  | Lambda a b => [a; b]
  | arguments po a va ko kd kw d =>
      (po ++ a ++ opt_list va ++ ko ++ somes kd ++ opt_list kw ++ d)%list
  | arg _ ann => opt_list ann
  | Subscript v s => [v; s]
  | BinOp l _ r => [l; r]
  | UnaryOp _ o => [o]
  | Other _ cs => cs
  end.

(** The number of nodes of a tree. *)
Fixpoint size (n : node) : nat :=
  let sizes := fix sizes (l : list node) : nat :=
    match l with [] => 0 | x :: l' => size x + sizes l' end in
  let osize (o : option node) : nat :=
    match o with Some x => size x | None => 0 end in
  let osizes := fix osizes (l : list (option node)) : nat :=
    match l with
    | [] => 0
    | Some x :: l' => size x + osizes l'
    | None :: l' => osizes l'
    end in
  S match n with
    | Module_ body => sizes body
    | FunctionDef _ a body decs ret
    | AsyncFunctionDef _ a body decs ret =>
        size a + sizes body + sizes decs + osize ret
    | ClassDef _ bases kws body decs =>
        sizes bases + sizes kws + sizes body + sizes decs
    | Assign targets v => sizes targets + size v
    | AnnAssign t a v => size t + size a + osize v
    | ImportFrom _ names _ => sizes names
    | alias _ _ => 0
    | Expr v => size v
    | Call f a kws => size f + sizes a + sizes kws
    | keyword _ v => size v
    | Name _ => 0
    | Attribute v _ => size v
    | Constant _ => 0
    | List_ elts | Tuple_ elts => sizes elts
    | Dict_ ks vs => osizes ks + sizes vs
    | Lambda a b => size a + size b
    | arguments po a va ko kd kw d =>
        sizes po + sizes a + osize va + sizes ko + osizes kd + osize kw
        + sizes d
    | arg _ ann => osize ann
    | Subscript v s => size v + size s
    | BinOp l _ r => size l + size r
    | UnaryOp _ o => size o
    | Other _ cs => sizes cs
    end.

(** [ast.walk]: the nodes in breadth-first order, the queue as a list. *)
Fixpoint bfs (fuel : nat) (todo : list node) : list node :=
  match fuel, todo with
  | S fuel', n :: todo' => n :: bfs fuel' (todo' ++ iter_child_nodes n)
  | _, _ => []
  end.

Definition walk (tree : node) : list node := bfs (size tree) [tree].

(** The outcome of [ast.parse]: a tree, a [SyntaxError], or another
    exception. *)
Inductive parse_outcome : Type :=
| Parsed (tree : node)
| SyntaxError
| OtherError.

(** *** [repr] of a constant *)

Definition hex_digit (n : nat) : ascii :=
  ascii_of_nat (if n <? 10 then 48 + n else 87 + n).

Definition repr_char (quote c : ascii) : string :=
  let bs : ascii := "\"%char in
  if Ascii.eqb c quote || Ascii.eqb c bs then String bs (String c "")
  else if Ascii.eqb c nl then String bs "n"
  else if Ascii.eqb c tab then String bs "t"
  else if Ascii.eqb c "013"%char then String bs "r"
  else if (nat_of_ascii c <? 32) || (nat_of_ascii c =? 127)
  then String bs (String "x" (String (hex_digit (nat_of_ascii c / 16))
                                (String (hex_digit (nat_of_ascii c mod 16)) "")))
  else String c "".

Fixpoint repr_body (quote : ascii) (s : string) : string :=
  match s with
  | EmptyString => EmptyString
  | String c t => repr_char quote c ++ repr_body quote t
  end.

Definition repr_str (s : string) : string :=
  let quote :=
    if contains (String sq "") s && negb (contains (String dq "") s)
    then dq else sq in
  String quote (repr_body quote s ++ String quote "").

Definition repr (c : constant) : string :=
  match c with
  | CStr s => repr_str s
  | CInt z => NilZero.string_of_int (Z.to_int z)
  | CBool true => "True"
  | CBool false => "False"
  | CNone => "None"
  | CEllipsis => "Ellipsis"
  | CRepr text => text
  end.

End Ast.

(* ===================================================================== *)
(** ** detectors/base.py *)
(* ===================================================================== *)

Module BaseDetector.
Import PyStr Re Ast DocstringParser.

(** The dictionary that describes one parameter: the keys [type],
    [required] and [description] are always set, [default] only when a
    default value is known. *)
Record param_info : Type := mkParam {
  pi_type : string;
  pi_required : bool;
  pi_description : option string;
  pi_default : option string
}.

(** The [returns] dictionary. *)
Record returns_info : Type := mkReturns {
  ri_type : string;
  ri_description : option string
}.

(** The dictionary built by [extract_function_signature]; the key
    [description] is added by [merge_docstring_info]. *)
Record signature : Type := mkSignature {
  sig_parameters : gmap string param_info;
  sig_returns : returns_info;
  sig_description : option string
}.

(** [ToolInfo] *)
Record ToolInfo : Type := mkToolInfo {
  name : string;
  file_path : string;
  line_number : nat;
  description : option string;
  parameters : gmap string param_info;
  returns : option returns_info;
  raw_definition : option string
}.

(** [ToolInfo(name=..., file_path=...)] with the defaults of the class. *)
Definition new_tool (name file_path : string) : ToolInfo :=
  mkToolInfo name file_path 0 None ∅ None None.

(** Values stored in [DetectorResult.metadata] and in the dictionaries of
    agent and task details. *)
#[warnings="-register-all"]
Inductive pyval : Type :=
| VStr (s : string)
| VBool (b : bool)
| VConst (c : constant)
| VList (l : list pyval)
| VDict (d : list (string * pyval))
| VTools (ts : list ToolInfo).

(** [d[k] = v] on a dictionary kept in insertion order. *)
Fixpoint dict_set (k : string) (v : pyval) (d : list (string * pyval))
  : list (string * pyval) :=
  match d with
  | [] => [(k, v)]
  | (k', v') :: d' =>
      if String.eqb k k' then (k, v) :: d' else (k', v') :: dict_set k v d'
  end.

Fixpoint dict_get (k : string) (d : list (string * pyval)) : option pyval :=
  match d with
  | [] => None
  | (k', v) :: d' => if String.eqb k k' then Some v else dict_get k d'
  end.

(** [DetectorResult] *)
Record DetectorResult : Type := mkResult {
  found : bool;
  agent_name : option string;
  constructor_file : option string;
  tool_files : list string;
  tools : list ToolInfo;
  architecture : string;
  frameworks : list string;
  language : string;
  agent_type : string;
  metadata : list (string * pyval)
}.

(** [check_presence_signature]: the flag is [re.MULTILINE]. *)
Definition check_presence_signature (signatures : list re)
    (content : string) : bool :=
  existsb (fun sg => bool_decide (is_Some (search MULTILINE sg content)))
    signatures.

(** [check_construction_signature]: the first signature that matches,
    with [re.MULTILINE | re.DOTALL]. *)
Fixpoint check_construction_signature (signatures : list re)
    (content : string) : option rmatch :=
  match signatures with
  | [] => None
  | sg :: rest =>
      match search MULTILINE_DOTALL sg content with
      | Some m => Some m
      | None => check_construction_signature rest content
      end
  end.

(** [extract_string_value] *)
Definition extract_string_value (n : node) : option string :=
  match n with
  | Constant (CStr s) => Some s
  | _ => None
  end.

(** [extract_list_items] *)
Definition extract_list_items (n : node) : list string :=
  match n with
  | List_ elts | Tuple_ elts =>
      flat_map
        (fun item =>
           match item with
           | Name id => [id]
           | Call (Name id) _ _ => [id]
           | _ => []
           end)
        elts
  | _ => []
  end.

(** The classes among [Other] that have a field [value], with the place
    of that field among the children; [hasattr(node.slice, "value")]
    holds for them. *)
Definition other_value_index (kind : string) : option nat :=
  if existsb (String.eqb kind)
       ["Starred"; "Await"; "YieldFrom"; "Yield"; "FormattedValue"]
  then Some 0
  else if existsb (String.eqb kind) ["NamedExpr"; "DictComp"]
  then Some 1
  else None.

Definition bracket (base inner : string) : string :=
  base ++ "[" ++ inner ++ "]".

(** [_ast_to_type_string] for a node that is not [None]. *)
Fixpoint _ast_to_type_string (n : node) : string :=
  match n with
  | Name id => id
  | Constant v => repr v
  | Subscript v sl =>
      let base := _ast_to_type_string v in
      match sl with
      | Constant _ => bracket base "Any"
      | Attribute v' _ | Subscript v' _ | keyword _ v' | Expr v'
      | Assign _ v' => bracket base (_ast_to_type_string v')
      | AnnAssign _ _ (Some v') => bracket base (_ast_to_type_string v')
      | AnnAssign _ _ None => bracket base "Any"
      | Tuple_ elts =>
          bracket base (join ", " (map _ast_to_type_string elts))
      | Other kind cs =>
          match other_value_index kind with
          | Some i =>
              bracket base (nth i (map _ast_to_type_string cs) "Any")
          | None => bracket base "Any"
          end
      | Name id => bracket base id
      | BinOp l op r =>
          bracket base
            (if String.eqb op "BitOr"
             then _ast_to_type_string l ++ " | " ++ _ast_to_type_string r
             else "Any")
      | _ => bracket base "Any"
      end
  | BinOp l op r =>
      if String.eqb op "BitOr"
      then _ast_to_type_string l ++ " | " ++ _ast_to_type_string r
      else "Any"
  | Tuple_ elts =>
      "Tuple[" ++ join ", " (map _ast_to_type_string elts) ++ "]"
  | Attribute v a => _ast_to_type_string v ++ "." ++ a
  | _ => "Any"
  end.

(** [_ast_to_type_string(x) if x else "Any"] *)
Definition type_string_or_any (o : option node) : string :=
  match o with Some n => _ast_to_type_string n | None => "Any" end.

(** [_ast_to_value_string] for a node that is not [None]; the keys of a
    dictionary display may be [None]. *)
Fixpoint _ast_to_value_string (n : node) : string :=
  match n with
  | Constant v => repr v
  | Name id => id
  | UnaryOp op o =>
      if String.eqb op "USub" then "-" ++ _ast_to_value_string o else "..."
  | List_ elts => "[" ++ join ", " (map _ast_to_value_string elts) ++ "]"
  | Tuple_ elts => "(" ++ join ", " (map _ast_to_value_string elts) ++ ")"
  | Dict_ ks vs =>
      let keys :=
        map (fun o => match o with
                      | Some k => _ast_to_value_string k
                      | None => "None"
                      end) ks in
      let vals := map _ast_to_value_string vs in
      "{" ++ join ", " (map (fun kv => fst kv ++ ": " ++ snd kv)
                          (combine keys vals)) ++ "}"
  | _ => "..."
  end.

Definition arg_name (a : node) : string :=
  match a with arg n _ => n | _ => "" end.

Definition arg_annotation (a : node) : option node :=
  match a with arg _ ann => ann | _ => None end.

(** The loop over [args.args]: [i] is the index, [offset] is
    [defaults_offset], an integer that is negative when some defaults
    belong to positional-only parameters. *)
Fixpoint positional_params (args : list node) (i : nat) (offset : Z)
    (defaults : list node) (params : gmap string param_info)
  : gmap string param_info :=
  match args with
  | [] => params
  | a :: args' =>
      let ty := type_string_or_any (arg_annotation a) in
      let info :=
        if (offset <=? Z.of_nat i)%Z then
          match defaults !! Z.to_nat (Z.of_nat i - offset) with
          | Some d => mkParam ty false None (Some (_ast_to_value_string d))
          | None => mkParam ty false None None
          end
        else mkParam ty true None None in
      positional_params args' (S i) offset defaults
        (<[arg_name a := info]> params)
  end.

(** The loop over [args.kwonlyargs]. *)
Fixpoint kwonly_params (args : list node) (i : nat) (offset : Z)
    (kw_defaults : list (option node)) (params : gmap string param_info)
  : gmap string param_info :=
  match args with
  | [] => params
  | a :: args' =>
      let ty := type_string_or_any (arg_annotation a) in
      let info :=
        if (offset <=? Z.of_nat i)%Z then
          match kw_defaults !! Z.to_nat (Z.of_nat i - offset) with
          | Some (Some d) =>
              mkParam ty false None (Some (_ast_to_value_string d))
          | _ => mkParam ty true None None
          end
        else mkParam ty true None None in
      kwonly_params args' (S i) offset kw_defaults
        (<[arg_name a := info]> params)
  end.

Definition star_param (stars : string) (text : string)
    (a : option node) (params : gmap string param_info)
  : gmap string param_info :=
  match a with
  | Some v =>
      <[stars ++ arg_name v :=
          mkParam (type_string_or_any (arg_annotation v)) false
            (Some text) None]> params
  | None => params
  end.

Definition length_Z {A} (l : list A) : Z := Z.of_nat (List.length l).

(** [extract_function_signature] *)
Definition extract_function_signature (func_node : node) : signature :=
  match func_node with
  | FunctionDef _ (arguments _ args vararg kwonlyargs kw_defaults kwarg defaults)
      _ _ rets =>
      let params :=
        positional_params args 0 (length_Z args - length_Z defaults)%Z
          defaults ∅ in
      let params :=
        star_param "*" "Variable positional arguments" vararg params in
      let params :=
        kwonly_params kwonlyargs 0
          (length_Z kwonlyargs - length_Z kw_defaults)%Z kw_defaults params in
      let params :=
        star_param "**" "Variable keyword arguments" kwarg params in
      let return_type :=
        match rets with
        | Some r =>
            let t := _ast_to_type_string r in
            if truthy t then t else "Any"
        | None => "Any"
        end in
      mkSignature params (mkReturns return_type None) None
  | _ => mkSignature ∅ (mkReturns "Any" None) None
  end.

(** The body of the loop of [merge_docstring_info] for one documented
    parameter. *)
Definition merge_param (param_doc : ParameterDoc) (info : param_info)
  : param_info :=
  let description :=
    match pd_description param_doc with
    | Some d => if truthy d then Some d else pi_description info
    | None => pi_description info
    end in
  let type :=
    match pd_type param_doc with
    | Some t =>
        if truthy t && String.eqb (pi_type info) "Any"
        then t else pi_type info
    | None => pi_type info
    end in
  match pd_default param_doc with
  | Some d => mkParam type false description (Some d)
  | None => mkParam type (pi_required info) description (pi_default info)
  end.

Definition merge_parameters (docs : list ParameterDoc)
    (params : gmap string param_info) : gmap string param_info :=
  fold_left
    (fun params param_doc =>
       match params !! pd_name param_doc with
       | Some info =>
           <[pd_name param_doc := merge_param param_doc info]> params
       | None => params
       end)
    docs params.

Definition merge_returns (doc : option ReturnsDoc) (r : returns_info)
  : returns_info :=
  match doc with
  | Some rd =>
      let description :=
        if truthy (rd_description rd) then Some (rd_description rd)
        else ri_description r in
      let type :=
        if truthy (rd_type rd) && String.eqb (ri_type r) "Any"
        then rd_type rd else ri_type r in
      mkReturns type description
  | None => r
  end.

(** [merge_docstring_info] once the docstring is parsed. *)
Definition merge_doc_info (sg : signature) (doc_info : DocstringInfo)
  : signature :=
  mkSignature
    (merge_parameters (di_parameters doc_info) (sig_parameters sg))
    (merge_returns (di_returns doc_info) (sig_returns sg))
    (match di_description doc_info with
     | Some d => if truthy d then Some d else sig_description sg
     | None => sig_description sg
     end).

(** [merge_docstring_info] *)
Definition merge_docstring_info (sg : signature) (docstring : option string)
  : signature :=
  match docstring with
  | None => sg
  | Some d =>
      if truthy d then merge_doc_info sg (DocstringParser.parse d) else sg
  end.

(** *** What a docstring states for one parameter *)

(** The last and the first value that a list of optional values
    states. *)
Fixpoint last_stated {A} (l : list (option A)) : option A :=
  match l with
  | [] => None
  | o :: l' =>
      match last_stated l' with
      | Some x => Some x
      | None => o
      end
  end.

Fixpoint first_stated {A} (l : list (option A)) : option A :=
  match l with
  | [] => None
  | Some x :: _ => Some x
  | None :: l' => first_stated l'
  end.

(** The entries of the parsed docstring for the parameter [pname], in
    the order of the docstring; none for a docstring that is absent or
    empty. *)
Definition documented (docstring : option string) (pname : string)
  : list ParameterDoc :=
  match docstring with
  | Some d =>
      if truthy d
      then List.filter (fun doc => String.eqb (pd_name doc) pname)
             (di_parameters (DocstringParser.parse d))
      else []
  | None => []
  end.

(** The default value, the description and the type that these entries
    state: the last default, the last description that is not empty, the
    first type that is neither empty nor [Any]. *)
Definition stated_default (docs : list ParameterDoc) : option string :=
  last_stated (map pd_default docs).

Definition stated_description (docs : list ParameterDoc) : option string :=
  last_stated (map (fun doc => or_none (pd_description doc)) docs).

Definition stated_type (docs : list ParameterDoc) : option string :=
  first_stated
    (map (fun doc =>
            match pd_type doc with
            | Some t =>
                if truthy t && negb (String.eqb t "Any") then Some t else None
            | None => None
            end)
       docs).

End BaseDetector.

(* ===================================================================== *)
(** ** detectors/schema_extractors.py *)
(* ===================================================================== *)

Module SchemaExtractors.
Import PyStr Re BaseDetector.

(** The interface [SchemaExtractor].  [extract_params] answers [None]
    when the method raises an exception; [can_extract] has the type of its
    contract. *)
Record SchemaExtractor : Type := mkExtractor {
  can_extract : string -> bool;
  extract_params : string -> string -> option (gmap string param_info);
  get_library_name : string
}.

Definition matches (fl : flags) (content : string) (r : re) : bool :=
  bool_decide (is_Some (search fl r content)).

(** The lookup [type_map.get(t, t)] of a table of type names. *)
Fixpoint map_get (table : list (string * string)) (t : string) : string :=
  match table with
  | [] => t
  | (k, v) :: table' => if String.eqb k t then v else map_get table' t
  end.

(** *** Zod *)

(** The five indicators of [ZodSchemaExtractor.can_extract]:
    import \s* \{ [^}]* z [^}]* \} \s* from \s* [QUOTE] zod [QUOTE]
    from \s+ [QUOTE] zod [QUOTE]
    z\.object \s* \(      z\.string \s* \(      z\.number \s* \(  *)
Definition zod_indicators : list re :=
  [cat [lit "import"; star ws; chr "{"; star (none_of ["}"%char]); chr "z";
        star (none_of ["}"%char]); chr "}"; star ws; lit "from"; star ws;
        quote; lit "zod"; quote];
   cat [lit "from"; plus ws; quote; lit "zod"; quote];
   cat [lit "z.object"; star ws; chr "("];
   cat [lit "z.string"; star ws; chr "("];
   cat [lit "z.number"; star ws; chr "("]].

Definition zod_can_extract (content : string) : bool :=
  existsb (matches no_flags content) zod_indicators.

(** ( \w+ ) \s* : \s* z \. ( \w+ ) \s* \( ( [^)]* ) \) ( [^,\n]*? ) (?= , | \n | $ | \} )
    with DOTALL *)
Definition zod_field_pattern : re :=
  cat [Grp 1 (plus wd); star ws; chr ":"; star ws; lit "z."; Grp 2 (plus wd);
       star ws; chr "("; Grp 3 (star (none_of [")"%char])); chr ")";
       Grp 4 (lazy (none_of [","%char; nl]));
       Look (alts [chr ","; chr nl; Eol; chr "}"])].

Definition zod_type_map : list (string * string) :=
  [("string", "str"); ("number", "number"); ("boolean", "bool");
   ("object", "object"); ("array", "array"); ("date", "date");
   ("any", "any"); ("literal", "literal"); ("enum", "enum")].

(** \.describe \s* \( \s* [QUOTE] ( [^QUOTE]+ ) [QUOTE] *)
Definition describe_pattern : re :=
  cat [lit ".describe"; star ws; chr "("; star ws; quote;
       Grp 1 (plus not_quote); quote].

(** \.describe \s* \( \s* ` ( [^`]+ ) ` *)
Definition describe_template_pattern : re :=
  cat [lit ".describe"; star ws; chr "("; star ws; chr bq;
       Grp 1 (plus (none_of [bq])); chr bq].

(** The body of the loop of [ZodSchemaExtractor.extract_params]: the
    record for one match of the field pattern. *)
Definition zod_param (m : rmatch) : param_info :=
  let field_type := group_str 2 m in
  let field_args := strip (group_str 3 m) in
  let field_modifiers := strip (group_str 4 m) in
  let param_type :=
    if String.eqb field_type "literal" && truthy field_args
    then "literal<" ++ field_args ++ ">"
    else if String.eqb field_type "enum" && truthy field_args
    then "enum<" ++ field_args ++ ">"
    else if String.eqb field_type "array" && truthy field_args
    then (if contains "z.object" field_args then "array<object>"
          else if contains "z.string" field_args then "array<str>"
          else "array")
    else map_get zod_type_map field_type in
  let required := negb (contains ".optional()" field_modifiers) in
  let description :=
    match search no_flags describe_pattern field_modifiers with
    | Some d => Some (group_str 1 d)
    | None =>
        match search no_flags describe_template_pattern field_modifiers with
        | Some d => Some (strip (group_str 1 d))
        | None => None
        end
    end in
  mkParam param_type required description None.

(** [parameters[field_name] = param_info] over the matches, in order. *)
Definition collect (field : rmatch -> param_info) (ms : list rmatch)
  : gmap string param_info :=
  fold_left (fun params m => <[group_str 1 m := field m]> params) ms ∅.

Definition zod_extract_params (content schema_body : string)
  : gmap string param_info :=
  collect zod_param (finditer DOTALL zod_field_pattern schema_body).

Definition ZodSchemaExtractor : SchemaExtractor :=
  mkExtractor zod_can_extract
    (fun content body => Some (zod_extract_params content body)) "Zod".

(** *** Plain TypeScript interfaces *)

Definition ts_can_extract (content : string) : bool :=
  contains "interface" content && contains "{" content.

(** ( \w+ ) \?? : \s* ( [^;,\n]+ ) *)
Definition ts_field_pattern : re :=
  cat [Grp 1 (plus wd); opt (chr "?"); chr ":"; star ws;
       Grp 2 (plus (none_of [";"%char; ","%char; nl]))].

Definition ts_type_map : list (string * string) :=
  [("string", "str"); ("number", "number"); ("boolean", "bool");
   ("object", "object"); ("any", "any"); ("Array", "array")].

Definition ts_param (m : rmatch) : param_info :=
  let field_type_raw := strip (group_str 2 m) in
  let is_optional :=
    match split ":" (m_text m) with
    | first :: _ => contains "?" first
    | [] => false
    end in
  let param_type :=
    if startswith field_type_raw (String sq "")
       || startswith field_type_raw (String dq "")
    then "literal<" ++ field_type_raw ++ ">"
    else if contains "|" field_type_raw
    then "enum<" ++ field_type_raw ++ ">"
    else if endswith field_type_raw "[]"
    then "array<" ++
         map_get ts_type_map
           (take (String.length field_type_raw - 2) field_type_raw) ++ ">"
    else map_get ts_type_map field_type_raw in
  mkParam param_type (negb is_optional) None None.

Definition ts_extract_params (content schema_body : string)
  : gmap string param_info :=
  collect ts_param (finditer no_flags ts_field_pattern schema_body).

Definition TypeScriptInterfaceExtractor : SchemaExtractor :=
  mkExtractor ts_can_extract
    (fun content body => Some (ts_extract_params content body))
    "TypeScript".

(** *** Yup *)

(** The four indicators of [YupSchemaExtractor.can_extract], with
    IGNORECASE:
    import \s* \{ [^}]* yup [^}]* \}      from \s+ [QUOTE] yup [QUOTE]
    yup\.object \s* \(      yup\.string \s* \(  *)
Definition yup_indicators : list re :=
  [cat [lit "import"; star ws; chr "{"; star (none_of ["}"%char]);
        lit "yup"; star (none_of ["}"%char]); chr "}"];
   cat [lit "from"; plus ws; quote; lit "yup"; quote];
   cat [lit "yup.object"; star ws; chr "("];
   cat [lit "yup.string"; star ws; chr "("]].

Definition yup_can_extract (content : string) : bool :=
  existsb (matches IGNORECASE content) yup_indicators.

(** ( \w+ ) \s* : \s* yup \. ( \w+ ) \s* \( \) ( [^,\n]*? ) (?= , | \n | $ | \} )
    with DOTALL *)
Definition yup_field_pattern : re :=
  cat [Grp 1 (plus wd); star ws; chr ":"; star ws; lit "yup.";
       Grp 2 (plus wd); star ws; lit "()";
       Grp 3 (lazy (none_of [","%char; nl]));
       Look (alts [chr ","; chr nl; Eol; chr "}"])].

Definition yup_type_map : list (string * string) :=
  [("string", "str"); ("number", "number"); ("boolean", "bool");
   ("object", "object"); ("array", "array"); ("date", "date")].

(** \.label \s* \( \s* [QUOTE] ( [^QUOTE]+ ) [QUOTE] *)
Definition label_pattern : re :=
  cat [lit ".label"; star ws; chr "("; star ws; quote;
       Grp 1 (plus not_quote); quote].

Definition yup_param (m : rmatch) : param_info :=
  let field_type := group_str 2 m in
  let field_modifiers := strip (group_str 3 m) in
  let required :=
    negb (contains ".optional()" field_modifiers
          || contains ".notRequired()" field_modifiers) in
  let description :=
    match search no_flags label_pattern field_modifiers with
    | Some d => Some (group_str 1 d)
    | None => None
    end in
  mkParam (map_get yup_type_map field_type) required description None.

Definition yup_extract_params (content schema_body : string)
  : gmap string param_info :=
  collect yup_param (finditer DOTALL yup_field_pattern schema_body).

Definition YupSchemaExtractor : SchemaExtractor :=
  mkExtractor yup_can_extract
    (fun content body => Some (yup_extract_params content body)) "Yup".

(** *** [SchemaExtractorFactory]: the state of a factory is its list
    [self.extractors]. *)

Definition factory : Type := list SchemaExtractor.

(** [SchemaExtractorFactory()] *)
Definition new_factory : factory :=
  [ZodSchemaExtractor; YupSchemaExtractor; TypeScriptInterfaceExtractor].

(** [get_extractor] *)
Fixpoint get_extractor (extractors : factory) (content : string)
  : option SchemaExtractor :=
  match extractors with
  | [] => None
  | extractor :: rest =>
      if can_extract extractor content then Some extractor
      else get_extractor rest content
  end.

(** [register_extractor]: [self.extractors.insert(0, extractor)] *)
Definition register_extractor (extractors : factory)
    (extractor : SchemaExtractor) : factory :=
  extractor :: extractors.

End SchemaExtractors.

(* ===================================================================== *)
(** ** models.py and the tool conversion of scanner.py *)
(* ===================================================================== *)

Module Scanner.
Import PyStr BaseDetector.

(** [ToolParameter], [ToolReturns], [ToolDetail], [Tools] *)
Record ToolParameter : Type := mkToolParameter {
  tp_type : string;
  tp_required : bool;
  tp_description : option string
}.

Record ToolReturns : Type := mkToolReturns {
  tr_type : string;
  tr_description : option string
}.

Record ToolDetail : Type := mkToolDetail {
  tool_name : string;
  td_description : string;
  td_parameters : gmap string ToolParameter;
  td_returns : option ToolReturns;
  integrations : list string;
  capabilities : list string;
  category : option string
}.

Record Tools : Type := mkTools {
  count : nat;
  details : list ToolDetail
}.

(** [ToolParameter(type=..., required=..., description=...)]: the three
    keys are set in every [param_info], so that the defaults of
    [param_info.get] are not used. *)
Definition to_tool_parameter (info : param_info) : ToolParameter :=
  mkToolParameter (pi_type info) (pi_required info) (pi_description info).

(** The loop over [tool.parameters.items()]: the names that start with a
    star are skipped. *)
Definition convert_parameters (parameters : gmap string param_info)
  : gmap string ToolParameter :=
  map_fold
    (fun param_name info params =>
       if startswith param_name "*" then params
       else <[param_name := to_tool_parameter info]> params)
    ∅ parameters.

Definition convert_returns (r : option returns_info) : option ToolReturns :=
  match r with
  | Some ri => Some (mkToolReturns (ri_type ri) (ri_description ri))
  | None => None
  end.

(** [tool.description or "unknown"] *)
Definition description_or_unknown (d : option string) : string :=
  match d with
  | Some s => if truthy s then s else "unknown"
  | None => "unknown"
  end.

(** The body of the loop over [result.tools] in
    [_create_agent_from_result]. *)
Definition convert_tool (tool : ToolInfo) : ToolDetail :=
  mkToolDetail (name tool) (description_or_unknown (description tool))
    (convert_parameters (parameters tool)) (convert_returns (returns tool))
    [] [] None.

(** [Tools(count=len(result.tools), details=tool_details)] *)
Definition convert_tools (result : DetectorResult) : Tools :=
  mkTools (List.length (tools result)) (map convert_tool (tools result)).

End Scanner.

(* ===================================================================== *)
(** ** Paths and the file system, as [pathlib] shows them *)
(* ===================================================================== *)

Module PyPath.
Import PyStr.

(** A path is the list of its components below the root. *)
Definition Path : Type := list string.

(** [str(p)] *)
Definition path_str (p : Path) : string := "/" ++ join "/" p.

(** [p.parent]: the root is its own parent. *)
Definition parent (p : Path) : Path := removelast p.

(** [p / part] for a part without a slash. *)
Definition joinpath (p : Path) (part : string) : Path :=
  if truthy part then (p ++ [part])%list else p.

(** The index of the last dot of a name, counted from the left. *)
Fixpoint last_dot (s : string) (i : nat) (found : option nat) : option nat :=
  match s with
  | EmptyString => found
  | String c t =>
      last_dot t (S i) (if Ascii.eqb c "." then Some i else found)
  end.

(** [PurePath.stem] of a name: the name without its suffix; a leading or
    a trailing dot starts no suffix. *)
Definition stem_of (name : string) : string :=
  match last_dot name 0 None with
  | Some i =>
      if (0 <? i) && (i <? String.length name - 1) then take i name
      else name
  | None => name
  end.

(** [p.with_suffix(suffix)]; [None] stands for the [ValueError] raised
    for a path without a name. *)
Definition with_suffix (p : Path) (suffix : string) : option Path :=
  match List.last (map Some p) None with
  | Some name =>
      Some (removelast p ++ [String.append (stem_of name) suffix])%list
  | None => None
  end.

(** What the file system holds at a path: a file, with its text when its
    bytes decode, or a directory. *)
Inductive entry : Type :=
| File (text : option string)
| Dir.

Definition file_system : Type := Path -> option entry.

(** [p.exists()] *)
Definition exists_ (fs : file_system) (p : Path) : bool :=
  bool_decide (is_Some (fs p)).

(** [p.is_file()] *)
Definition is_file (fs : file_system) (p : Path) : bool :=
  match fs p with
  | Some (File _) => true
  | _ => false
  end.

(** [p.read_text(encoding='utf-8')], and [open(p).read()]; [None] stands
    for an exception. *)
Definition read_text (fs : file_system) (p : Path) : option string :=
  match fs p with
  | Some (File text) => text
  | _ => None
  end.

(** [(dir / import_path).resolve()] for a relative import path: the
    components of the path applied in turn, without symbolic links. *)
Definition resolve_relative (dir : Path) (import_path : string) : Path :=
  fold_left
    (fun p part =>
       if String.eqb part ".." then parent p
       else if String.eqb part "." || negb (truthy part) then p
       else (p ++ [part])%list)
    (split "/" import_path) dir.

(** [Path(str(p) + ext)] *)
Definition add_extension (p : Path) (ext : string) : Path :=
  match List.last (map Some p) None with
  | Some name => (removelast p ++ [String.append name ext])%list
  | None => if truthy ext then [ext] else []
  end.

End PyPath.

(* ===================================================================== *)
(** ** What the Python detectors share *)
(* ===================================================================== *)

Module PyCommon.
Import PyStr Re Ast BaseDetector PyPath.

(** The result of a call: a value, or an exception that leaves it. *)
Inductive outcome (A : Type) : Type :=
| Returned (a : A)
| Raised.
Arguments Returned {A} a.
Arguments Raised {A}.

(** The first element of a list on which [f] answers, as a loop that
    returns from its body. *)
Fixpoint first_some {A B} (f : A -> option B) (l : list A) : option B :=
  match l with
  | [] => None
  | x :: l' =>
      match f x with
      | Some b => Some b
      | None => first_some f l'
      end
  end.

(** [any(...)] over the decorators: a name [tool] or an attribute
    [....tool]. *)
Definition has_tool_decorator (decorator_list : list node) : bool :=
  existsb
    (fun dec =>
       match dec with
       | Name id => String.eqb id "tool"
       | Attribute _ a => String.eqb a "tool"
       | _ => false
       end)
    decorator_list.

(** @tool .*? \n def \s+ NAME \s* \( [^)]* \)     with DOTALL | MULTILINE *)
Definition tool_pattern (name : string) : re :=
  cat [lit "@tool"; lazy Dot; chr nl; lit "def"; plus ws; escaped name;
       star ws; chr "("; star (none_of [")"%char]); chr ")"].

(** def \s+ NAME \s* \( [^)]* \) \s* : \s* DQ DQ DQ ( [^DQ]*? ) DQ DQ DQ
    with DOTALL *)
Definition doc_pattern (name : string) : re :=
  cat [lit "def"; plus ws; escaped name; star ws; chr "(";
       star (none_of [")"%char]); chr ")"; star ws; chr ":"; star ws;
       chr dq; chr dq; chr dq; Grp 1 (lazy (none_of [dq]));
       chr dq; chr dq; chr dq].

(** [docstring.split('\n')[0] if docstring else None] *)
Definition first_line (docstring : option string) : option string :=
  match docstring with
  | Some d =>
      if truthy d then Some (hd EmptyString (split nl d)) else None
  | None => None
  end.

Section WithAst.
(** [ast.get_docstring] *)
Variable get_docstring : node -> option string.

(** The [ToolInfo] built from a function definition that carries the
    tool decorator. *)
Definition tool_of_function (name : string) (func_node : node)
  : ToolInfo :=
  let sg := extract_function_signature func_node in
  let docstring := get_docstring func_node in
  let full_info := merge_docstring_info sg docstring in
  mkToolInfo name ""  0
    (match sig_description full_info with
     | Some d => Some d
     | None => first_line docstring
     end)
    (sig_parameters full_info) (Some (sig_returns full_info)) None.

(** The loop over [ast.walk(tree)] that looks for the decorated
    function called [name]. *)
Definition decorated_tool (tree : node) (name : string)
  : option ToolInfo :=
  first_some
    (fun n =>
       match n with
       | FunctionDef fname _ _ decorator_list _ =>
           if String.eqb fname name && has_tool_decorator decorator_list
           then Some (tool_of_function name n)
           else None
       | _ => None
       end)
    (walk tree).

(** The [except:] branch: the description is read with [doc_pattern]. *)
Definition regex_fallback_tool (name content : string) : ToolInfo :=
  mkToolInfo name "" 0
    (match search DOTALL (doc_pattern name) content with
     | Some m => Some (strip (group_str 1 m))
     | None => None
     end)
    ∅ None None.
End WithAst.

End PyCommon.

(* ===================================================================== *)
(** ** detectors/autogen.py *)
(* ===================================================================== *)

Module AutoGen.
Import PyStr Re Ast BaseDetector PyPath PyCommon.

(** The four patterns of [get_presence_signatures], which [detect] does
    not consult: from \s+ autogen \s+ import \s+ .* NAME *)
Definition get_presence_signatures : list re :=
  map (fun n => cat [lit "from"; plus ws; lit "autogen"; plus ws;
                     lit "import"; plus ws; star Dot; lit n])
    ["AssistantAgent"; "UserProxyAgent"; "GroupChat"; "GroupChatManager"].

(** GroupChatManager \s* \( [^)]* groupchat \s* = *)
Definition get_construction_signatures : list re :=
  [cat [lit "GroupChatManager"; star ws; chr "("; star (none_of [")"%char]);
        lit "groupchat"; star ws; chr "="]].

Definition required_imports : list string :=
  ["AssistantAgent"; "UserProxyAgent"; "GroupChat"; "GroupChatManager"].

(** [_extract_agent_details] *)
Definition _extract_agent_details (call_node : node)
  : list (string * pyval) :=
  match call_node with
  | Call _ _ keywords =>
      fold_left
        (fun details kw =>
           match kw with
           | keyword (Some a) v =>
               if String.eqb a "name" then
                 match extract_string_value v with
                 | Some s =>
                     if truthy s then dict_set "name" (VStr s) details
                     else details
                 | None => details
                 end
               else if String.eqb a "system_message" then
                 match extract_string_value v with
                 | Some s =>
                     if truthy s
                     then dict_set "system_message" (VStr (take 200 s)) details
                     else details
                 | None => details
                 end
               else if String.eqb a "max_consecutive_auto_reply" then
                 match v with
                 | Constant c =>
                     dict_set "max_consecutive_auto_reply" (VConst c) details
                 | _ => details
                 end
               else if String.eqb a "code_execution_config" then
                 dict_set "has_code_execution" (VBool true) details
               else if String.eqb a "function_map" then
                 dict_set "has_functions" (VBool true) details
               else if String.eqb a "llm_config" then
                 dict_set "has_llm_config" (VBool true) details
               else details
           | _ => details
           end)
        keywords []
  | _ => []
  end.

(** The variables of [_extract_agents_info] while it walks the tree. *)
Record walk_state : Type := mkWalk {
  agents : gmap string (list (string * pyval));
  group_chat_agents : list string;
  group_chat_var : option string;
  info_name : option string;
  info_group_chat : list (string * pyval)
}.

Definition name_targets (targets : list node) : list string :=
  flat_map (fun t => match t with Name id => [id] | _ => [] end) targets.

(** The names in the list display bound to the keyword [key]. *)
Definition listed_names (key : string) (keywords : list node)
  : list string :=
  flat_map
    (fun kw =>
       match kw with
       | keyword (Some a) (List_ elts) =>
           if String.eqb a key then name_targets elts else []
       | _ => []
       end)
    keywords.

(** [{"variable": v, "type": t, **agent_info}] *)
Definition agent_record (variable type : string)
    (agent_info : list (string * pyval)) : list (string * pyval) :=
  fold_left (fun d kv => dict_set (fst kv) (snd kv) d) agent_info
    [("variable", VStr variable); ("type", VStr type)].

(** The body of the first loop of [_extract_agents_info]. *)
Definition visit (st : walk_state) (n : node) : walk_state :=
  match n with
  | Assign targets (Call (Name func_name) cargs keywords as call) =>
      if existsb (String.eqb func_name) ["AssistantAgent"; "UserProxyAgent"]
      then
        mkWalk
          (fold_left
             (fun ags agent_name =>
                <[agent_name :=
                    agent_record agent_name func_name
                      (_extract_agent_details call)]> ags)
             (name_targets targets) (agents st))
          (group_chat_agents st) (group_chat_var st) (info_name st)
          (info_group_chat st)
      else if String.eqb func_name "GroupChat" then
        mkWalk (agents st)
          (group_chat_agents st ++ listed_names "agents" keywords)%list
          (List.last (map Some (name_targets targets)) (group_chat_var st))
          (info_name st) (info_group_chat st)
      else if String.eqb func_name "GroupChatManager" then
        mkWalk (agents st) (group_chat_agents st) (group_chat_var st)
          (List.last (map Some (name_targets targets)) (info_name st))
          (fold_left
             (fun gc kw =>
                match kw with
                | keyword (Some a) (Name id) =>
                    if String.eqb a "groupchat"
                       && bool_decide (Some id = group_chat_var st)
                    then dict_set "linked" (VBool true) gc else gc
                | _ => gc
                end)
             keywords (info_group_chat st))
      else st
  | _ => st
  end.

(** The dictionary [info] of [_extract_agents_info]. *)
Record agents_info : Type := mkInfo {
  ai_name : option string;
  ai_agents : list (list (string * pyval));
  ai_group_chat : list (string * pyval)
}.

(** [_extract_agents_info] *)
Definition _extract_agents_info (tree : node) (content : string)
  : option agents_info :=
  let st := fold_left visit (walk tree) (mkWalk ∅ [] None None []) in
  let bound :=
    flat_map (fun agent_var => opt_list (agents st !! agent_var))
      (group_chat_agents st) in
  match bound with
  | [] => None
  | _ => Some (mkInfo (info_name st) bound (info_group_chat st))
  end.

(** *** The sub-agents that the extraction binds *)

(** The variables that a statement assigns from an agent constructor. *)
Definition agent_targets (n : node) : list string :=
  match n with
  | Assign targets (Call (Name func_name) _ _) =>
      if existsb (String.eqb func_name) ["AssistantAgent"; "UserProxyAgent"]
      then name_targets targets else []
  | _ => []
  end.

(** The names that a statement lists in the [agents] of a group chat. *)
Definition group_chat_listing (n : node) : list string :=
  match n with
  | Assign _ (Call (Name func_name) _ keywords) =>
      if String.eqb func_name "GroupChat"
      then listed_names "agents" keywords else []
  | _ => []
  end.

(** The names that the group chats of the file list, those of every group
    chat pooled, and that the file assigns from an agent constructor. *)
Definition bound_agents (tree : node) : list string :=
  List.filter
    (fun agent_var =>
       existsb (String.eqb agent_var) (flat_map agent_targets (walk tree)))
    (flat_map group_chat_listing (walk tree)).

Section Detector.
Variable ast_parse : string -> parse_outcome.

(** [AutoGenDetector.detect] *)
Definition detect (file_path : Path) (content : string)
  : outcome (option DetectorResult) :=
  if negb (forallb (fun required => contains required content)
             required_imports)
  then Returned None
  else
    match check_construction_signature get_construction_signatures content with
    | None => Returned None
    | Some _ =>
        match ast_parse content with
        | SyntaxError => Returned None
        | OtherError => Raised
        | Parsed tree =>
            let result :=
              mkResult true None (Some (path_str file_path)) [] [] "MAS"
                ["AutoGen"] "Python" "LLM Agent" [] in
            let result :=
              match _extract_agents_info tree content with
              | Some info =>
                  mkResult true (ai_name info)
                    (Some (path_str file_path)) [] [] "MAS" ["AutoGen"]
                    "Python" "LLM Agent"
                    (dict_set "group_chat" (VDict (ai_group_chat info))
                       (dict_set "agents"
                          (VList (map VDict (ai_agents info))) []))
              | None => result
              end in
            Returned (if found result then Some result else None)
        end
    end.
End Detector.

End AutoGen.

(* ===================================================================== *)
(** ** detectors/crewai.py *)
(* ===================================================================== *)

Module CrewAI.
Import PyStr Re Ast BaseDetector PyPath PyCommon.

(** from \s+ crewai \s+ import \s+ .* NAME     for Agent, Task, Crew *)
Definition get_presence_signatures : list re :=
  map (fun n => cat [lit "from"; plus ws; lit "crewai"; plus ws;
                     lit "import"; plus ws; star Dot; lit n])
    ["Agent"; "Task"; "Crew"].

(** Crew \s* \( [^)]* agents \s* = \s* \[ *)
Definition get_construction_signatures : list re :=
  [cat [lit "Crew"; star ws; chr "("; star (none_of [")"%char]);
        lit "agents"; star ws; chr "="; star ws; chr "["]].

(** from \s+ crewai \s+ import .* \b NAME \b     for Agent, Task, Crew *)
Definition required_patterns : list re :=
  map (fun n => cat [lit "from"; plus ws; lit "crewai"; plus ws;
                     lit "import"; star Dot; WordB; lit n; WordB])
    ["Agent"; "Task"; "Crew"].

Definition name_targets (targets : list node) : list string :=
  flat_map (fun t => match t with Name id => [id] | _ => [] end) targets.

(** The names in the list display bound to the keyword [key]. *)
Definition listed_names (key : string) (keywords : list node)
  : list string :=
  flat_map
    (fun kw =>
       match kw with
       | keyword (Some a) (List_ elts) =>
           if String.eqb a key then name_targets elts else []
       | _ => []
       end)
    keywords.

(** [d[key] = s[:200]] when the keyword holds a non-empty string. *)
Definition set_text (key : string) (limit : option nat) (v : node)
    (details : list (string * pyval)) : list (string * pyval) :=
  match extract_string_value v with
  | Some s =>
      if truthy s
      then dict_set key
             (VStr (match limit with Some n => take n s | None => s end))
             details
      else details
  | None => details
  end.

Definition set_constant (key : string) (v : node)
    (details : list (string * pyval)) : list (string * pyval) :=
  match v with
  | Constant c => dict_set key (VConst c) details
  | _ => details
  end.

(** *** The sub-agents that the extraction binds *)

(** The variables that a statement assigns from [Agent(...)]. *)
Definition agent_targets (n : node) : list string :=
  match n with
  | Assign targets (Call (Name func_name) _ _) =>
      if String.eqb func_name "Agent" then name_targets targets else []
  | _ => []
  end.

(** The names that a statement lists in the [agents] of a crew. *)
Definition crew_listing (n : node) : list string :=
  match n with
  | Assign _ (Call (Name func_name) _ keywords) =>
      if String.eqb func_name "Crew"
      then listed_names "agents" keywords else []
  | _ => []
  end.

(** The names that the crews of the file list, those of every crew
    pooled, and that the file assigns from [Agent(...)]. *)
Definition bound_agents (tree : node) : list string :=
  List.filter
    (fun agent_var =>
       existsb (String.eqb agent_var) (flat_map agent_targets (walk tree)))
    (flat_map crew_listing (walk tree)).

Section Detector.
Variable ast_parse : string -> parse_outcome.
Variable get_docstring : node -> option string.

(** [_find_tool_definition] *)
Definition _find_tool_definition (name content : string)
  : option ToolInfo :=
  match search MULTILINE_DOTALL (tool_pattern name) content with
  | Some _ =>
      match ast_parse content with
      | Parsed tree => decorated_tool get_docstring tree name
      | _ => Some (regex_fallback_tool name content)
      end
  | None => None
  end.

(** [_extract_tools_from_node] *)
Definition _extract_tools_from_node (n : node) (content : string)
  : list ToolInfo :=
  match n with
  | List_ elts | Tuple_ elts =>
      flat_map
        (fun item =>
           match item with
           | Name id =>
               match (if truthy content
                      then _find_tool_definition id content
                      else None) with
               | Some tool_info => [tool_info]
               | None => [new_tool id ""]
               end
           | Call (Name tool_name) _ _ => [new_tool tool_name ""]
           | _ => []
           end)
        elts
  | _ => []
  end.

Definition set_tools (v : node) (content : string)
    (details : list (string * pyval)) : list (string * pyval) :=
  match _extract_tools_from_node v content with
  | [] => details
  | tools => dict_set "tools" (VTools tools) details
  end.

(** [_extract_agent_details] *)
Definition _extract_agent_details (call_node : node) (content : string)
  : list (string * pyval) :=
  match call_node with
  | Call _ _ keywords =>
      fold_left
        (fun details kw =>
           match kw with
           | keyword (Some a) v =>
               if String.eqb a "role" then set_text "role" None v details
               else if String.eqb a "goal"
               then set_text "goal" (Some 200) v details
               else if String.eqb a "backstory"
               then set_text "backstory" (Some 200) v details
               else if String.eqb a "tools" then set_tools v content details
               else if String.eqb a "allow_delegation"
               then set_constant "allow_delegation" v details
               else if String.eqb a "verbose"
               then set_constant "verbose" v details
               else if String.eqb a "max_iter"
               then set_constant "max_iter" v details
               else details
           | _ => details
           end)
        keywords []
  | _ => []
  end.

(** [_extract_task_details] *)
Definition _extract_task_details (call_node : node) (content : string)
  : list (string * pyval) :=
  match call_node with
  | Call _ _ keywords =>
      fold_left
        (fun details kw =>
           match kw with
           | keyword (Some a) v =>
               if String.eqb a "description"
               then set_text "description" (Some 200) v details
               else if String.eqb a "agent" then
                 match v with
                 | Name id => dict_set "assigned_agent" (VStr id) details
                 | _ => details
                 end
               else if String.eqb a "expected_output"
               then set_text "expected_output" (Some 200) v details
               else if String.eqb a "tools" then set_tools v content details
               else details
           | _ => details
           end)
        keywords []
  | _ => []
  end.

(** The variables of [_extract_crew_info] while it walks the tree. *)
Record walk_state : Type := mkWalk {
  agents : gmap string (list (string * pyval));
  tasks : gmap string (list (string * pyval));
  crew_agents : list string;
  crew_tasks : list string;
  info_name : option string
}.

(** [{'variable': v, **details}] *)
Definition with_variable (variable : string)
    (details : list (string * pyval)) : list (string * pyval) :=
  fold_left (fun d kv => dict_set (fst kv) (snd kv) d) details
    [("variable", VStr variable)].

(** The body of the first loop of [_extract_crew_info]. *)
Definition visit (content : string) (st : walk_state) (n : node)
  : walk_state :=
  match n with
  | Assign targets (Call (Name func_name) cargs keywords as call) =>
      if String.eqb func_name "Agent" then
        mkWalk
          (fold_left
             (fun ags agent_var =>
                <[agent_var :=
                    with_variable agent_var
                      (_extract_agent_details call content)]> ags)
             (name_targets targets) (agents st))
          (tasks st) (crew_agents st) (crew_tasks st) (info_name st)
      else if String.eqb func_name "Task" then
        mkWalk (agents st)
          (fold_left
             (fun tks task_var =>
                <[task_var :=
                    with_variable task_var
                      (_extract_task_details call content)]> tks)
             (name_targets targets) (tasks st))
          (crew_agents st) (crew_tasks st) (info_name st)
      else if String.eqb func_name "Crew" then
        mkWalk (agents st) (tasks st)
          (crew_agents st ++ listed_names "agents" keywords)%list
          (crew_tasks st ++ listed_names "tasks" keywords)%list
          (List.last (map Some (name_targets targets)) (info_name st))
      else st
  | _ => st
  end.

(** The dictionary [info] of [_extract_crew_info]. *)
Record crew_info : Type := mkInfo {
  ci_name : option string;
  ci_agents : list (list (string * pyval));
  ci_tasks : list (list (string * pyval));
  ci_tools : list ToolInfo
}.

Definition tools_of (agent_info : list (string * pyval)) : list ToolInfo :=
  match dict_get "tools" agent_info with
  | Some (VTools ts) => ts
  | _ => []
  end.

(** [_extract_crew_info] *)
Definition _extract_crew_info (tree : node) (content : string)
  : option crew_info :=
  let st := fold_left (visit content) (walk tree) (mkWalk ∅ ∅ [] [] None) in
  let bound :=
    flat_map (fun agent_var => opt_list (agents st !! agent_var))
      (crew_agents st) in
  let bound_tasks :=
    flat_map (fun task_var => opt_list (tasks st !! task_var))
      (crew_tasks st) in
  match bound with
  | [] => None
  | _ =>
      Some (mkInfo (info_name st) bound bound_tasks
              (flat_map tools_of bound))
  end.

(** [CrewAIDetector.detect] *)
Definition detect (file_path : Path) (content : string)
  : outcome (option DetectorResult) :=
  if negb (forallb
             (fun pattern =>
                bool_decide (is_Some (search no_flags pattern content)))
             required_patterns)
  then Returned None
  else
    match check_construction_signature get_construction_signatures content with
    | None => Returned None
    | Some _ =>
        match ast_parse content with
        | SyntaxError => Returned None
        | OtherError => Raised
        | Parsed tree =>
            let result :=
              mkResult true None (Some (path_str file_path)) [] [] "MAS"
                ["CrewAI"] "Python" "LLM Agent" [] in
            let result :=
              match _extract_crew_info tree content with
              | Some info =>
                  mkResult true (ci_name info)
                    (Some (path_str file_path)) [] (ci_tools info) "MAS"
                    ["CrewAI"] "Python" "LLM Agent"
                    (dict_set "tasks" (VList (map VDict (ci_tasks info)))
                       (dict_set "agents"
                          (VList (map VDict (ci_agents info))) []))
              | None => result
              end in
            Returned (if found result then Some result else None)
        end
    end.
End Detector.

End CrewAI.

(* ===================================================================== *)
(** ** detectors/langchain_py.py *)
(* ===================================================================== *)

Module LangChainPy.
Import PyStr Re Ast BaseDetector PyPath PyCommon.

Definition from_agents_import : list re :=
  [lit "from"; plus ws; lit "langchain.agents"; plus ws; lit "import";
   plus ws].

(** from \s+ langchain\.agents \s+ import \s+ .* initialize_agent
    from \s+ langchain\.agents \s+ import \s+ .* AgentExecutor
    from \s+ langchain\.agents \s+ import \s+ [^#\n]* \b AgentType \b *)
Definition get_presence_signatures : list re :=
  [cat (from_agents_import ++ [star Dot; lit "initialize_agent"])%list;
   cat (from_agents_import ++ [star Dot; lit "AgentExecutor"])%list;
   cat (from_agents_import ++
        [star (none_of ["#"%char; nl]); WordB; lit "AgentType"; WordB])%list].

(** initialize_agent \s* \( [^)]* tools \s* =
    AgentExecutor \s* \( [^)]* tools \s* =
    AgentExecutor\.from_agent_and_tools \s* \( *)
Definition get_construction_signatures : list re :=
  [cat [lit "initialize_agent"; star ws; chr "("; star (none_of [")"%char]);
        lit "tools"; star ws; chr "="];
   cat [lit "AgentExecutor"; star ws; chr "("; star (none_of [")"%char]);
        lit "tools"; star ws; chr "="];
   cat [lit "AgentExecutor.from_agent_and_tools"; star ws; chr "("]].

(** NAME \s* = \s* (?: Tool | StructuredTool ) \s* \( *)
Definition tool_construct_pattern (name : string) : re :=
  cat [escaped name; star ws; chr "="; star ws;
       Alt (lit "Tool") (lit "StructuredTool"); star ws; chr "("].

(** NAME \s* = \s* (?: Tool | StructuredTool ) \s* \( [^)]* KEY \s* = \s*
    [QUOTE] ( [^QUOTE]+ ) [QUOTE]     for the keys name and description *)
Definition tool_keyword_pattern (name key : string) : re :=
  cat [tool_construct_pattern name; star (none_of [")"%char]); lit key;
       star ws; chr "="; star ws; quote; Grp 1 (plus not_quote); quote].

Definition sql_indicators : list string :=
  ["SQLDatabaseToolkit"; "sql_toolkit"; "QuerySQLDataBaseTool";
   "InfoSQLDatabaseTool"; "ListSQLDatabaseTool"].

Definition retrieval_indicators : list string :=
  ["VectorStoreRetriever"; "vectorstore"; "retriever"; "RetrievalQA";
   "ConversationalRetrievalChain"; "FAISS"; "Chroma"; "Pinecone";
   "Weaviate"].

Definition retrieval_terms : list string :=
  ["retriev"; "search"; "vector"; "embed"].

Definition description_has (f : string -> bool) (tool : ToolInfo) : bool :=
  match description tool with
  | Some d => truthy d && f (lower d)
  | None => false
  end.

(** [_has_sql_tools] *)
Definition _has_sql_tools (tools : list ToolInfo) (content : string) : bool :=
  existsb (fun indicator => contains indicator content) sql_indicators
  || existsb
       (fun tool =>
          contains "sql" (lower (name tool))
          || description_has (contains "sql") tool)
       tools.

(** [_has_retrieval_tools] *)
Definition _has_retrieval_tools (tools : list ToolInfo) (content : string)
  : bool :=
  existsb (fun indicator => contains indicator content) retrieval_indicators
  || existsb
       (fun tool =>
          existsb (fun term => contains term (lower (name tool)))
            retrieval_terms
          || description_has
               (fun d => existsb (fun term => contains term d) retrieval_terms)
               tool)
       tools.

(** The lines that follow the extraction in [detect]:
    SQL first, then retrieval, else the default of [DetectorResult]. *)
Definition classify_agent_type (tools : list ToolInfo) (content : string)
  : string :=
  if _has_sql_tools tools content then "SQL Agent"
  else if _has_retrieval_tools tools content then "Retrieval Agent"
  else "LLM Agent".

(** from \s+ PROVIDER \s+ import     for each provider, in this order *)
Definition provider_patterns : list (string * re) :=
  map (fun p => (p, cat [lit "from"; plus ws; lit p; plus ws; lit "import"]))
    ["langchain_openai"; "langchain_anthropic"; "langchain_google_genai";
     "langchain_community"; "langchain_experimental"].

(** [_detect_provider_frameworks] *)
Definition _detect_provider_frameworks (content : string) : list string :=
  flat_map
    (fun pp =>
       match search no_flags (snd pp) content with
       | Some _ => [fst pp]
       | None => []
       end)
    provider_patterns.

(** The number of leading dots of a module path. *)
Fixpoint leading_dots (s : string) : nat :=
  match s with
  | String c t => if Ascii.eqb c "." then S (leading_dots t) else 0
  | EmptyString => 0
  end.

Definition join_parts (dir : Path) (parts : list string) : Path :=
  fold_left joinpath parts dir.

(** The directory or module file that a relative module path names: one
    directory up for each leading dot after the first, then down along the
    dotted names. *)
Definition relative_target (module_path : string) (current_dir : Path)
  : Path :=
  let level := leading_dots module_path in
  let module_path := drop level module_path in
  let target_dir := Nat.iter (level - 1) parent current_dir in
  if truthy module_path
  then join_parts target_dir (split "." module_path)
  else target_dir.

(** [[p.with_suffix('.py'), p / '__init__.py']]; [None] when
    [with_suffix] raises. *)
Definition candidates (p : Path) : option (list Path) :=
  match with_suffix p ".py" with
  | Some q => Some [q; joinpath p "__init__.py"]
  | None => None
  end.

Section Detector.
Variable ast_parse : string -> parse_outcome.
Variable get_docstring : node -> option string.
Variable fs : file_system.

Definition first_existing (l : list Path) : option Path :=
  List.find (exists_ fs) l.

(** The loop [for _ in range(5)] of the absolute branch. *)
Fixpoint search_up (n : nat) (parts : list string) (search_dir : Path)
  : outcome (option Path) :=
  match n with
  | 0 => Returned None
  | S n' =>
      match candidates (join_parts search_dir parts) with
      | None => Raised
      | Some cs =>
          match first_existing cs with
          | Some c => Returned (Some c)
          | None =>
              let up := parent search_dir in
              if bool_decide (up = parent up) then Returned None
              else search_up n' parts up
          end
      end
  end.

(** [_resolve_python_import] *)
Definition _resolve_python_import (module_path : string)
    (current_file : Path) : outcome (option Path) :=
  let current_dir := parent current_file in
  if startswith module_path "." then
    match candidates (relative_target module_path current_dir) with
    | None => Raised
    | Some cs => Returned (first_existing cs)
    end
  else search_up 5 (split "." module_path) current_dir.

Definition class_is (word : string) (bases : list node) : bool :=
  existsb
    (fun base =>
       match base with
       | Name id => contains word id
       | Attribute _ a => contains word a
       | _ => false
       end)
    bases.

(** The default and the [required] flag of one annotated field of a
    model class, before the test on [Optional]. *)
Definition field_default (value : option node) : bool * option string :=
  match value with
  | None => (true, None)
  | Some v =>
      match v with
      | Call (Name f) _ keywords =>
          if String.eqb f "Field" then
            fold_left
              (fun acc kw =>
                 match kw with
                 | keyword (Some a) d =>
                     if String.eqb a "default"
                     then (false, Some (_ast_to_value_string d))
                     else if String.eqb a "default_factory"
                     then (false, Some "factory")
                     else acc
                 | _ => acc
                 end)
              keywords (true, None)
          else (false, Some (_ast_to_value_string v))
      | _ => (false, Some (_ast_to_value_string v))
      end
  end.

Definition model_fields (body : list node)
    (parameters : gmap string param_info) : gmap string param_info :=
  fold_left
    (fun params item =>
       match item with
       | AnnAssign (Name field_name) annotation value =>
           let field_type := _ast_to_type_string annotation in
           let '(required, default) := field_default value in
           let required :=
             if contains "Optional" field_type
                || contains "| None" field_type
             then false else required in
           <[field_name := mkParam field_type required None default]>
             params
       | _ => params
       end)
    body parameters.

(** [_extract_pydantic_model_fields] *)
Definition _extract_pydantic_model_fields (model_name content : string)
    (file_path : Path) : gmap string param_info :=
  match ast_parse content with
  | Parsed tree =>
      fold_left
        (fun params n =>
           match n with
           | ClassDef cname bases _ body _ =>
               if String.eqb cname model_name && class_is "Model" bases
               then model_fields body params else params
           | _ => params
           end)
        (walk tree) ∅
  | _ => ∅
  end.

(** [_extract_function_info] *)
Definition _extract_function_info (func_name content : string)
  : option signature :=
  match ast_parse content with
  | Parsed tree =>
      first_some
        (fun n =>
           match n with
           | FunctionDef fname _ _ _ _ =>
               if String.eqb fname func_name
               then Some (merge_docstring_info
                            (extract_function_signature n)
                            (get_docstring n))
               else None
           | _ => None
           end)
        (walk tree)
  | _ => None
  end.

(** The attributes read from the body of a tool class. *)
Record class_attrs : Type := mkAttrs {
  ca_name : string;
  ca_description : option string;
  ca_args_schema : option string
}.

Definition class_body_attrs (body : list node) : class_attrs :=
  fold_left
    (fun acc item =>
       match item with
       | Assign targets v =>
           fold_left
             (fun acc target =>
                match target with
                | Name id =>
                    if String.eqb id "name" then
                      match extract_string_value v with
                      | Some s =>
                          if truthy s
                          then mkAttrs s (ca_description acc)
                                 (ca_args_schema acc)
                          else acc
                      | None => acc
                      end
                    else if String.eqb id "description" then
                      match extract_string_value v with
                      | Some s =>
                          if truthy s
                          then mkAttrs (ca_name acc) (Some s)
                                 (ca_args_schema acc)
                          else acc
                      | None => acc
                      end
                    else acc
                | _ => acc
                end)
             targets acc
       | AnnAssign (Name id) _ (Some (Name schema)) =>
           if String.eqb id "args_schema"
           then mkAttrs (ca_name acc) (ca_description acc) (Some schema)
           else acc
       | _ => acc
       end)
    body (mkAttrs "" None None).

(** [_extract_tool_from_class] *)
Definition _extract_tool_from_class (class_name content : string)
    (file_path : Path) : option ToolInfo :=
  match ast_parse content with
  | Parsed tree =>
      first_some
        (fun n =>
           match n with
           | ClassDef cname bases _ body _ =>
               if String.eqb cname class_name && class_is "Tool" bases
               then
                 let attrs := class_body_attrs body in
                 let parameters :=
                   match ca_args_schema attrs with
                   | Some schema =>
                       if truthy schema
                       then _extract_pydantic_model_fields schema content
                              file_path
                       else ∅
                   | None => ∅
                   end in
                 if truthy (ca_name attrs)
                 then Some (mkToolInfo (ca_name attrs)
                              (path_str file_path) 0
                              (ca_description attrs) parameters None None)
                 else None
               else None
           | _ => None
           end)
        (walk tree)
  | _ => None
  end.

(** The body of the loop over the aliases of one import statement in
    [_find_tool_class_from_import]: [Raised] when the resolution of the
    module path raises, which ends the whole search. *)
Definition follow_import (class_name module_path : string)
    (file_path : Path) : outcome (option ToolInfo) :=
  match _resolve_python_import module_path file_path with
  | Raised => Raised
  | Returned None => Returned None
  | Returned (Some resolved_path) =>
      if exists_ fs resolved_path then
        match read_text fs resolved_path with
        | Some tool_file_content =>
            Returned (_extract_tool_from_class class_name
                        tool_file_content resolved_path)
        | None => Returned None
        end
      else Returned None
  end.

(** The import statements of a walk that name [class_name], one entry
    for each alias that does. *)
Definition imports_of (class_name : string) (nodes : list node)
  : list string :=
  flat_map
    (fun n =>
       match n with
       | ImportFrom (Some module_path) names _ =>
           if truthy module_path then
             flat_map
               (fun al =>
                  match al with
                  | alias aname _ =>
                      if String.eqb aname class_name
                      then [module_path] else []
                  | _ => []
                  end)
               names
           else []
       | _ => []
       end)
    nodes.

Fixpoint follow_imports (class_name : string) (modules : list string)
    (file_path : Path) : option ToolInfo :=
  match modules with
  | [] => None
  | module_path :: rest =>
      match follow_import class_name module_path file_path with
      | Raised => None
      | Returned (Some tool_info) => Some tool_info
      | Returned None => follow_imports class_name rest file_path
      end
  end.

(** [_find_tool_class_from_import] *)
Definition _find_tool_class_from_import (class_name content : string)
    (file_path : Path) : option ToolInfo :=
  match ast_parse content with
  | Parsed tree =>
      follow_imports class_name (imports_of class_name (walk tree))
        file_path
  | _ => None
  end.

(** The loop over the keywords of a [Tool(...)] or [StructuredTool(...)]
    call; the state is [tool_info.name], [tool_info.description],
    [parameters] and [returns]. *)
Definition standard_tool (class_name : string) (keywords : list node)
    (content : string) (file_path : Path) : ToolInfo :=
  let '(nm, desc, parameters, rets) :=
    fold_left
      (fun acc kw =>
         let '(nm, desc, parameters, rets) := acc in
         match kw with
         | keyword (Some a) v =>
             if String.eqb a "name" then
               match extract_string_value v with
               | Some s =>
                   if truthy s then (s, desc, parameters, rets) else acc
               | None => acc
               end
             else if String.eqb a "description" then
               match extract_string_value v with
               | Some s =>
                   if truthy s then (nm, Some s, parameters, rets)
                   else acc
               | None => acc
               end
             else if String.eqb a "args_schema"
                     && String.eqb class_name "StructuredTool" then
               match v with
               | Name model_name =>
                   (nm, desc,
                    _extract_pydantic_model_fields model_name content
                      file_path, rets)
               | _ => acc
               end
             else if String.eqb a "func" then
               match v with
               | Lambda (arguments _ largs _ _ _ _ _) _ =>
                   (nm, desc,
                    fold_left
                      (fun ps a =>
                         <[arg_name a := mkParam "Any" true None None]> ps)
                      largs parameters,
                    rets)
               | Name func_name =>
                   match _extract_function_info func_name content with
                   | Some func_info =>
                       (nm, desc, sig_parameters func_info,
                        Some (sig_returns func_info))
                   | None => acc
                   end
               | _ => acc
               end
             else acc
         | _ => acc
         end)
      keywords ("unknown", None, ∅, None) in
  mkToolInfo nm "" 0 desc parameters rets None.

(** [_extract_tool_from_call] *)
Definition _extract_tool_from_call (n : node) (content : string)
    (file_path : Path) : option ToolInfo :=
  match n with
  | Call (Name class_name) _ keywords =>
      if existsb (String.eqb class_name) ["Tool"; "StructuredTool"]
      then Some (standard_tool class_name keywords content file_path)
      else
        match _extract_tool_from_class class_name content file_path with
        | Some tool_info => Some tool_info
        | None =>
            match _find_tool_class_from_import class_name content
                    file_path with
            | Some tool_info => Some tool_info
            | None => Some (new_tool class_name (path_str file_path))
            end
        end
  | _ => None
  end.

(** The first part of [_find_tool_definition]: an assignment of a call
    to the variable [name]. *)
Definition assigned_tool (tree : node) (name content : string)
    (file_path : Path) : option ToolInfo :=
  first_some
    (fun n =>
       match n with
       | Assign targets v =>
           first_some
             (fun target =>
                match target, v with
                | Name id, Call _ _ _ =>
                    if String.eqb id name
                    then _extract_tool_from_call v content file_path
                    else None
                | _, _ => None
                end)
             targets
       | _ => None
       end)
    (walk tree).

(** The last part of [_find_tool_definition]: the patterns for
    [NAME = Tool(...)]. *)
Definition constructed_tool (name content : string) : option ToolInfo :=
  match search no_flags (tool_construct_pattern name) content with
  | Some _ =>
      let tool_name :=
        match search no_flags (tool_keyword_pattern name "name") content with
        | Some m => group_str 1 m
        | None => name
        end in
      let desc :=
        match search no_flags (tool_keyword_pattern name "description")
                content with
        | Some m => Some (group_str 1 m)
        | None => None
        end in
      Some (mkToolInfo tool_name "" 0 desc ∅ None None)
  | None => None
  end.

(** [_find_tool_definition] *)
Definition _find_tool_definition (name content : string)
    (file_path : Path) : option ToolInfo :=
  let assigned :=
    match ast_parse content with
    | Parsed tree => assigned_tool tree name content file_path
    | _ => None
    end in
  match assigned with
  | Some tool_info => Some tool_info
  | None =>
      let decorated :=
        match search MULTILINE_DOTALL (tool_pattern name) content with
        | Some _ =>
            match ast_parse content with
            | Parsed tree => decorated_tool get_docstring tree name
            | _ => Some (regex_fallback_tool name content)
            end
        | None => None
        end in
      match decorated with
      | Some tool_info => Some tool_info
      | None => constructed_tool name content
      end
  end.

(** The resolution of one item of a tools collection. *)
Definition resolve_item (content : string) (file_path : Path)
    (item : node) : list ToolInfo :=
  match item with
  | Name id => opt_list (_find_tool_definition id content file_path)
  | Call _ _ _ => opt_list (_extract_tool_from_call item content file_path)
  | _ => []
  end.

(** [_extract_tools_from_node] *)
Definition _extract_tools_from_node (n : node) (content : string)
    (file_path : Path) : list ToolInfo :=
  match n with
  | Name tools_var_name =>
      match ast_parse content with
      | Parsed tree =>
          flat_map
            (fun a =>
               match a with
               | Assign targets v =>
                   flat_map
                     (fun target =>
                        match target, v with
                        | Name id, (List_ elts | Tuple_ elts) =>
                            if String.eqb id tools_var_name
                            then flat_map (resolve_item content file_path)
                                   elts
                            else []
                        | _, _ => []
                        end)
                     targets
               | _ => []
               end)
            (walk tree)
      | _ => []
      end
  | List_ elts | Tuple_ elts =>
      flat_map (resolve_item content file_path) elts
  | _ => []
  end.

(** The dictionary [info] of [_extract_agent_info]. *)
Record agent_info : Type := mkInfo {
  ai_name : option string;
  ai_tools : list ToolInfo;
  ai_architecture : string
}.

Definition func_name_of (func : node) : option string :=
  match func with
  | Name id => Some id
  | Attribute _ a => Some a
  | _ => None
  end.

(** The search of [_extract_agent_info] for the variable the agent is
    assigned to.  The test [n.value == node] compares a node of this
    second parse with a node of the first one; the two are different
    objects, so that only the second disjunct can hold. *)
Definition assigned_name (tree : node) (func_name : string)
    (current : option string) : option string :=
  match
    List.find
      (fun n =>
         match n with
         | Assign _ (Call (Name id) _ _) => String.eqb id func_name
         | _ => false
         end)
      (walk tree)
  with
  | Some (Assign targets _) =>
      match
        List.find (fun t => match t with Name _ => true | _ => false end)
          targets
      with
      | Some (Name id) => Some id
      | _ => current
      end
  | _ => current
  end.

(** [_extract_agent_info] *)
Definition _extract_agent_info (n : node) (content : string)
    (file_path : Path) : option agent_info :=
  match n with
  | Call func _ keywords =>
      match func_name_of func with
      | Some func_name =>
          if existsb (String.eqb func_name)
               ["initialize_agent"; "AgentExecutor"; "from_agent_and_tools"]
          then
            let info :=
              fold_left
                (fun info kw =>
                   match kw with
                   | keyword (Some a) v =>
                       if String.eqb a "tools" then
                         mkInfo (ai_name info)
                           (_extract_tools_from_node v content file_path)
                           (ai_architecture info)
                       else if String.eqb a "agent"
                               && String.eqb func_name "initialize_agent"
                       then
                         match v with
                         | Attribute _ at_ =>
                             if String.eqb at_ "ZERO_SHOT_REACT_DESCRIPTION"
                             then mkInfo (ai_name info) (ai_tools info)
                                    "ReAct"
                             else info
                         | _ => info
                         end
                       else if String.eqb a "agent_name" then
                         match extract_string_value v with
                         | Some s =>
                             if truthy s
                             then mkInfo (Some s) (ai_tools info)
                                    (ai_architecture info)
                             else info
                         | None => info
                         end
                       else info
                   | _ => info
                   end)
                keywords (mkInfo None [] "Other") in
            let info :=
              match ast_parse content with
              | Parsed tree =>
                  mkInfo (assigned_name tree func_name (ai_name info))
                    (ai_tools info) (ai_architecture info)
              | _ => info
              end in
            match ai_tools info with
            | [] => None
            | _ => Some info
            end
          else None
      | None => None
      end
  | _ => None
  end.

(** [LangChainPythonDetector.detect] *)
Definition detect (file_path : Path) (content : string)
  : outcome (option DetectorResult) :=
  if negb (check_presence_signature get_presence_signatures content)
  then Returned None
  else
    match check_construction_signature get_construction_signatures content with
    | None => Returned None
    | Some _ =>
        match ast_parse content with
        | SyntaxError => Returned None
        | OtherError => Raised
        | Parsed tree =>
            let result :=
              match
                first_some
                  (fun n =>
                     match n with
                     | Call _ _ _ => _extract_agent_info n content file_path
                     | _ => None
                     end)
                  (walk tree)
              with
              | Some info =>
                  mkResult true (ai_name info) (Some (path_str file_path))
                    [] (ai_tools info) (ai_architecture info)
                    ("LangChain" :: _detect_provider_frameworks content)
                    "Python"
                    (classify_agent_type (ai_tools info) content) []
              | None =>
                  mkResult true None (Some (path_str file_path)) [] []
                    "Other" ["LangChain"] "Python" "LLM Agent" []
              end in
            Returned (if found result then Some result else None)
        end
    end.
End Detector.

(** The paths that [_resolve_python_import] may test for a module path:
    every candidate of every directory of the search. *)
Fixpoint up_probes (n : nat) (parts : list string) (search_dir : Path)
  : list Path :=
  match n with
  | 0 => []
  | S n' =>
      (default [] (candidates (join_parts search_dir parts))
       ++ up_probes n' parts (parent search_dir))%list
  end.

Definition module_probes (module_path : string) (current_file : Path)
  : list Path :=
  let current_dir := parent current_file in
  if startswith module_path "."
  then default [] (candidates (relative_target module_path current_dir))
  else up_probes 5 (split "." module_path) current_dir.

(** The paths that the detection of [content] at [file_path] may test:
    those of the [from ... import] statements of the content. *)
Definition import_probes (ast_parse : string -> parse_outcome)
    (file_path : Path) (content : string) : list Path :=
  match ast_parse content with
  | Parsed tree =>
      flat_map
        (fun n =>
           match n with
           | ImportFrom (Some module_path) _ _ =>
               module_probes module_path file_path
           | _ => []
           end)
        (walk tree)
  | _ => []
  end.

End LangChainPy.

(* ===================================================================== *)
(** ** detectors/langchain_ts.py *)
(* ===================================================================== *)

Module LangChainTs.
Import PyStr Re BaseDetector PyPath PyCommon SchemaExtractors.

Definition not_brace : re := none_of ["}"%char].

(** import \s* \{ [^}]* NAME [^}]* \} *)
Definition import_braces (name : re) : re :=
  cat [lit "import"; star ws; chr "{"; star not_brace; name; star not_brace;
       chr "}"].

(** \s* from \s* [QUOTE] TARGET [QUOTE] *)
Definition from_quoted (target : re) : re :=
  cat [star ws; lit "from"; star ws; quote; target; quote].

(** import \s* \{ [^}]* AgentExecutor [^}]* \} \s* from \s* [QUOTE] langchain/agents [QUOTE]
    import \s* \{ [^}]* AgentExecutor [^}]* \} \s* from \s* [QUOTE] @langchain/ [^QUOTE]+ [QUOTE]
    import \s* \{ [^}]* createReactAgent [^}]* \} \s* from \s* [QUOTE] @langchain/langgraph/prebuilt [QUOTE]
    from \s+ [QUOTE] @langchain/langgraph/prebuilt [QUOTE] *)
Definition get_presence_signatures : list re :=
  [Seq (import_braces (lit "AgentExecutor"))
       (from_quoted (lit "langchain/agents"));
   Seq (import_braces (lit "AgentExecutor"))
       (from_quoted (Seq (lit "@langchain/") (plus not_quote)));
   Seq (import_braces (lit "createReactAgent"))
       (from_quoted (lit "@langchain/langgraph/prebuilt"));
   cat [lit "from"; plus ws; quote; lit "@langchain/langgraph/prebuilt";
        quote]].

(** CALL \s* \( \s* \{ [^}]* tools \s* : \s* *)
Definition call_with_tools (call : re) (after : re) : re :=
  cat [call; star ws; chr "("; star ws; chr "{"; star not_brace;
       lit "tools"; star ws; chr ":"; star ws; after].

(** (?: export \s+ )? (?: async \s+ )? function \s+ *)
Definition function_head : re :=
  cat [opt (Seq (lit "export") (plus ws)); opt (Seq (lit "async") (plus ws));
       lit "function"; plus ws].

(** create \w* Agent *)
Definition create_agent_name : re :=
  cat [lit "create"; star wd; lit "Agent"].

(** new \s+ AgentExecutor \s* \( \s* \{ [^}]* tools \s* : \s* \[
    new \s+ AgentExecutor \s* \( \s* \{ [^}]* tools \s* : \s* \w+
    AgentExecutor\.fromAgentAndTools \s* \(
    createReactAgent \s* \( \s* \{ [^}]* tools \s* : \s* \[
    createReactAgent \s* \( \s* \{ [^}]* tools \s* : \s* \w+
    (?: export \s+ )? (?: async \s+ )? function \s+ create \w* Agent \s* \( *)
Definition get_construction_signatures : list re :=
  [call_with_tools (cat [lit "new"; plus ws; lit "AgentExecutor"]) (chr "[");
   call_with_tools (cat [lit "new"; plus ws; lit "AgentExecutor"]) (plus wd);
   cat [lit "AgentExecutor.fromAgentAndTools"; star ws; chr "("];
   call_with_tools (lit "createReactAgent") (chr "[");
   call_with_tools (lit "createReactAgent") (plus wd);
   cat [function_head; create_agent_name; star ws; chr "("]].

(** create \w+ Tool *)
Definition create_tool_name : re :=
  cat [lit "create"; plus wd; lit "Tool"].

(** tools \s* : \s* \[ *)
Definition tools_bracket : re :=
  cat [lit "tools"; star ws; chr ":"; star ws; chr "["].

(** The six patterns of [_has_tool_imports]:
    import \s* \{ [^}]* tool [^}]* \} \s* from \s* [QUOTE] @langchain/core/tools [QUOTE]
    import \s* \{ [^}]* DynamicStructuredTool [^}]* \} \s* from
    import \s* \{ [^}]* Tool [^}]* \} \s* from \s* [QUOTE] langchain/tools [QUOTE]
    import \s* \{ [^}]* StructuredToolInterface [^}]* \} \s* from \s* [QUOTE] @langchain/core/tools [QUOTE]
    import \s* \{ [^}]* create \w+ Tool [^}]* \} \s* from
    tools \s* : \s* \[ *)
Definition tool_import_patterns : list re :=
  [Seq (import_braces (lit "tool")) (from_quoted (lit "@langchain/core/tools"));
   cat [import_braces (lit "DynamicStructuredTool"); star ws; lit "from"];
   Seq (import_braces (lit "Tool")) (from_quoted (lit "langchain/tools"));
   Seq (import_braces (lit "StructuredToolInterface"))
       (from_quoted (lit "@langchain/core/tools"));
   cat [import_braces create_tool_name; star ws; lit "from"];
   tools_bracket].

(** [_has_tool_imports] *)
Definition _has_tool_imports (content : string) : bool :=
  existsb (matches no_flags content) tool_import_patterns.

(** (?: const | let | var ) \s+ *)
Definition declaration : re :=
  Seq (alts [lit "const"; lit "let"; lit "var"]) (plus ws).

(** (?: const | let | var ) \s+ ( \w+ ) \s* = \s* CALL \s* \( \s* \{ ( [^}]+ ) \}
    with DOTALL, for the calls [new \s+ AgentExecutor] and
    [createReactAgent] *)
Definition agent_pattern (call : re) : re :=
  cat [declaration; Grp 1 (plus wd); star ws; chr "="; star ws; call;
       star ws; chr "("; star ws; chr "{"; Grp 2 (plus not_brace); chr "}"].

(** (?: export \s+ )? (?: async \s+ )? function \s+ ( create \w* Agent ) \s* \( *)
Definition factory_pattern : re :=
  cat [function_head; Grp 1 create_agent_name; star ws; chr "("].

(** tools \s* : \s* \[ ( [^\]]* ) \]     with DOTALL *)
Definition tools_inline_pattern : re :=
  cat [tools_bracket; Grp 1 (star (none_of ["]"%char])); chr "]"].

(** tools \s* : \s* ( \w+ ) *)
Definition tools_ref_pattern : re :=
  cat [lit "tools"; star ws; chr ":"; star ws; Grp 1 (plus wd)].

(** (?: const | let | var ) \s+ NAME \s* = \s* \[ ( [^\]]* ) \]     with DOTALL *)
Definition var_pattern (name : string) : re :=
  cat [declaration; escaped name; star ws; chr "="; star ws; chr "[";
       Grp 1 (star (none_of ["]"%char])); chr "]"].

(** createReactAgent \s* \( \s* \{ [^}]* tools \s* : \s* \[ ( [^\]]+ ) \]
    with DOTALL *)
Definition react_pattern : re :=
  cat [call_with_tools (lit "createReactAgent") (chr "[");
       Grp 1 (plus (none_of ["]"%char])); chr "]"].

(** (?: const | let | var ) \s+ ( \w+ ) \s* = \s* ( create \w+ Tool ) \s* \( *)
Definition tool_factory_pattern : re :=
  cat [declaration; Grp 1 (plus wd); star ws; chr "="; star ws;
       Grp 2 create_tool_name; star ws; chr "("].

(** (?: const | let | var ) \s+ NAME \s* = \s* ( create \w+ Tool ) \s* \( *)
Definition tool_creation_pattern (name : string) : re :=
  cat [declaration; escaped name; star ws; chr "="; star ws;
       Grp 1 create_tool_name; star ws; chr "("].

(** import \s* \{ [^}]* NAME [^}]* \} \s* from \s* [QUOTE] ( [^QUOTE]+ ) [QUOTE] *)
Definition import_pattern (name : string) : re :=
  Seq (import_braces (escaped name))
      (from_quoted (Grp 1 (plus not_quote))).

(** export \s+ function \s+ NAME \s* \( [^)]* \) *)
Definition export_function (name : string) : re :=
  cat [lit "export"; plus ws; lit "function"; plus ws; escaped name; star ws;
       chr "("; star (none_of [")"%char]); chr ")"].

(** export \s+ function \s+ NAME \s* \( [^)]* \) \s* : \s* \w+ \s* \{ *)
Definition factory_def_pattern (name : string) : re :=
  cat [export_function name; star ws; chr ":"; star ws; plus wd; star ws;
       chr "{"].

(** export \s+ function \s+ NAME \s* \( [^)]* \) [^{]* \{ ( .{0,5000} ) \}
    with DOTALL *)
Definition factory_body_pattern (name : string) : re :=
  cat [export_function name; star (none_of ["{"%char]); chr "{";
       Grp 1 (Upto 5000 Dot); chr "}"].

(** KEY \s* : \s* [QUOTE] ( [^QUOTE]+ ) [QUOTE]     for name and description *)
Definition quoted_field_pattern (key : string) : re :=
  cat [lit key; star ws; chr ":"; star ws; quote; Grp 1 (plus not_quote);
       quote].

(** description \s* : \s* ` ( [^`]+ ) `     with DOTALL *)
Definition template_description_pattern : re :=
  cat [lit "description"; star ws; chr ":"; star ws; chr bq;
       Grp 1 (plus (none_of [bq])); chr bq].

(** schema \s* : \s* z\.object \s* \( \s* \{ ( [^}]+ ) \}     with DOTALL *)
Definition schema_open_pattern : re :=
  cat [lit "schema"; star ws; chr ":"; star ws; lit "z.object"; star ws;
       chr "("; star ws; chr "{"; Grp 1 (plus not_brace); chr "}"].

(** schema \s* : \s* z\.object \s* \( \s* \{ ( [^}]+ ) \} \s* \)     with DOTALL *)
Definition schema_pattern : re :=
  cat [schema_open_pattern; star ws; chr ")"].

(** schema \s* : \s* ( \w+ ) *)
Definition schema_ref_pattern : re :=
  cat [lit "schema"; star ws; chr ":"; star ws; Grp 1 (plus wd)].

(** (?: const | let | var ) \s+ NAME \s* = \s* z\.object \s* \( \s* \{ ( [^}]+ ) \} \s* \)
    with DOTALL *)
Definition var_def_pattern (name : string) : re :=
  cat [declaration; escaped name; star ws; chr "="; star ws; lit "z.object";
       star ws; chr "("; star ws; chr "{"; Grp 1 (plus not_brace); chr "}";
       star ws; chr ")"].

(** (?: const | let | var ) \s+ NAME \s* = \s* tool \s* \( *)
Definition tool_call_pattern (name : string) : re :=
  cat [declaration; escaped name; star ws; chr "="; star ws; lit "tool";
       star ws; chr "("].

(** (?: const | let | var ) \s+ NAME \s* = \s* new \s+ DynamicStructuredTool
    \s* \( \s* \{ ( [^}]+ ) \}     with DOTALL *)
Definition dyn_tool_pattern (name : string) : re :=
  cat [declaration; escaped name; star ws; chr "="; star ws; lit "new";
       plus ws; lit "DynamicStructuredTool"; star ws; chr "("; star ws;
       chr "{"; Grp 1 (plus not_brace); chr "}"].

Definition sql_indicators : list string :=
  ["SqlToolkit"; "SqlDatabase"; "QuerySqlTool"; "InfoSqlDatabaseTool";
   "ListSqlDatabaseTool"; "sql-toolkit"].

Definition retrieval_indicators : list string :=
  ["VectorStoreRetriever"; "vectorStore"; "retriever"; "RetrievalQA";
   "ConversationalRetrievalChain"; "FAISS"; "Chroma"; "Pinecone";
   "Weaviate"; "MemoryVectorStore"].

(** [_has_sql_tools] *)
Definition _has_sql_tools (tools : list ToolInfo) (content : string) : bool :=
  existsb
    (fun indicator =>
       contains indicator content
       || contains (lower indicator) (lower content))
    sql_indicators
  || existsb
       (fun tool =>
          contains "sql" (lower (name tool))
          || LangChainPy.description_has (contains "sql") tool)
       tools.

(** [_has_retrieval_tools] *)
Definition _has_retrieval_tools (tools : list ToolInfo) (content : string)
  : bool :=
  existsb (fun indicator => contains indicator content) retrieval_indicators
  || existsb
       (fun tool =>
          existsb (fun term => contains term (lower (name tool)))
            LangChainPy.retrieval_terms
          || LangChainPy.description_has
               (fun d =>
                  existsb (fun term => contains term d)
                    LangChainPy.retrieval_terms)
               tool)
       tools.

(** The lines that follow the extraction in [detect]. *)
Definition classify_agent_type (tools : list ToolInfo) (content : string)
  : string :=
  if _has_sql_tools tools content then "SQL Agent"
  else if _has_retrieval_tools tools content then "Retrieval Agent"
  else "LLM Agent".

(** from \s* [QUOTE] TARGET [QUOTE]     for each provider, in this order;
    the last two allow [^QUOTE]* after the name *)
Definition provider_patterns : list (string * re) :=
  (map (fun p => (p, cat [lit "from"; star ws; quote; lit p; quote]))
     ["@langchain/openai"; "@langchain/anthropic"; "@langchain/google-genai";
      "@langchain/community"; "@langchain/experimental"]
   ++
   map (fun p => (p, cat [lit "from"; star ws; quote; lit p; star not_quote;
                          quote]))
     ["@langchain/langgraph"; "@langchain/core"])%list.

(** [_detect_provider_frameworks] *)
Definition _detect_provider_frameworks (content : string) : list string :=
  flat_map
    (fun pp =>
       match search no_flags (snd pp) content with
       | Some _ => [fst pp]
       | None => []
       end)
    provider_patterns.

(** The name and the description read with the quoted-field patterns. *)
Definition read_name (default text : string) : string :=
  match search no_flags (quoted_field_pattern "name") text with
  | Some m => group_str 1 m
  | None => default
  end.

Definition read_description (text : string) : option string :=
  match search no_flags (quoted_field_pattern "description") text with
  | Some m => Some (group_str 1 m)
  | None => None
  end.

Section Detector.
(** [self.schema_factory.extractors] *)
Variable schema_factory : factory.
Variable fs : file_system.

(** [_extract_schema_params] *)
Definition _extract_schema_params (content schema_body : string)
  : gmap string param_info :=
  match get_extractor schema_factory content with
  | Some extractor =>
      match extract_params extractor content schema_body with
      | Some params => params
      | None => ∅
      end
  | None => ∅
  end.

(** [_extract_zod_schema_params] *)
Definition _extract_zod_schema_params (schema_body : string)
  : gmap string param_info :=
  let zod_content :=
    "import { z } from 'zod'" ++ String nl "" ++ "z.object({" ++ schema_body
    ++ "})" in
  _extract_schema_params zod_content schema_body.

(** [_resolve_import_path] *)
Definition _resolve_import_path (import_path : string)
    (current_file : Path) : option Path :=
  let current_dir := parent current_file in
  if startswith import_path "." then
    let resolved := resolve_relative current_dir import_path in
    first_some
      (fun ext =>
         if truthy ext then
           let file_with_ext := add_extension resolved ext in
           if exists_ fs file_with_ext then Some file_with_ext else None
         else if exists_ fs resolved && is_file fs resolved
         then Some resolved
         else
           let index_file := joinpath resolved "index.ts" in
           if exists_ fs index_file then Some index_file else None)
      [".ts"; ".tsx"; ".js"; ".jsx"; ""]
  else None.

(** The parameters read by [_parse_tool_from_file]. *)
Definition file_schema_params (content : string)
  : gmap string param_info :=
  match search DOTALL schema_pattern content with
  | Some m => _extract_schema_params content (group_str 1 m)
  | None =>
      match search no_flags schema_ref_pattern content with
      | Some r =>
          match search DOTALL (var_def_pattern (group_str 1 r)) content with
          | Some v => _extract_schema_params content (group_str 1 v)
          | None => ∅
          end
      | None => ∅
      end
  end.

(** [_parse_tool_from_file] *)
Definition _parse_tool_from_file (factory_name content : string)
    (file_path : Path) : option ToolInfo :=
  let nm := read_name "" content in
  let desc :=
    match search DOTALL template_description_pattern content with
    | Some m => Some (strip (group_str 1 m))
    | None =>
        match search no_flags (quoted_field_pattern "description") content with
        | Some m => Some (strip (group_str 1 m))
        | None => None
        end
    end in
  let parameters := file_schema_params content in
  if truthy nm
  then Some (mkToolInfo nm (path_str file_path) 0 desc parameters None None)
  else None.

(** [_load_tool_from_import] *)
Definition _load_tool_from_import (factory_name import_path : string)
    (current_file : Path) : option ToolInfo :=
  match _resolve_import_path import_path current_file with
  | Some resolved_path =>
      if exists_ fs resolved_path then
        match read_text fs resolved_path with
        | Some tool_content =>
            _parse_tool_from_file factory_name tool_content resolved_path
        | None => None
        end
      else None
  | None => None
  end.

(** [_find_tool_from_import] *)
Definition _find_tool_from_import (tool_var_name content : string)
    (file_path : Path) : option ToolInfo :=
  match search no_flags (tool_creation_pattern tool_var_name) content with
  | Some m =>
      let factory_name := group_str 1 m in
      match search no_flags (import_pattern factory_name) content with
      | Some im =>
          _load_tool_from_import factory_name (group_str 1 im) file_path
      | None => None
      end
  | None => None
  end.

(** [_find_tool_definition] *)
Definition _find_tool_definition (name content : string)
  : option ToolInfo :=
  match search no_flags (tool_call_pattern name) content with
  | Some m =>
      let chunk := take 2000 (drop (m_start m) content) in
      Some (mkToolInfo (read_name name chunk) "" 0 (read_description chunk)
              (match search DOTALL schema_pattern chunk with
               | Some sm => _extract_schema_params content (group_str 1 sm)
               | None => ∅
               end)
              None None)
  | None =>
      match search DOTALL (dyn_tool_pattern name) content with
      | Some m =>
          let tool_body := group_str 1 m in
          Some (mkToolInfo (read_name name tool_body) "" 0
                  (read_description tool_body)
                  (match search DOTALL schema_open_pattern tool_body with
                   | Some sm =>
                       _extract_schema_params content (group_str 1 sm)
                   | None => ∅
                   end)
                  None None)
      | None => None
      end
  end.

(** [_extract_tools] *)
Definition _extract_tools (tools_array content : string)
    (file_path : Path) : list ToolInfo :=
  let tool_names :=
    map strip
      (filter (fun t => truthy (strip t) = true) (split "," tools_array)) in
  map
    (fun tool_name =>
       let tool_name := strip tool_name in
       match _find_tool_definition tool_name content with
       | Some tool_info => tool_info
       | None =>
           match _find_tool_from_import tool_name content file_path with
           | Some tool_info => tool_info
           | None => new_tool tool_name ""
           end
       end)
    tool_names.

(** [_extract_tool_from_factory_impl] *)
Definition _extract_tool_from_factory_impl (factory_name content : string)
  : ToolInfo :=
  match search DOTALL (factory_body_pattern factory_name) content with
  | None => new_tool factory_name ""
  | Some m =>
      let factory_body := group_str 1 m in
      if contains "tool(" factory_body then
        mkToolInfo (read_name factory_name factory_body) "" 0
          (read_description factory_body)
          (match search DOTALL schema_open_pattern factory_body with
           | Some sm => _extract_zod_schema_params (group_str 1 sm)
           | None => ∅
           end)
          None None
      else if contains "DynamicStructuredTool" factory_body then
        mkToolInfo (read_name factory_name factory_body) "" 0
          (read_description factory_body) ∅ None None
      else new_tool factory_name ""
  end.

(** [_find_tool_factory_definition] *)
Definition _find_tool_factory_definition (factory_name content : string)
    (file_path : Path) : option ToolInfo :=
  let imported :=
    match search no_flags (import_pattern factory_name) content with
    | Some im =>
        _load_tool_from_import factory_name (group_str 1 im) file_path
    | None => None
    end in
  match imported with
  | Some tool_info => Some tool_info
  | None =>
      match search no_flags (factory_def_pattern factory_name) content with
      | Some _ => Some (_extract_tool_from_factory_impl factory_name content)
      | None => Some (new_tool factory_name "")
      end
  end.

Definition rename (tool_info : ToolInfo) (new_name : string) : ToolInfo :=
  mkToolInfo new_name (file_path tool_info) (line_number tool_info)
    (description tool_info) (parameters tool_info) (returns tool_info)
    (raw_definition tool_info).

(** [tool_var_name or factory_name] *)
Definition or_else (a b : string) : string := if truthy a then a else b.

(** [_extract_tools_from_factory] *)
Definition _extract_tools_from_factory (content : string)
    (file_path : Path) : list ToolInfo :=
  let tools :=
    match search DOTALL react_pattern content with
    | Some m => _extract_tools (group_str 1 m) content file_path
    | None => []
    end in
  (tools ++
   map (fun m =>
          let tool_var_name := group_str 1 m in
          let factory_name := group_str 2 m in
          match _find_tool_factory_definition factory_name content
                  file_path with
          | Some tool_info =>
              rename tool_info (or_else tool_var_name factory_name)
          | None => new_tool (or_else tool_var_name factory_name) ""
          end)
     (finditer no_flags tool_factory_pattern content))%list.

(** [_extract_tools_from_constructor] *)
Definition _extract_tools_from_constructor
    (constructor_body content : string) (file_path : Path)
  : list ToolInfo :=
  match search DOTALL tools_inline_pattern constructor_body with
  | Some m => _extract_tools (group_str 1 m) content file_path
  | None =>
      match search no_flags tools_ref_pattern constructor_body with
      | Some r =>
          match search DOTALL (var_pattern (group_str 1 r)) content with
          | Some v => _extract_tools (group_str 1 v) content file_path
          | None => []
          end
      | None => []
      end
  end.

(** The dictionary [info] of [_extract_agent_info]. *)
Record agent_info : Type := mkInfo {
  ai_name : option string;
  ai_tools : list ToolInfo
}.

(** [_extract_agent_info] *)
Definition _extract_agent_info (content : string) (file_path : Path)
  : option agent_info :=
  let constructed (call : re) : option agent_info :=
    match search DOTALL (agent_pattern call) content with
    | Some m =>
        Some (mkInfo (Some (group_str 1 m))
                (_extract_tools_from_constructor (group_str 2 m) content
                   file_path))
    | None => None
    end in
  let info :=
    match constructed (cat [lit "new"; plus ws; lit "AgentExecutor"]) with
    | Some info => Some info
    | None =>
        match constructed (lit "createReactAgent") with
        | Some info => Some info
        | None =>
            match search no_flags factory_pattern content with
            | Some m =>
                Some (mkInfo (Some (group_str 1 m))
                        (_extract_tools_from_factory content file_path))
            | None => None
            end
        end
    end in
  match info with
  | Some i => match ai_tools i with [] => None | _ => Some i end
  | None => None
  end.

(** [LangChainTypeScriptDetector.detect] *)
Definition detect (file_path : Path) (content : string)
  : option DetectorResult :=
  if negb (check_presence_signature get_presence_signatures content)
  then None
  else if negb (_has_tool_imports content) then None
  else
    match check_construction_signature get_construction_signatures content with
    | None => None
    | Some _ =>
        let result :=
          match _extract_agent_info content file_path with
          | Some info =>
              mkResult true (ai_name info) (Some (path_str file_path)) []
                (ai_tools info) "Other"
                ("LangChain" :: _detect_provider_frameworks content)
                "TypeScript"
                (classify_agent_type (ai_tools info) content) []
          | None =>
              mkResult true None (Some (path_str file_path)) [] [] "Other"
                ["LangChain"] "TypeScript" "LLM Agent" []
          end in
        if found result then Some result else None
    end.
End Detector.

(** The paths that [_resolve_import_path] may test for an import path. *)
Definition import_candidates (import_path : string) (current_file : Path)
  : list Path :=
  let resolved := resolve_relative (parent current_file) import_path in
  [add_extension resolved ".ts"; add_extension resolved ".tsx";
   add_extension resolved ".js"; add_extension resolved ".jsx";
   resolved; joinpath resolved "index.ts"].

End LangChainTs.

(* ===================================================================== *)
(** ** utils/file_walker.py *)
(* ===================================================================== *)

Module FileWalker.
Import PyStr PyPath PyCommon.

Definition DEFAULT_EXCLUDES : gset string :=
  list_to_set
    ["node_modules"; ".venv"; "venv"; "dist"; "build"; "site-packages";
     "__pycache__"; ".git"; ".pytest_cache"; ".mypy_cache"; ".tox";
     ".coverage"; ".hypothesis"; "htmlcov"; "wheels"; "*.egg-info"; ".env";
     "env"].

Definition SUPPORTED_EXTENSIONS : list string :=
  [".py"; ".ts"; ".tsx"; ".js"; ".jsx"].

Definition README_PATTERNS : list string :=
  ["README"; "README.md"; "README.txt"; "README.rst"; "readme.md";
   "Readme.md"].

(** The fields of a [FileWalker].  [max_file_bytes] is the integer that
    [__init__] computes from its argument in megabytes. *)
Record walker : Type := mkWalker {
  max_file_bytes : nat;
  include_patterns : list string;
  exclude_patterns : list string;
  excludes : gset string
}.

(** [FileWalker.__init__], from [max_file_bytes] on. *)
Definition new_walker (max_file_bytes : nat)
    (include_patterns exclude_patterns : option (list string))
    (strict : bool) : walker :=
  let include_patterns := default [] include_patterns in
  let exclude_patterns := default [] exclude_patterns in
  mkWalker max_file_bytes include_patterns exclude_patterns
    (list_to_set exclude_patterns
     ∪ (if strict then DEFAULT_EXCLUDES else ∅)).

(** [p.name]: the last component, empty for the root. *)
Definition name_of (p : Path) : string := List.last p "".

(** [p.suffix]: the name from its last dot on, when that dot is neither
    the first nor the last character of the name. *)
Definition suffix_of (p : Path) : string :=
  let name := name_of p in
  match last_dot name 0 None with
  | Some i =>
      if (0 <? i) && (i <? String.length name - 1) then drop i name
      else ""
  | None => ""
  end.

Fixpoint parents_from (n : nat) (p : Path) : list Path :=
  match n with
  | 0 => []
  | S n' => parent p :: parents_from n' (parent p)
  end.

(** [p.parents]: the ancestors of a path, the nearest first, the root
    last. *)
Definition parents (p : Path) : list Path := parents_from (List.length p) p.

(** [p.relative_to(root)]; [None] stands for the [ValueError] raised when
    [root] is no ancestor of [p]. *)
Fixpoint relative_to (p root : Path) : option (list string) :=
  match root, p with
  | [], _ => Some p
  | r :: root', c :: p' =>
      if String.eqb r c then relative_to p' root' else None
  | _ :: _, [] => None
  end.

(** [str] of a relative path. *)
Definition rel_str (parts : list string) : string :=
  match parts with
  | [] => "."
  | _ => join "/" parts
  end.

(** [str(file_path.relative_to(root_path))], and [str(file_path)] when
    [relative_to] raises. *)
Definition relative_str (file_path root_path : Path) : string :=
  match relative_to file_path root_path with
  | Some rel => rel_str rel
  | None => path_str file_path
  end.

(** The last loop of [_should_process_file]: over the ancestors of the
    file, up to the root of the walk. *)
Fixpoint excluded_parent (excludes : gset string) (root_path : Path)
    (ancestors : list Path) : bool :=
  match ancestors with
  | [] => false
  | p :: ancestors' =>
      if bool_decide (p = root_path) then false
      else if bool_decide (name_of p ∈ excludes) then true
      else excluded_parent excludes root_path ancestors'
  end.

Definition encodings : list string :=
  ["utf-8"; "utf-8-sig"; "latin-1"; "cp1252"].

Section FileSystem.
(** [fnmatch.fnmatch(name, pattern)] of the standard library. *)
Variable fnmatch : string -> string -> bool.
(** [p.stat().st_size]; [None] stands for an [OSError]. *)
Variable st_size : Path -> option nat.
(** [p.read_text(encoding=e)]; [None] stands for a [UnicodeDecodeError]
    or an [OSError]. *)
Variable read_text_as : string -> Path -> option string.

(** [_should_process_file] *)
Definition _should_process_file (w : walker) (file_path root_path : Path)
  : bool :=
  match st_size file_path with
  | None => false
  | Some size =>
      if max_file_bytes w <? size then false
      else if negb (existsb (String.eqb (suffix_of file_path))
                      SUPPORTED_EXTENSIONS)
              && negb (existsb (String.eqb (name_of file_path))
                         README_PATTERNS)
      then false
      else
        let rel_path := relative_str file_path root_path in
        if match include_patterns w with
           | [] => false
           | patterns => negb (existsb (fnmatch rel_path) patterns)
           end
        then false
        else if existsb
                  (fun pattern =>
                     fnmatch rel_path pattern
                     || fnmatch (name_of file_path) pattern)
                  (exclude_patterns w)
        then false
        else negb (excluded_parent (excludes w) root_path
                     (parents file_path))
  end.

(** [read_file_safely] *)
Definition read_file_safely (file_path : Path) : option string :=
  first_some (fun encoding => read_text_as encoding file_path) encodings.

End FileSystem.

End FileWalker.

(* ===================================================================== *)
(** ** scanner.py: the detectors of a scanner and the processing of one
    file *)
(* ===================================================================== *)

Module ScanFile.
Import PyStr Re Ast BaseDetector SchemaExtractors PyPath PyCommon FileWalker.

(** The four detector classes. *)
Inductive detector : Type :=
| LangChainPythonDetector
| LangChainTypeScriptDetector
| AutoGenDetector
| CrewAIDetector.

Definition FRAMEWORK_DETECTORS : list (string * detector) :=
  [("langchain-py", LangChainPythonDetector);
   ("langchain-ts", LangChainTypeScriptDetector);
   ("autogen", AutoGenDetector);
   ("crewai", CrewAIDetector)].

Fixpoint framework_detector (table : list (string * detector))
    (framework : string) : option detector :=
  match table with
  | [] => None
  | (k, d) :: table' =>
      if String.eqb k framework then Some d
      else framework_detector table' framework
  end.

(** The list [self.detectors] that [Scanner.__init__] builds. *)
Definition scanner_detectors (frameworks : option (list string))
  : list detector :=
  let frameworks :=
    match frameworks with
    | Some (f :: rest) => f :: rest
    | _ => ["langchain-py"; "langchain-ts"]
    end in
  flat_map
    (fun framework =>
       opt_list (framework_detector FRAMEWORK_DETECTORS framework))
    frameworks.

(** [_resolve_tool_files] *)
Definition _resolve_tool_files (result : DetectorResult)
    (file_path root_path : Path) : DetectorResult :=
  let constructor_file := relative_str file_path root_path in
  mkResult (found result) (agent_name result) (Some constructor_file)
    (match tool_files result with
     | [] => [constructor_file]
     | files => files
     end)
    (tools result) (architecture result) (frameworks result)
    (language result) (agent_type result) (metadata result).

Section Scanner.
Variable ast_parse : string -> parse_outcome.
Variable get_docstring : node -> option string.
Variable fs : file_system.
Variable read_text_as : string -> Path -> option string.

(** [detector.detect(file_path, content)]; the detector for TypeScript
    holds the factory that its [__init__] creates. *)
Definition detect (d : detector) (file_path : Path) (content : string)
  : outcome (option DetectorResult) :=
  match d with
  | LangChainPythonDetector =>
      LangChainPy.detect ast_parse get_docstring fs file_path content
  | LangChainTypeScriptDetector =>
      Returned (LangChainTs.detect new_factory fs file_path content)
  | AutoGenDetector => AutoGen.detect ast_parse file_path content
  | CrewAIDetector =>
      CrewAI.detect ast_parse get_docstring file_path content
  end.

(** The loop of [_process_file] over the detectors. *)
Fixpoint try_detectors (detectors : list detector)
    (file_path root_path : Path) (content : string)
  : option DetectorResult :=
  match detectors with
  | [] => None
  | d :: rest =>
      match detect d file_path content with
      | Returned (Some result) =>
          if found result
          then Some (_resolve_tool_files result file_path root_path)
          else try_detectors rest file_path root_path content
      | Returned None | Raised =>
          try_detectors rest file_path root_path content
      end
  end.

(** [_process_file] *)
Definition _process_file (detectors : list detector)
    (file_path root_path : Path) : option DetectorResult :=
  match read_file_safely read_text_as file_path with
  | Some content =>
      if truthy content
      then try_detectors detectors file_path root_path content
      else None
  | None => None
  end.

End Scanner.

End ScanFile.

(* ===================================================================== *)
(** ** Example files *)
(* ===================================================================== *)

Module Examples.
Import PyStr Re Ast DocstringParser BaseDetector PyPath PyCommon.

(** [inspect.cleandoc] for a text without tabulations. *)
Definition indent_of (line : string) : nat :=
  String.length line - String.length (lstrip line).

Definition margin_of (lines : list string) : option nat :=
  fold_left
    (fun margin line =>
       if truthy (lstrip line) then
         match margin with
         | Some m => Some (Nat.min m (indent_of line))
         | None => Some (indent_of line)
         end
       else margin)
    lines None.

Fixpoint drop_empty (lines : list string) : list string :=
  match lines with
  | line :: lines' => if truthy line then lines else drop_empty lines'
  | [] => []
  end.

Definition cleandoc (doc : string) : string :=
  match split nl doc with
  | [] => EmptyString
  | first :: others =>
      let others :=
        match margin_of others with
        | Some m => map (drop m) others
        | None => others
        end in
      let lines := lstrip first :: others in
      join (String nl "")
        (drop_empty (List.rev (drop_empty (List.rev lines))))
  end.

(** [ast.get_docstring] *)
Definition get_docstring (n : node) : option string :=
  match n with
  | Module_ body
  | FunctionDef _ _ body _ _
  | AsyncFunctionDef _ _ body _ _
  | ClassDef _ _ _ body _ =>
      match body with
      | Expr (Constant (CStr text)) :: _ => Some (cleandoc text)
      | _ => None
      end
  | _ => None
  end.

(** [ast.parse] on the example files below, given as the table of its
    answers; a source outside the table does not occur in the examples. *)
Definition parse_table (table : list (string * parse_outcome))
    (content : string) : parse_outcome :=
  match List.find (fun entry => String.eqb (fst entry) content) table with
  | Some entry => snd entry
  | None => OtherError
  end.

Definition autogen_no_agents : string :=
"from autogen import AssistantAgent, UserProxyAgent, GroupChat, GroupChatManager
chat = GroupChat(agents=[], messages=[])
manager = GroupChatManager(groupchat=chat)
".

Definition autogen_no_agents_tree : node :=
  (Module_ [(ImportFrom (Some "autogen") [(alias "AssistantAgent" None);
  (alias "UserProxyAgent" None); (alias "GroupChat" None); (alias
  "GroupChatManager" None)] 0); (Assign [(Name "chat")] (Call (Name
  "GroupChat") [] [(keyword (Some "agents") (List_ [])); (keyword (Some
  "messages") (List_ []))])); (Assign [(Name "manager")] (Call (Name
  "GroupChatManager") [] [(keyword (Some "groupchat") (Name "chat"))]))]).

Definition crew_no_agents : string :=
"from crewai import Agent, Task, Crew
crew = Crew(agents=[], tasks=[])
".

Definition crew_no_agents_tree : node :=
  (Module_ [(ImportFrom (Some "crewai") [(alias "Agent" None); (alias "Task"
  None); (alias "Crew" None)] 0); (Assign [(Name "crew")] (Call (Name
  "Crew") [] [(keyword (Some "agents") (List_ [])); (keyword (Some "tasks")
  (List_ []))]))]).

Definition unresolved_reference : string :=
"from langchain.agents import initialize_agent
from langchain.tools import Tool
from mytools import search_tool
calc = Tool(name='calc', func=run_calc, description='Adds numbers')
agent = initialize_agent(tools=[search_tool, calc], llm=llm)
".

Definition unresolved_reference_tree : node :=
  (Module_ [(ImportFrom (Some "langchain.agents") [(alias "initialize_agent"
  None)] 0); (ImportFrom (Some "langchain.tools") [(alias "Tool" None)] 0);
  (ImportFrom (Some "mytools") [(alias "search_tool" None)] 0); (Assign
  [(Name "calc")] (Call (Name "Tool") [] [(keyword (Some "name") (Constant
  (CStr "calc"))); (keyword (Some "func") (Name "run_calc")); (keyword (Some
  "description") (Constant (CStr "Adds numbers")))])); (Assign [(Name
  "agent")] (Call (Name "initialize_agent") [] [(keyword (Some "tools")
  (List_ [(Name "search_tool"); (Name "calc")])); (keyword (Some "llm")
  (Name "llm"))]))]).

Definition toolkit_agent : string :=
"from langchain.agents import initialize_agent
from langchain_community.agent_toolkits import SQLDatabaseToolkit
from langchain_community.vectorstores import FAISS
toolkit = SQLDatabaseToolkit(db=db, llm=llm)
agent = initialize_agent(tools=toolkit.get_tools(), llm=llm)
".

Definition toolkit_agent_tree : node :=
  (Module_ [(ImportFrom (Some "langchain.agents") [(alias "initialize_agent"
  None)] 0); (ImportFrom (Some "langchain_community.agent_toolkits") [(alias
  "SQLDatabaseToolkit" None)] 0); (ImportFrom (Some
  "langchain_community.vectorstores") [(alias "FAISS" None)] 0); (Assign
  [(Name "toolkit")] (Call (Name "SQLDatabaseToolkit") [] [(keyword (Some
  "db") (Name "db")); (keyword (Some "llm") (Name "llm"))])); (Assign [(Name
  "agent")] (Call (Name "initialize_agent") [] [(keyword (Some "tools")
  (Call (Attribute (Name "toolkit") "get_tools") [] [])); (keyword (Some
  "llm") (Name "llm"))]))]).

Definition sql_lookup_agent : string :=
"from langchain.agents import initialize_agent
from langchain.tools import Tool
lookup = Tool(name='sql_lookup', func=run, description='Query the vectorstore')
agent = initialize_agent(tools=[lookup], llm=llm)
".

Definition sql_lookup_agent_tree : node :=
  (Module_ [(ImportFrom (Some "langchain.agents") [(alias "initialize_agent"
  None)] 0); (ImportFrom (Some "langchain.tools") [(alias "Tool" None)] 0);
  (Assign [(Name "lookup")] (Call (Name "Tool") [] [(keyword (Some "name")
  (Constant (CStr "sql_lookup"))); (keyword (Some "func") (Name "run"));
  (keyword (Some "description") (Constant (CStr
  "Query the vectorstore")))])); (Assign [(Name "agent")] (Call (Name
  "initialize_agent") [] [(keyword (Some "tools") (List_ [(Name
  "lookup")])); (keyword (Some "llm") (Name "llm"))]))]).

Definition imported_tool_agent : string :=
"from langchain.agents import initialize_agent
from tools import FetchTool
agent = initialize_agent(tools=[FetchTool()], llm=llm)
".

Definition imported_tool_agent_tree : node :=
  (Module_ [(ImportFrom (Some "langchain.agents") [(alias "initialize_agent"
  None)] 0); (ImportFrom (Some "tools") [(alias "FetchTool" None)] 0);
  (Assign [(Name "agent")] (Call (Name "initialize_agent") [] [(keyword
  (Some "tools") (List_ [(Call (Name "FetchTool") [] [])])); (keyword (Some
  "llm") (Name "llm"))]))]).

Definition tools_module : string :=
"from langchain.tools import BaseTool
class FetchTool(BaseTool):
    name = 'fetch_page'
    description = 'Fetch a web page'
".

Definition tools_module_tree : node :=
  (Module_ [(ImportFrom (Some "langchain.tools") [(alias "BaseTool" None)]
  0); (ClassDef "FetchTool" [(Name "BaseTool")] [] [(Assign [(Name "name")]
  (Constant (CStr "fetch_page"))); (Assign [(Name "description")] (Constant
  (CStr "Fetch a web page")))] [])]).

Definition langchain_unclosed : string :=
"from langchain.agents import initialize_agent
agent = initialize_agent(tools=[search,
".

Definition autogen_unclosed : string :=
"from autogen import AssistantAgent, UserProxyAgent, GroupChat, GroupChatManager
manager = GroupChatManager(groupchat=chat
".

Definition crew_unclosed : string :=
"from crewai import Agent, Task, Crew
crew = Crew(agents=[writer], tasks=[draft]
".

Definition ast_parse : string -> parse_outcome :=
  parse_table
    [(autogen_no_agents, Parsed autogen_no_agents_tree);
     (crew_no_agents, Parsed crew_no_agents_tree);
     (unresolved_reference, Parsed unresolved_reference_tree);
     (toolkit_agent, Parsed toolkit_agent_tree);
     (sql_lookup_agent, Parsed sql_lookup_agent_tree);
     (imported_tool_agent, Parsed imported_tool_agent_tree);
     (tools_module, Parsed tools_module_tree);
     (langchain_unclosed, SyntaxError);
     (autogen_unclosed, SyntaxError);
     (crew_unclosed, SyntaxError)].

(** The signature of [def search(limit: int)] and two docstrings for it. *)
Definition limit_signature : signature :=
  mkSignature {[ "limit" := mkParam "int" true None None ]}
    (mkReturns "Any" None) None.

Definition limit_docstring : string :=
"Search the index.

Args:
    limit (str, optional): Max results. Defaults to 10.".




(** [def search(query, *args, **kwargs): ...] *)
Definition star_function : node :=
  FunctionDef "search"
    (arguments [] [arg "query" None] (Some (arg "args" None)) [] []
       (Some (arg "kwargs" None)) [])
    [Expr (Constant CEllipsis)] [Name "tool"] None.

(** Two schema bodies in the Zod dialect; in each the field [limit] and no
    other carries the marker. *)
Definition schema_one_line : string :=
"
  query: z.string().describe('The search query'),
  limit: z.number().optional().describe('Max results'),
  exact: z.boolean(),
".

Definition schema_comma_in_text : string :=
"
  query: z.string().describe('The search query'),
  limit: z.number().describe('Max results, at most 50').optional(),
  exact: z.boolean(),
".

(** An agent in TypeScript whose one tool has [sql] in its name, in a
    file that also names a vector store. *)
Definition sql_search_ts : string :=
"import { AgentExecutor } from 'langchain/agents';
import { tool } from '@langchain/core/tools';
const sqlSearch = tool(run, { name: 'sql_search', description: 'Query the vectorStore' });
const executor = new AgentExecutor({ agent, tools: [sqlSearch] });
".

(** A file without any schema dialect. *)
Definition plain_text : string := "export const answer = 42".

(** A repository with the agent file alone, and one that also holds the
    module the agent file imports its tool from. *)
Definition agent_file : Path := ["repo"; "agent.py"].

Definition empty_repo : file_system := fun _ => None.

Definition repo_with_tools : file_system :=
  fun p =>
    if bool_decide (p = ["repo"; "tools.py"]) then Some (File (Some tools_module))
    else if bool_decide (p = ["repo"]) then Some Dir
    else None.

(** The same repository with one more file, which no import names. *)
Definition repo_with_notes : file_system :=
  fun p =>
    if bool_decide (p = ["repo"; "docs"; "notes.txt"])
    then Some (File (Some plain_text))
    else repo_with_tools p.

(** [def lookup(query: str, limit: int = 10, *rest, exact: bool = False)
    -> list: ...] and a docstring for it that documents [limit] alone and
    claims another return type. *)
Definition lookup_function : node :=
  FunctionDef "lookup"
    (arguments []
       [arg "query" (Some (Name "str")); arg "limit" (Some (Name "int"))]
       (Some (arg "rest" None))
       [arg "exact" (Some (Name "bool"))] [Some (Constant (CBool false))]
       None [Constant (CInt 10)])
    [Expr (Constant CEllipsis)] [Name "tool"] (Some (Name "list")).

Definition lookup_docstring : string :=
"Look a term up.

Args:
    limit (int): Max results.

Returns:
    dict: The hits.".

(** A TypeScript module that defines one tool, and a repository that
    holds it beside the agent file. *)
Definition search_tool_ts : string :=
"import { tool } from '@langchain/core/tools';
export const createSearchTool = () => tool(run, {
  name: 'web_search',
  description: 'Search the web',
});
".

Definition repo_with_ts_tool : file_system :=
  fun p =>
    if bool_decide (p = ["repo"; "tools"; "search.ts"])
    then Some (File (Some search_tool_ts))
    else if bool_decide (p = ["repo"; "tools"]) then Some Dir
    else if bool_decide (p = ["repo"]) then Some Dir
    else None.

(** A repository whose agent file holds the agent with the SQL tool, and
    the reading of its files, whose text is the same in every encoding. *)
Definition repo_with_agent : file_system :=
  fun p =>
    if bool_decide (p = ["repo"; "src"; "agent.py"])
    then Some (File (Some sql_lookup_agent))
    else if bool_decide (p = ["repo"; "src"]) then Some Dir
    else if bool_decide (p = ["repo"]) then Some Dir
    else None.

Definition read_from (fs : file_system) (encoding : string) (p : Path)
  : option string :=
  read_text fs p.

(** A walker with the defaults of the scanner: 1.5 megabytes, no
    patterns, strict mode. *)
Definition default_walker : FileWalker.walker :=
  FileWalker.new_walker (1536 * 1024) None None true.

(** A group chat over two agents that the file defines and one that it
    does not. *)
Definition autogen_team : string :=
"from autogen import AssistantAgent, UserProxyAgent, GroupChat, GroupChatManager
coder = AssistantAgent(name='coder', llm_config=cfg)
user = UserProxyAgent(name='user', code_execution_config=False)
chat = GroupChat(agents=[coder, user, reviewer], messages=[])
manager = GroupChatManager(groupchat=chat)
".

Definition autogen_team_tree : node :=
  (Module_ [(ImportFrom (Some "autogen") [(alias "AssistantAgent" None);
  (alias "UserProxyAgent" None); (alias "GroupChat" None); (alias
  "GroupChatManager" None)] 0); (Assign [(Name "coder")] (Call (Name
  "AssistantAgent") [] [(keyword (Some "name") (Constant (CStr "coder")));
  (keyword (Some "llm_config") (Name "cfg"))])); (Assign [(Name "user")]
  (Call (Name "UserProxyAgent") [] [(keyword (Some "name") (Constant (CStr
  "user"))); (keyword (Some "code_execution_config") (Constant (CBool
  false)))])); (Assign [(Name "chat")] (Call (Name "GroupChat") [] [(keyword
  (Some "agents") (List_ [(Name "coder"); (Name "user"); (Name
  "reviewer")])); (keyword (Some "messages") (List_ []))])); (Assign [(Name
  "manager")] (Call (Name "GroupChatManager") [] [(keyword (Some
  "groupchat") (Name "chat"))]))]).

(** A manager over a group chat without agents, beside a second group
    chat that lists an agent. *)
Definition autogen_two_chats : string :=
"from autogen import AssistantAgent, UserProxyAgent, GroupChat, GroupChatManager
coder = AssistantAgent(name='coder')
side = GroupChat(agents=[coder], messages=[])
chat = GroupChat(agents=[], messages=[])
manager = GroupChatManager(groupchat=chat)
".

Definition autogen_two_chats_tree : node :=
  (Module_ [(ImportFrom (Some "autogen") [(alias "AssistantAgent" None);
  (alias "UserProxyAgent" None); (alias "GroupChat" None); (alias
  "GroupChatManager" None)] 0); (Assign [(Name "coder")] (Call (Name
  "AssistantAgent") [] [(keyword (Some "name") (Constant (CStr
  "coder")))])); (Assign [(Name "side")] (Call (Name "GroupChat") []
  [(keyword (Some "agents") (List_ [(Name "coder")])); (keyword (Some
  "messages") (List_ []))])); (Assign [(Name "chat")] (Call (Name
  "GroupChat") [] [(keyword (Some "agents") (List_ [])); (keyword (Some
  "messages") (List_ []))])); (Assign [(Name "manager")] (Call (Name
  "GroupChatManager") [] [(keyword (Some "groupchat") (Name "chat"))]))]).

(** A docstring of white space alone. *)
Definition blank_docstring : string :=
"
    ".

End Examples.

(* ===================================================================== *)
(** * Properties *)
(* ===================================================================== *)

Import PyStr Re Ast DocstringParser BaseDetector SchemaExtractors Scanner.
Import PyPath PyCommon Examples.

#[local] Arguments Nat.ltb : simpl never.
#[local] Arguments Nat.leb : simpl never.

(* ===================================================================== *)
(** ** The matcher *)
(* ===================================================================== *)

Section Matcher.
Variable fl : flags.

(** What a star returns, its continuation has returned. *)
Lemma star_loop_cont g body :
  (forall s k e, body s k = Some e -> exists s', k s' = Some e) ->
  forall n s k e, star_loop g body n s k = Some e -> exists s', k s' = Some e.
Proof.
  intros Hbody. induction n as [|n IH]; intros s k e H; cbn in H; [eauto|].
  destruct g.
  - destruct (body s _) as [e'|] eqn:Hb; [|eauto].
    injection H as ->. apply Hbody in Hb as [s' Hs'].
    destruct (pos s <? pos s'); [eauto|discriminate].
  - destruct (k s) as [e'|] eqn:Hk; [injection H as ->; eauto|].
    apply Hbody in H as [s' Hs'].
    destruct (pos s <? pos s'); [eauto|discriminate].
Qed.

Lemma step_cont p s k e : step p s k = Some e -> exists s', k s' = Some e.
Proof.
  unfold step. destruct (rest s) as [|a t]; [discriminate|].
  destruct (p a); [eauto|discriminate].
Qed.

Lemma run_cont r : forall fuel s k e,
  run fl r fuel s k = Some e -> exists s', k s' = Some e.
Proof.
  induction r; intros fuel s k e H; cbn in H;
    try (eapply step_cont; eassumption); eauto.
  - apply IHr1 in H as [s' H]. eauto.
  - destruct (run fl r1 fuel s k) eqn:E; [injection H as ->|]; eauto.
  - eapply star_loop_cont; [|eassumption]. intros. eapply IHr. eassumption.
  - eapply star_loop_cont; [|eassumption]. intros. eapply IHr. eassumption.
  - apply IHr in H as [s' H]. eauto.
  - destruct (run fl r fuel s Some); [eauto|discriminate].
  - destruct (at_bol fl s); [eauto|discriminate].
  - destruct (at_eol fl s); [eauto|discriminate].
  - destruct (at_end s); [eauto|discriminate].
  - destruct (xorb _ _); [eauto|discriminate].
Qed.

(** The head of a concatenation can be skipped. *)
Lemma run_cat_cons a b l fuel s k e :
  run fl (cat (a :: b :: l)) fuel s k = Some e ->
  exists s', run fl (cat (b :: l)) fuel s' k = Some e.
Proof. intros H. apply (run_cont a) in H. exact H. Qed.

(** A star over a character class reads characters of the class. *)
Lemma star_class g p : forall n s k e,
  star_loop g (step p) n s k = Some e ->
  exists w s', reads s s' w /\ all_chars p w = true /\ k s' = Some e.
Proof.
  assert (Hstep : forall n s k e,
    (forall s k e, star_loop g (step p) n s k = Some e ->
       exists w s', reads s s' w /\ all_chars p w = true /\ k s' = Some e) ->
    step p s (fun s' => if pos s <? pos s' then star_loop g (step p) n s' k
                        else None) = Some e ->
    exists w s', reads s s' w /\ all_chars p w = true /\ k s' = Some e).
  { intros n s k e IH H. unfold step in H.
    destruct (rest s) as [|c t] eqn:Hr; [discriminate|].
    destruct (p c) eqn:Hp; [|discriminate].
    destruct (pos s <? pos (advance c t s)); [|discriminate].
    apply IH in H as (w & s' & (H1 & H2 & H3) & Hw & Hk).
    exists (String c w), s'. split; [repeat split|].
    - rewrite Hr. cbn in H1. by rewrite H1.
    - rewrite H2. unfold advance. cbn [pos String.length]. lia.
    - by rewrite H3.
    - split; [|done]. cbn [all_chars]. by rewrite Hp, Hw. }
  induction n as [|n IH]; intros s k e H; cbn in H.
  - exists "", s. repeat split; cbn; auto.
  - destruct g.
    + destruct (step p s _) as [e'|] eqn:Hb.
      * injection H as ->. eapply Hstep; eauto.
      * exists "", s. repeat split; cbn; auto.
    + destruct (k s) as [e'|] eqn:Hk.
      * injection H as ->. exists "", s. repeat split; cbn; auto.
      * eapply Hstep; eauto.
Qed.

Lemma take_app_length w r : take (String.length w) (w ++ r) = w.
Proof.
  induction w as [|a w IH]; [by destruct r|].
  change (String a w ++ r) with (String a (w ++ r)).
  cbn [String.length take]. by rewrite IH.
Qed.

(** A group around a star over a character class captures text of the
    class. *)
Lemma group_star_class i g p fuel s k e :
  run fl (Grp i (Star g (Cls p))) fuel s k = Some e ->
  exists w s', reads s s' w /\ all_chars p w = true /\
    k (St (pos s') (prev s') (rest s') ((i, w) :: caps s)) = Some e.
Proof.
  cbn. intros H. apply star_class in H as (w & s' & (H1 & H2 & H3) & Hw & Hk).
  exists w, s'. split; [by repeat split|]. split; [done|].
  assert (take (pos s' - pos s) (rest s) = w) as Ht.
  { rewrite H1, H2.
    replace (pos s + String.length w - pos s) with (String.length w) by lia.
    apply take_app_length. }
  by rewrite Ht, H3 in Hk.
Qed.

(** Every match of an iteration is a match at some position. *)
Lemma search_from_match_at r fuel : forall s p pv m,
  search_from fl r fuel p pv s = Some m ->
  exists s' p' pv', match_at fl r fuel p' pv' s' = Some m.
Proof.
  induction s as [|c t IH]; intros p pv m H; cbn in H.
  - destruct (match_at fl r fuel p pv "") eqn:E; [|discriminate].
    injection H as ->. eauto.
  - destruct (match_at fl r fuel p pv (String c t)) eqn:E.
    + injection H as ->. eauto.
    + eauto.
Qed.

Lemma finditer_from_match_at r fuel : forall n p pv s m,
  In m (finditer_from fl r fuel n p pv s) ->
  exists s' p' pv', match_at fl r fuel p' pv' s' = Some m.
Proof.
  induction n as [|n IH]; intros p pv s m H; cbn in H; [done|].
  destruct (search_from fl r fuel p pv s) as [m'|] eqn:E; [|done].
  destruct (forward _ pv s) as [pv' s'].
  destruct H as [->|H].
  - eapply search_from_match_at; eauto.
  - destruct (_ <=? _); [eauto|done].
Qed.

End Matcher.

(** A text without the character [c] does not contain it. *)
Lemma contains_char c w :
  all_chars (fun x => negb (Ascii.eqb x c)) w = true ->
  contains (String c "") w = false.
Proof.
  induction w as [|a w IH]; cbn; [done|].
  intros [Ha Hw]%andb_prop. rewrite (IH Hw), orb_false_r.
  rewrite Ascii.eqb_sym. destruct (Ascii.eqb a c); [done|]. done.
Qed.

Lemma all_chars_impl (p q : ascii -> bool) w :
  (forall c, p c = true -> q c = true) ->
  all_chars p w = true -> all_chars q w = true.
Proof.
  intros Hpq. induction w as [|a w IH]; cbn; [done|].
  intros [Ha Hw]%andb_prop. by rewrite (Hpq _ Ha), (IH Hw).
Qed.

(* ===================================================================== *)
(** ** Texts *)
(* ===================================================================== *)

























(* ===================================================================== *)
(** ** The matcher on a text that is known in part *)
(* ===================================================================== *)

Section Forward.
Variable fl : flags.















End Forward.














(* ===================================================================== *)
(** ** Running a pattern step by step *)
(* ===================================================================== *)











(* ===================================================================== *)
(** ** The tool conversion of the scanner *)
(* ===================================================================== *)

Section ScannerProperties.
Implicit Types (params : gmap string param_info) (pname : string).

Lemma convert_parameters_lookup params pname :
  convert_parameters params !! pname =
    if startswith pname "*" then None
    else to_tool_parameter <$> params !! pname.
Proof.
  unfold convert_parameters.
  apply (map_fold_weak_ind
           (fun (r : gmap string ToolParameter) (m : gmap string param_info) =>
              r !! pname =
                if startswith pname "*" then None
                else to_tool_parameter <$> m !! pname)).
  - rewrite !lookup_empty. by destruct (startswith pname "*").
  - intros i x m r Hi IH.
    destruct (decide (i = pname)) as [->|Hne].
    + destruct (startswith pname "*") eqn:Hs.
      * exact IH.
      * by rewrite !lookup_insert_eq.
    + rewrite (lookup_insert_ne m) by done.
      destruct (startswith i "*"); [exact IH|].
      by rewrite lookup_insert_ne.
Qed.

(** C10. In the conversion of a detection result to the tools of an output
    record, every tool keeps its name, a parameter whose name begins with a
    star is left out of the parameters of the tool, every other parameter is
    carried over with its type, its required flag and its description, and
    so no parameter name of the output begins with a star. *)
Theorem C10_star_parameters_are_omitted (result : DetectorResult) :
  count (convert_tools result) = List.length (tools result) /\
  Forall2
    (fun tool detail =>
       tool_name detail = name tool /\
       (forall pname,
          td_parameters detail !! pname =
            if startswith pname "*" then None
            else (fun info =>
                    mkToolParameter (pi_type info) (pi_required info)
                      (pi_description info)) <$> parameters tool !! pname) /\
       (forall pname,
          is_Some (td_parameters detail !! pname) ->
          startswith pname "*" = false))
    (tools result) (details (convert_tools result)).
Proof.
  split; [reflexivity|]. unfold convert_tools. cbn [details].
  induction (tools result) as [|tool rest IH]; cbn [map]; constructor; [|exact IH].
  split; [reflexivity|]. cbn [convert_tool td_parameters]. split.
  - intros pname. apply convert_parameters_lookup.
  - intros pname [v Hv]. rewrite convert_parameters_lookup in Hv.
    by destruct (startswith pname "*").
Qed.

(** The signature of [def search(query, *args, **kwargs)] records the two
    starred entries, and the conversion keeps [query] alone. *)
Example star_function_parameters :
  let tool := tool_of_function get_docstring "search" star_function in
  dom (parameters tool) = ({[ "query"; "*args"; "**kwargs" ]} : gset string) /\
  dom (td_parameters (convert_tool tool)) = ({[ "query" ]} : gset string).
Proof. split; apply (bool_decide_unpack _); vm_compute; exact I. Qed.

End ScannerProperties.

(* ===================================================================== *)
(** ** The registry of schema extractors *)
(* ===================================================================== *)

Section RegistryProperties.
Implicit Types (extractors : factory) (e : SchemaExtractor).

Lemma get_extractor_first extractors content e :
  get_extractor extractors content = Some e <->
  exists before after,
    extractors = (before ++ e :: after)%list /\
    Forall (fun x => can_extract x content = false) before /\
    can_extract e content = true.
Proof.
  split.
  - induction extractors as [|x xs IH]; cbn; [discriminate|].
    destruct (can_extract x content) eqn:Hx.
    + intros [= <-]. exists [], xs. by repeat split.
    + intros (before & after & -> & Hb & He)%IH.
      exists (x :: before), after. repeat split; [|done]. by constructor.
  - intros (before & after & -> & Hb & He).
    induction Hb as [|x before Hx _ IH]; cbn; [by rewrite He|by rewrite Hx].
Qed.

Lemma get_extractor_none extractors content :
  Forall (fun x => can_extract x content = false) extractors ->
  get_extractor extractors content = None.
Proof. induction 1 as [|x xs Hx _ IH]; cbn; [done|by rewrite Hx]. Qed.

(** C6. The registry answers with the first extractor of its list whose
    [can_extract] accepts the whole file content; an extractor registered
    at run time stands before the built-in ones and is asked first; when no
    extractor accepts the content, and also when the chosen extractor
    raises, the extraction of parameters yields the empty map. *)
Theorem C6_registry_first_match (extractors : factory)
    (content schema_body : string) :
  (forall e,
     get_extractor extractors content = Some e <->
     exists before after,
       extractors = (before ++ e :: after)%list /\
       Forall (fun x => can_extract x content = false) before /\
       can_extract e content = true) /\
  (forall e,
     get_extractor (register_extractor extractors e) content =
       if can_extract e content then Some e
       else get_extractor extractors content) /\
  (Forall (fun x => can_extract x content = false) extractors ->
   LangChainTs._extract_schema_params extractors content schema_body = ∅) /\
  (forall e,
     get_extractor extractors content = Some e ->
     extract_params e content schema_body = None ->
     LangChainTs._extract_schema_params extractors content schema_body = ∅).
Proof.
  split; [intros e; apply get_extractor_first|].
  split; [reflexivity|]. split.
  - intros H. unfold LangChainTs._extract_schema_params.
    by rewrite (get_extractor_none _ _ H).
  - intros e He Hr. unfold LangChainTs._extract_schema_params.
    by rewrite He, Hr.
Qed.

(** A file without any schema dialect: none of the built-in extractors
    accepts it, and the extraction yields the empty map. *)
Lemma C6_witness :
  LangChainTs._extract_schema_params new_factory plain_text "limit: 1" = ∅.
Proof.
  apply (C6_registry_first_match new_factory plain_text "limit: 1").
  repeat constructor.
Defined.

End RegistryProperties.

(* ===================================================================== *)
(** ** The merge of a docstring into a signature *)
(* ===================================================================== *)

Section MergeProperties.
Implicit Types (params : gmap string param_info) (docs : list ParameterDoc).

Lemma merge_param_type d p :
  pi_type p <> "Any" -> pi_type (merge_param d p) = pi_type p.
Proof.
  intros Hp. unfold merge_param.
  assert (String.eqb (pi_type p) "Any" = false) as E by (by apply String.eqb_neq).
  destruct (pd_type d) as [t|]; destruct (pd_default d); cbn;
    rewrite ?E, ?andb_false_r; done.
Qed.

Lemma merge_param_required d p :
  (pi_required (merge_param d p) = pi_required p /\
   pi_default (merge_param d p) = pi_default p) \/
  (pi_required (merge_param d p) = false /\
   pd_default d = pi_default (merge_param d p) /\ is_Some (pd_default d)).
Proof.
  unfold merge_param. destruct (pd_default d) eqn:E; cbn; [right|left]; eauto.
Qed.

Lemma merge_parameters_cons d docs params :
  merge_parameters (d :: docs) params =
    merge_parameters docs
      (match params !! pd_name d with
       | Some info => <[pd_name d := merge_param d info]> params
       | None => params
       end).
Proof. reflexivity. Qed.

Lemma merge_parameters_app docs1 docs2 params :
  merge_parameters (docs1 ++ docs2) params =
    merge_parameters docs2 (merge_parameters docs1 params).
Proof. apply fold_left_app. Qed.

(** What the merge does to one parameter of the signature: the entry stays;
    a declared type stays; [required] and [default] stay, unless some
    documented parameter of that name states a default. *)
Lemma merge_parameters_lookup docs : forall params pname p,
  params !! pname = Some p ->
  exists p', merge_parameters docs params !! pname = Some p' /\
    (pi_type p <> "Any" -> pi_type p' = pi_type p) /\
    ((pi_required p' = pi_required p /\ pi_default p' = pi_default p) \/
     (pi_required p' = false /\
      exists d, In d docs /\ pd_name d = pname /\
                pd_default d = pi_default p' /\ is_Some (pd_default d))).
Proof.
  induction docs as [|d docs IH]; intros params pname p Hp.
  - exists p. cbn. eauto.
  - rewrite merge_parameters_cons.
    destruct (decide (pd_name d = pname)) as [Hd|Hd].
    + rewrite Hd, Hp.
      destruct (IH (<[pname := merge_param d p]> params) pname (merge_param d p))
        as (p' & Hl & Ht & Hr); [by rewrite lookup_insert_eq|].
      exists p'. split; [done|]. split.
      * intros Hany. rewrite Ht; rewrite merge_param_type; done.
      * destruct Hr as [[Hr1 Hr2]|(Hr1 & d' & Hin & Hr2)].
        -- destruct (merge_param_required d p) as [[H1 H2]|(H1 & H2 & H3)].
           ++ left. split; congruence.
           ++ right. split; [congruence|]. exists d. rewrite Hr2. cbn. eauto.
        -- right. split; [done|]. exists d'. cbn. tauto.
    + destruct (IH (match params !! pd_name d with
                    | Some info => <[pd_name d := merge_param d info]> params
                    | None => params
                    end) pname p) as (p' & Hl & Ht & Hr).
      { destruct (params !! pd_name d); [by rewrite lookup_insert_ne|done]. }
      exists p'. split; [done|]. split; [done|].
      destruct Hr as [?|(?&d'&?&?)]; [by left|right].
      split; [done|]. exists d'. cbn. tauto.
Qed.

(** Documented parameters of other names leave the entry alone. *)
Lemma merge_parameters_other docs : forall params pname,
  Forall (fun d => pd_name d <> pname) docs ->
  merge_parameters docs params !! pname = params !! pname.
Proof.
  induction docs as [|d docs IH]; intros params pname H; [done|].
  inversion H as [|? ? Hd Hrest]; subst. rewrite merge_parameters_cons, IH by done.
  destruct (params !! pd_name d); [by rewrite lookup_insert_ne|done].
Qed.

(** The merge, seen from one parameter of the signature: the entries of
    the docstring for its name are merged into it in turn. *)
Lemma merge_parameters_entry docs : forall params pname p,
  params !! pname = Some p ->
  merge_parameters docs params !! pname
  = Some (fold_left (fun info d => merge_param d info)
            (List.filter (fun d => String.eqb (pd_name d) pname) docs) p).
Proof.
  induction docs as [|d docs IH]; intros params pname p Hp; [done|].
  rewrite merge_parameters_cons. cbn [List.filter].
  destruct (String.eqb (pd_name d) pname) eqn:E.
  - apply String.eqb_eq in E. rewrite E, Hp. cbn [fold_left].
    apply IH. by rewrite lookup_insert_eq.
  - apply String.eqb_neq in E. apply IH.
    destruct (params !! pd_name d); [by rewrite lookup_insert_ne|done].
Qed.

Lemma merge_param_fold ds : forall p,
  fold_left (fun info d => merge_param d info) ds p
  = mkParam
      (if String.eqb (pi_type p) "Any"
       then default "Any" (stated_type ds) else pi_type p)
      (match stated_default ds with Some _ => false | None => pi_required p end)
      (match stated_description ds with
       | Some t => Some t
       | None => pi_description p
       end)
      (match stated_default ds with Some v => Some v | None => pi_default p end).
Proof.
  unfold stated_type, stated_default, stated_description.
  induction ds as [|d ds IH]; intros p; cbn [fold_left map].
  - cbn. destruct p as [ty req desc def]. cbn.
    by destruct (String.eqb ty "Any") eqn:E; [apply String.eqb_eq in E as ->|].
  - rewrite IH. unfold merge_param at 1 2 3 4 5.
    cbn [last_stated first_stated].
    destruct (last_stated (map pd_default ds)) as [v|];
      destruct (last_stated (map _ ds)) as [t|];
      destruct (pd_default d) as [v'|]; cbn [pi_type pi_required
        pi_description pi_default or_none];
      f_equal; try reflexivity;
      try (destruct (pd_description d) as [x|]; cbn [or_none];
           [by destruct (truthy x)|reflexivity]);
      (destruct (pd_type d) as [ty|]; [|reflexivity];
       destruct (String.eqb (pi_type p) "Any") eqn:Ep;
         [|by rewrite andb_false_r, Ep];
       rewrite andb_true_r;
       destruct (truthy ty); cbn [andb]; [|by rewrite Ep];
       destruct (String.eqb ty "Any") eqn:Et; cbn [negb];
         [by apply String.eqb_eq in Et as ->|reflexivity]).
Qed.

(** C3 (amended). The merge of a docstring changes the entry of a
    parameter of the signature as follows.  A concrete declared type is
    kept; the type is replaced only when it is [Any], by the first
    documented type that is neither empty nor [Any].  The description
    becomes the documented one, when the docstring has one that is not
    empty.  [required] and [default] are kept, unless the docstring states
    a default value for the parameter: then [default] becomes that value
    and [required] becomes false, whatever the signature said.  Where the
    docstring documents the name more than once, the last default and the
    last description count. *)
Theorem C3_merge_keeps_declared_type (sg : signature)
    (docstring : option string) (pname : string) (p : param_info) :
  sig_parameters sg !! pname = Some p ->
  sig_parameters (merge_docstring_info sg docstring) !! pname
  = Some (let docs := documented docstring pname in
          mkParam
            (if String.eqb (pi_type p) "Any"
             then default "Any" (stated_type docs) else pi_type p)
            (match stated_default docs with
             | Some _ => false
             | None => pi_required p
             end)
            (match stated_description docs with
             | Some t => Some t
             | None => pi_description p
             end)
            (match stated_default docs with
             | Some v => Some v
             | None => pi_default p
             end)).
Proof.
  intros Hp. cbv zeta. unfold merge_docstring_info, documented.
  destruct docstring as [d|]; [destruct (truthy d)|].
  - cbn [merge_doc_info sig_parameters].
    rewrite (merge_parameters_entry _ _ _ _ Hp). f_equal.
    apply merge_param_fold.
  - rewrite Hp. f_equal. exact (merge_param_fold [] p).
  - rewrite Hp. f_equal. exact (merge_param_fold [] p).
Qed.

(** The declared type [int] is kept against the documented [str]; the
    documented default and description are taken over. *)
Lemma C3_witness :
  sig_parameters (merge_docstring_info limit_signature (Some limit_docstring))
    !! "limit"
  = Some (mkParam "int" false (Some "Max results. Defaults to 10.")
            (Some "10")).
Proof.
  rewrite (C3_merge_keeps_declared_type limit_signature (Some limit_docstring)
             "limit" (mkParam "int" true None None))
    by (vm_compute; reflexivity).
  vm_compute. reflexivity.
Defined.

(** The claim as stated fails here: the declared type is concrete, the
    docstring claims another type and a default, and the merge changes
    [required] and [default] besides the description. *)
Lemma C3_counterexample :
  sig_parameters limit_signature !! "limit"
    = Some (mkParam "int" true None None) /\
  sig_parameters (merge_docstring_info limit_signature (Some limit_docstring))
    !! "limit"
    = Some (mkParam "int" false (Some "Max results. Defaults to 10.")
              (Some "10")).
Proof. split; vm_compute; reflexivity. Qed.





(* ===================================================================== *)
(** ** A Google style docstring, from the text to the parameter *)
(* ===================================================================== *)














(** A value with a full stop is cut at the full stop. *)
Example default_is_cut_at_the_full_stop :
  sig_parameters
    (merge_docstring_info limit_signature
       (Some (google_docstring "Search the index." "limit" None
                "optional, defaults to 0.5")))
    !! "limit"
  = Some (mkParam "int" false (Some "optional, defaults to 0.5") (Some "0")).
Proof. vm_compute. reflexivity. Qed.

(** The line of the source's own example, with the type qualifier
    [int, optional] and the sentence [Defaults to 10.], gives the same
    record but for the description. *)
Example docstring_defaults_to_10 :
  sig_parameters (merge_docstring_info limit_signature (Some limit_docstring))
    !! "limit"
  = Some (mkParam "int" false (Some "Max results. Defaults to 10.") (Some "10")).
Proof. vm_compute. reflexivity. Qed.

End MergeProperties.

(* ===================================================================== *)
(** ** The Zod extractor *)
(* ===================================================================== *)

Section ZodProperties.

(** An entry of the collected map comes from a match of that name. *)
Lemma collect_lookup field ms pname p :
  collect field ms !! pname = Some p ->
  exists m, In m ms /\ group_str 1 m = pname /\ p = field m.
Proof.
  unfold collect.
  assert (forall acc : gmap string param_info,
    fold_left (fun params m => <[group_str 1 m := field m]> params) ms acc
      !! pname = Some p ->
    (exists m, In m ms /\ group_str 1 m = pname /\ p = field m) \/
    acc !! pname = Some p) as H.
  { induction ms as [|m ms IH]; intros acc Hl; cbn in Hl; [by right|].
    apply IH in Hl as [(m' & Hin & Hm)|Hl].
    - left. exists m'. split; [by right|done].
    - destruct (decide (group_str 1 m = pname)) as [Heq|Hne].
      + rewrite Heq, lookup_insert_eq in Hl. injection Hl as <-.
        left. exists m. split; [by left|done].
      + rewrite lookup_insert_ne in Hl by done. by right. }
  intros Hl. apply H in Hl as [?|Hl]; [done|]. by rewrite lookup_empty in Hl.
Qed.

(** The look-ahead that ends a field captures nothing. *)
Lemma field_end_caps fl fuel s s3 :
  run fl (alts [chr ","; chr nl; Eol; chr "}"]) fuel s Some = Some s3 ->
  caps s3 = caps s.
Proof.
  cbn [alts chr run]. unfold step.
  destruct (rest s) as [|c t];
    repeat match goal with
           | |- context [if ?b then _ else _] => destruct b
           end;
    intros H; try discriminate; by injection H as <-.
Qed.

(** The modifiers captured for a field hold no comma and no line break:
    the text of a field ends at the first of them. *)
Lemma zod_modifiers_stop schema_body m :
  In m (finditer DOTALL zod_field_pattern schema_body) ->
  contains "," (group_str 4 m) = false /\
  contains (String nl "") (group_str 4 m) = false.
Proof.
  intros (s & p & pv & H)%finditer_from_match_at. unfold match_at in H.
  destruct (run _ _ _ _ Some) as [e|] eqn:Hrun; [|discriminate].
  injection H as <-. unfold group_str, group. cbn [m_groups].
  unfold zod_field_pattern in Hrun.
  do 10 (apply run_cat_cons in Hrun as [? Hrun]).
  unfold lazy, none_of in Hrun.
  change (run ?fl (cat [?a; ?b]) ?f ?s ?k)
    with (run fl a f s (fun s' => run fl b f s' k)) in Hrun.
  apply (group_star_class DOTALL) in Hrun as (w & s' & _ & Hw & Hk).
  change (run ?fl (Look ?r) ?f ?s ?k)
    with (match run fl r f s Some with
          | Some s3 => k (St (pos s) (prev s) (rest s) (caps s3))
          | None => None
          end) in Hk.
  destruct (run DOTALL _ _ _ Some) as [s3|] eqn:Hlook; [|discriminate].
  injection Hk as <-. apply field_end_caps in Hlook.
  cbn [caps] in Hlook |- *. rewrite Hlook. cbn [assoc Nat.eqb].
  split; apply contains_char; eapply all_chars_impl; [|exact Hw| |exact Hw];
    intros c Hc; cbn in Hc; apply negb_true_iff in Hc;
    apply negb_true_iff; repeat (apply orb_false_elim in Hc as [? Hc]); done.
Qed.

(** Every field that [extract_params] reports comes from a match of the
    field pattern, and it is reported not required exactly when the marker
    [.optional()] stands in the modifiers captured for that match, which
    hold no comma and no line break. *)
Lemma zod_optional_marker_in_modifiers (content schema_body pname : string)
    (p : param_info) :
  zod_extract_params content schema_body !! pname = Some p ->
  exists m,
    In m (finditer DOTALL zod_field_pattern schema_body) /\
    group_str 1 m = pname /\
    pi_required p = negb (contains ".optional()" (strip (group_str 4 m))) /\
    contains "," (group_str 4 m) = false /\
    contains (String nl "") (group_str 4 m) = false.
Proof.
  intros (m & Hin & Hname & ->)%collect_lookup.
  exists m. split; [done|]. split; [done|]. split; [reflexivity|].
  by apply (zod_modifiers_stop schema_body).
Qed.

(** A schema with the marker on one field, each field on its own line and
    the marker before any comma of the field: that field alone is not
    required. *)
Example zod_one_optional_field :
  pi_required <$> zod_extract_params "" schema_one_line
  = {[ "query" := true; "limit" := false; "exact" := true ]}.
Proof. apply (bool_decide_unpack _). vm_compute. exact I. Qed.

(** C8. The claim fails on the Zod extractor: in the schema below every
    field has a recognized type and [limit] is the one field that carries
    the marker [.optional()], behind a description that holds a comma.
    The modifiers captured for [limit] end at that comma, before the
    marker, and every field is reported as required. *)
Theorem C8_marker_behind_a_comma_is_missed :
  map (fun m => (group_str 1 m, group_str 4 m))
    (finditer DOTALL zod_field_pattern schema_comma_in_text)
  = [("query", ".describe('The search query')");
     ("limit", ".describe('Max results");
     ("exact", "")] /\
  extract_params ZodSchemaExtractor "" schema_comma_in_text
  = Some (zod_extract_params "" schema_comma_in_text) /\
  pi_required <$> zod_extract_params "" schema_comma_in_text
  = {[ "query" := true; "limit" := true; "exact" := true ]}.
Proof.
  split; [vm_compute; reflexivity|]. split; [reflexivity|].
  apply (bool_decide_unpack _). vm_compute. exact I.
Qed.

End ZodProperties.

(* ===================================================================== *)
(** ** The detectors *)
(* ===================================================================== *)

(** *** The agents that the multi-agent extractions bind *)

Lemma fold_insert_is_Some {A} (f : string -> A) (l : list string) :
  forall (m : gmap string A) (v : string),
  is_Some (fold_left (fun ags a => <[a := f a]> ags) l m !! v)
  <-> is_Some (m !! v) \/ In v l.
Proof.
  induction l as [|a l IH]; intros m v; cbn [fold_left In]; [tauto|].
  rewrite IH, lookup_insert_is_Some.
  destruct (decide (a = v)); tauto.
Qed.

Lemma existsb_eqb_In (v : string) (names : list string) :
  existsb (String.eqb v) names = true <-> In v names.
Proof.
  rewrite existsb_exists. split.
  - intros (x & Hx & E). by apply String.eqb_eq in E as ->.
  - intros H. exists v. by rewrite String.eqb_refl.
Qed.

(** The agents found for the listed names are as many as the listed
    names that are assigned. *)
Lemma bound_length {A} (m : gmap string A) (names : list string)
    (listed : list string) :
  (forall v, is_Some (m !! v) <-> In v names) ->
  length (flat_map (fun v => opt_list (m !! v)) listed)
  = length (List.filter (fun v => existsb (String.eqb v) names) listed).
Proof.
  intros Hm. induction listed as [|v listed IH]; [done|].
  cbn [flat_map List.filter]. rewrite length_app, IH.
  destruct (existsb (String.eqb v) names) eqn:E.
  - apply existsb_eqb_In, Hm in E as [x ->]. done.
  - destruct (m !! v) eqn:Hv; [|done].
    assert (existsb (String.eqb v) names = true) as E'
      by (apply existsb_eqb_In, Hm; by rewrite Hv).
    congruence.
Qed.

Lemma autogen_visit_agents (st : AutoGen.walk_state) (n : node) (v : string) :
  is_Some (AutoGen.agents (AutoGen.visit st n) !! v)
  <-> is_Some (AutoGen.agents st !! v) \/ In v (AutoGen.agent_targets n).
Proof.
  destruct n as [| | | |targets value| | | | | | | | | | | | | | | | | | |];
    try (cbn; tauto).
  destruct value as [| | | | | | | | | func cargs keywords| | | | | | | | | | | | | |];
    try (cbn; tauto).
  destruct func as [| | | | | | | | | | | func_name| | | | | | | | | | | |];
    try (cbn; tauto).
  cbn [AutoGen.visit AutoGen.agent_targets].
  destruct (existsb (String.eqb func_name) _).
  - cbn [AutoGen.agents]. apply fold_insert_is_Some.
  - destruct (String.eqb func_name "GroupChat"); [cbn; tauto|].
    destruct (String.eqb func_name "GroupChatManager"); cbn; tauto.
Qed.

Lemma autogen_visit_listing (st : AutoGen.walk_state) (n : node) :
  AutoGen.group_chat_agents (AutoGen.visit st n)
  = (AutoGen.group_chat_agents st ++ AutoGen.group_chat_listing n)%list.
Proof.
  destruct n as [| | | |targets value| | | | | | | | | | | | | | | | | | |];
    try (cbn; by rewrite app_nil_r).
  destruct value as [| | | | | | | | | func cargs keywords| | | | | | | | | | | | | |];
    try (cbn; by rewrite app_nil_r).
  destruct func as [| | | | | | | | | | | func_name| | | | | | | | | | | |];
    try (cbn; by rewrite app_nil_r).
  cbn [AutoGen.visit AutoGen.group_chat_listing].
  destruct (existsb (String.eqb func_name) _) eqn:E.
  - cbn [AutoGen.group_chat_agents].
    destruct (String.eqb func_name "GroupChat") eqn:E'; [|by rewrite app_nil_r].
    apply String.eqb_eq in E' as ->. discriminate.
  - destruct (String.eqb func_name "GroupChat"); [done|].
    destruct (String.eqb func_name "GroupChatManager"); cbn;
      by rewrite app_nil_r.
Qed.

Lemma autogen_walk_state (l : list node) : forall st,
  AutoGen.group_chat_agents (fold_left AutoGen.visit l st)
  = (AutoGen.group_chat_agents st
     ++ flat_map AutoGen.group_chat_listing l)%list /\
  forall v, is_Some (AutoGen.agents (fold_left AutoGen.visit l st) !! v)
            <-> is_Some (AutoGen.agents st !! v)
                \/ In v (flat_map AutoGen.agent_targets l).
Proof.
  induction l as [|n l IH]; intros st; cbn [fold_left flat_map].
  - rewrite app_nil_r. split; [done|]. cbn. tauto.
  - destruct (IH (AutoGen.visit st n)) as [Hl Ha]. split.
    + by rewrite Hl, autogen_visit_listing, <- app_assoc.
    + intros v. rewrite Ha, autogen_visit_agents, in_app_iff. tauto.
Qed.

(** [_extract_agents_info] returns the bound agents, and [None] when
    there is none. *)
Lemma autogen_agents_info (tree : node) (content : string) :
  match AutoGen._extract_agents_info tree content with
  | Some info =>
      AutoGen.ai_agents info <> [] /\
      length (AutoGen.ai_agents info) = length (AutoGen.bound_agents tree)
  | None => AutoGen.bound_agents tree = []
  end.
Proof.
  unfold AutoGen._extract_agents_info, AutoGen.bound_agents. cbv zeta.
  destruct (autogen_walk_state (walk tree) (AutoGen.mkWalk ∅ [] None None []))
    as [Hl Ha].
  cbn [AutoGen.group_chat_agents AutoGen.agents app] in Hl, Ha.
  rewrite Hl.
  assert (forall v,
            is_Some (AutoGen.agents
                       (fold_left AutoGen.visit (walk tree)
                          (AutoGen.mkWalk ∅ [] None None [])) !! v)
            <-> In v (flat_map AutoGen.agent_targets (walk tree))) as Hm.
  { intros v. rewrite Ha, lookup_empty.
    split; [intros [[? [=]]|]; done|by right]. }
  pose proof (bound_length _ _
                (flat_map AutoGen.group_chat_listing (walk tree)) Hm) as Hlen.
  destruct (flat_map _ (flat_map AutoGen.group_chat_listing (walk tree))) as [|a bound].
  - symmetry in Hlen. by apply nil_length_inv in Hlen.
  - cbn [AutoGen.ai_agents]. split; [done|exact Hlen].
Qed.

Section CrewWalk.
Variable ast_parse : string -> parse_outcome.
Variable get_docstring : node -> option string.
Variable content : string.

Lemma crew_visit_agents (st : CrewAI.walk_state) (n : node) (v : string) :
  is_Some (CrewAI.agents (CrewAI.visit ast_parse get_docstring content st n)
             !! v)
  <-> is_Some (CrewAI.agents st !! v) \/ In v (CrewAI.agent_targets n).
Proof.
  destruct n as [| | | |targets value| | | | | | | | | | | | | | | | | | |];
    try (cbn; tauto).
  destruct value as [| | | | | | | | | func cargs keywords| | | | | | | | | | | | | |];
    try (cbn; tauto).
  destruct func as [| | | | | | | | | | | func_name| | | | | | | | | | | |];
    try (cbn; tauto).
  cbn [CrewAI.visit CrewAI.agent_targets].
  destruct (String.eqb func_name "Agent").
  - cbn [CrewAI.agents]. apply fold_insert_is_Some.
  - destruct (String.eqb func_name "Task"); [cbn; tauto|].
    destruct (String.eqb func_name "Crew"); cbn; tauto.
Qed.

Lemma crew_visit_listing (st : CrewAI.walk_state) (n : node) :
  CrewAI.crew_agents (CrewAI.visit ast_parse get_docstring content st n)
  = (CrewAI.crew_agents st ++ CrewAI.crew_listing n)%list.
Proof.
  destruct n as [| | | |targets value| | | | | | | | | | | | | | | | | | |];
    try (cbn; by rewrite app_nil_r).
  destruct value as [| | | | | | | | | func cargs keywords| | | | | | | | | | | | | |];
    try (cbn; by rewrite app_nil_r).
  destruct func as [| | | | | | | | | | | func_name| | | | | | | | | | | |];
    try (cbn; by rewrite app_nil_r).
  cbn [CrewAI.visit CrewAI.crew_listing].
  destruct (String.eqb func_name "Agent") eqn:E.
  - cbn [CrewAI.crew_agents]. apply String.eqb_eq in E as ->.
    cbn. by rewrite app_nil_r.
  - destruct (String.eqb func_name "Task") eqn:E'.
    + cbn [CrewAI.crew_agents]. apply String.eqb_eq in E' as ->.
      cbn. by rewrite app_nil_r.
    + destruct (String.eqb func_name "Crew"); cbn; [done|by rewrite app_nil_r].
Qed.

Lemma crew_walk_state (l : list node) : forall st,
  CrewAI.crew_agents
    (fold_left (CrewAI.visit ast_parse get_docstring content) l st)
  = (CrewAI.crew_agents st ++ flat_map CrewAI.crew_listing l)%list /\
  forall v, is_Some (CrewAI.agents
                       (fold_left (CrewAI.visit ast_parse get_docstring content)
                          l st) !! v)
            <-> is_Some (CrewAI.agents st !! v)
                \/ In v (flat_map CrewAI.agent_targets l).
Proof.
  induction l as [|n l IH]; intros st; cbn [fold_left flat_map].
  - rewrite app_nil_r. split; [done|]. cbn. tauto.
  - destruct (IH (CrewAI.visit ast_parse get_docstring content st n))
      as [Hl Ha].
    split.
    + by rewrite Hl, crew_visit_listing, <- app_assoc.
    + intros v. rewrite Ha, crew_visit_agents, in_app_iff. tauto.
Qed.

(** [_extract_crew_info] returns the bound agents, and [None] when there
    is none. *)
Lemma crew_agents_info (tree : node) :
  match CrewAI._extract_crew_info ast_parse get_docstring tree content with
  | Some info =>
      CrewAI.ci_agents info <> [] /\
      length (CrewAI.ci_agents info) = length (CrewAI.bound_agents tree)
  | None => CrewAI.bound_agents tree = []
  end.
Proof.
  unfold CrewAI._extract_crew_info, CrewAI.bound_agents. cbv zeta.
  destruct (crew_walk_state (walk tree) (CrewAI.mkWalk ∅ ∅ [] [] None))
    as [Hl Ha].
  cbn [CrewAI.crew_agents CrewAI.agents app] in Hl, Ha.
  rewrite Hl.
  assert (forall v,
            is_Some (CrewAI.agents
                       (fold_left
                          (CrewAI.visit ast_parse get_docstring content)
                          (walk tree) (CrewAI.mkWalk ∅ ∅ [] [] None)) !! v)
            <-> In v (flat_map CrewAI.agent_targets (walk tree))) as Hm.
  { intros v. rewrite Ha, lookup_empty.
    split; [intros [[? [=]]|]; done|by right]. }
  pose proof (bound_length _ _ (flat_map CrewAI.crew_listing (walk tree)) Hm) as Hlen.
  destruct (flat_map _ (flat_map CrewAI.crew_listing (walk tree))) as [|a bound].
  - symmetry in Hlen. by apply nil_length_inv in Hlen.
  - cbn [CrewAI.ci_agents]. split; [done|exact Hlen].
Qed.

End CrewWalk.

Section DetectorProperties.
Variable ast_parse : string -> parse_outcome.
Variable get_docstring : node -> option string.

(** C9. A file that passes the presence and the construction checks of a
    detector with a grammar-dependent path (LangChain for Python, AutoGen,
    CrewAI) and whose content is a syntax error: [detect] returns [None];
    it does not raise. *)
Theorem C9_syntax_error_is_no_match (fs : file_system) (file_path : Path)
    (content : string) :
  ast_parse content = SyntaxError ->
  (check_presence_signature LangChainPy.get_presence_signatures content = true ->
   check_construction_signature LangChainPy.get_construction_signatures content
     <> None ->
   LangChainPy.detect ast_parse get_docstring fs file_path content
     = Returned None) /\
  (forallb (fun required => contains required content)
     AutoGen.required_imports = true ->
   check_construction_signature AutoGen.get_construction_signatures content
     <> None ->
   AutoGen.detect ast_parse file_path content = Returned None) /\
  (forallb (fun pattern => bool_decide (is_Some (search no_flags pattern content)))
     CrewAI.required_patterns = true ->
   check_construction_signature CrewAI.get_construction_signatures content
     <> None ->
   CrewAI.detect ast_parse get_docstring file_path content = Returned None).
Proof.
  intros Hparse. repeat split; intros Hp Hc.
  - unfold LangChainPy.detect. rewrite Hp. cbn [negb].
    destruct (check_construction_signature _ _); [|done]. by rewrite Hparse.
  - unfold AutoGen.detect. rewrite Hp. cbn [negb].
    destruct (check_construction_signature _ _); [|done]. by rewrite Hparse.
  - unfold CrewAI.detect. rewrite Hp. cbn [negb].
    destruct (check_construction_signature _ _); [|done]. by rewrite Hparse.
Qed.

(** C2 (amended). A file that passes the import check of the AutoGen or
    of the CrewAI detector, in which the coordinator construction is
    matched and which parses: [detect] returns a result, never [None], and
    its architecture is [MAS].  The extraction pools the names listed in
    the [agents] of every [GroupChat(...)] (every [Crew(...)]) assigned in
    the file, and binds those that the file assigns from an agent
    constructor.  The result is the bare one, with the agent name unset and
    the tools and the metadata empty, exactly when no name is bound;
    otherwise its metadata lists one agent for each bound name. *)
Theorem C2_coordinator_without_agents (file_path : Path) (content : string)
    (tree : node) :
  ast_parse content = Parsed tree ->
  (forallb (fun required => contains required content)
     AutoGen.required_imports = true ->
   check_construction_signature AutoGen.get_construction_signatures content
     <> None ->
   exists r,
     AutoGen.detect ast_parse file_path content = Returned (Some r) /\
     architecture r = "MAS" /\
     (AutoGen.bound_agents tree = [] <->
      r = mkResult true None (Some (path_str file_path)) [] [] "MAS"
            ["AutoGen"] "Python" "LLM Agent" []) /\
     (AutoGen.bound_agents tree <> [] ->
      exists agents,
        dict_get "agents" (metadata r) = Some (VList agents) /\
        length agents = length (AutoGen.bound_agents tree))) /\
  (forallb (fun pattern => bool_decide (is_Some (search no_flags pattern content)))
     CrewAI.required_patterns = true ->
   check_construction_signature CrewAI.get_construction_signatures content
     <> None ->
   exists r,
     CrewAI.detect ast_parse get_docstring file_path content
       = Returned (Some r) /\
     architecture r = "MAS" /\
     (CrewAI.bound_agents tree = [] <->
      r = mkResult true None (Some (path_str file_path)) [] [] "MAS"
            ["CrewAI"] "Python" "LLM Agent" []) /\
     (CrewAI.bound_agents tree <> [] ->
      exists agents,
        dict_get "agents" (metadata r) = Some (VList agents) /\
        length agents = length (CrewAI.bound_agents tree))).
Proof.
  intros Hparse. split; intros Hp Hc.
  - unfold AutoGen.detect. rewrite Hp. cbn [negb].
    destruct (check_construction_signature _ _); [|done].
    rewrite Hparse.
    pose proof (autogen_agents_info tree content) as Hinfo.
    destruct (AutoGen._extract_agents_info tree content) as [info|];
      cbn [found]; eexists; (split; [reflexivity|]); (split; [reflexivity|]).
    + destruct Hinfo as [Hne Hlen]. split.
      * split; [|discriminate].
        intros E. rewrite E in Hlen. by destruct (AutoGen.ai_agents info).
      * intros _. exists (map VDict (AutoGen.ai_agents info)).
        split; [reflexivity|]. by rewrite length_map.
    + split; [done|]. by intros [].
  - unfold CrewAI.detect. rewrite Hp. cbn [negb].
    destruct (check_construction_signature _ _); [|done].
    rewrite Hparse.
    pose proof (crew_agents_info ast_parse get_docstring content tree)
      as Hinfo.
    destruct (CrewAI._extract_crew_info _ _ tree content) as [info|];
      cbn [found]; eexists; (split; [reflexivity|]); (split; [reflexivity|]).
    + destruct Hinfo as [Hne Hlen]. split.
      * split; [|discriminate].
        intros E. rewrite E in Hlen. by destruct (CrewAI.ci_agents info).
      * intros _. exists (map VDict (CrewAI.ci_agents info)).
        split; [reflexivity|]. by rewrite length_map.
    + split; [done|]. by intros [].
Qed.

(** C4 (amended). When a LangChain detector, for Python or for
    TypeScript, extracts the tools of the agent, the agent type is
    [SQL Agent] if a SQL indicator is present, also when a retrieval
    indicator is present too; otherwise [Retrieval Agent] if a retrieval
    indicator is present; otherwise [LLM Agent].  A result without tools
    keeps the type [LLM Agent]. *)
Theorem C4_sql_check_comes_first (fs : file_system) (schema_factory : factory)
    (file_path : Path) (content : string) (r : DetectorResult) :
  (LangChainPy.detect ast_parse get_docstring fs file_path content
     = Returned (Some r) ->
   (tools r <> [] ->
    agent_type r =
      if LangChainPy._has_sql_tools (tools r) content then "SQL Agent"
      else if LangChainPy._has_retrieval_tools (tools r) content
           then "Retrieval Agent"
           else "LLM Agent") /\
   (tools r = [] -> agent_type r = "LLM Agent")) /\
  (LangChainTs.detect schema_factory fs file_path content = Some r ->
   (tools r <> [] ->
    agent_type r =
      if LangChainTs._has_sql_tools (tools r) content then "SQL Agent"
      else if LangChainTs._has_retrieval_tools (tools r) content
           then "Retrieval Agent"
           else "LLM Agent") /\
   (tools r = [] -> agent_type r = "LLM Agent")).
Proof.
  split.
  - unfold LangChainPy.detect.
    destruct (negb _); [discriminate|].
    destruct (check_construction_signature _ _); [|discriminate].
    destruct (ast_parse content) as [tree| |]; try discriminate.
    destruct (first_some _ _) as [info|] eqn:Hinfo; cbn [found];
      intros [= <-]; cbn [tools agent_type]; [|done].
    split; [done|]. intros Hnil. exfalso.
    assert (forall l, first_some
              (fun n => match n with
                        | Call _ _ _ =>
                            LangChainPy._extract_agent_info ast_parse
                              get_docstring fs n content file_path
                        | _ => None
                        end) l = Some info ->
            LangChainPy.ai_tools info <> []) as Hne.
    { induction l as [|n l IH]; cbn; [discriminate|].
      destruct n; try exact IH.
      match goal with
      | |- context [LangChainPy._extract_agent_info ?a ?g ?f ?n ?c ?p] =>
          destruct (LangChainPy._extract_agent_info a g f n c p) as [i|] eqn:Hi
      end; [|exact IH].
      intros [= ->]. unfold LangChainPy._extract_agent_info in Hi.
      destruct (LangChainPy.func_name_of _); [|discriminate].
      destruct (existsb _ _); [|discriminate].
      match type of Hi with
      | match LangChainPy.ai_tools ?x with _ => _ end = _ =>
          destruct (LangChainPy.ai_tools x) eqn:Ht; [discriminate|];
          injection Hi as <-; by rewrite Ht
      end. }
    by apply (Hne _ Hinfo).
  - unfold LangChainTs.detect.
    destruct (negb _); [discriminate|].
    destruct (negb _); [discriminate|].
    destruct (check_construction_signature _ _); [|discriminate].
    destruct (LangChainTs._extract_agent_info _ _ _ _) as [info|] eqn:Hinfo;
      cbn [found]; intros [= <-]; cbn [tools agent_type]; [|done].
    split; [done|]. intros Hnil. exfalso.
    unfold LangChainTs._extract_agent_info in Hinfo.
    match type of Hinfo with
    | match ?x with _ => _ end = _ => destruct x as [i|]; [|discriminate]
    end.
    destruct (LangChainTs.ai_tools i) eqn:Ht; [discriminate|].
    injection Hinfo as <-. by rewrite Ht in Hnil.
Qed.

End DetectorProperties.

(** The three files with an unclosed bracket pass the checks of their
    detector and are syntax errors. *)
Lemma C9_witness :
  LangChainPy.detect ast_parse get_docstring empty_repo agent_file
    langchain_unclosed = Returned None /\
  AutoGen.detect ast_parse agent_file autogen_unclosed = Returned None /\
  CrewAI.detect ast_parse get_docstring agent_file crew_unclosed
    = Returned None.
Proof.
  split; [|split].
  - destruct (C9_syntax_error_is_no_match ast_parse get_docstring empty_repo
                agent_file langchain_unclosed) as (H & _ & _);
      [reflexivity|].
    apply H; [vm_compute; reflexivity | vm_compute; discriminate].
  - destruct (C9_syntax_error_is_no_match ast_parse get_docstring empty_repo
                agent_file autogen_unclosed) as (_ & H & _);
      [reflexivity|].
    apply H; [vm_compute; reflexivity | vm_compute; discriminate].
  - destruct (C9_syntax_error_is_no_match ast_parse get_docstring empty_repo
                agent_file crew_unclosed) as (_ & _ & H);
      [reflexivity|].
    apply H; [vm_compute; reflexivity | vm_compute; discriminate].
Defined.

(** A manager over a group chat without agents and a crew without
    agents: no name is bound, and the result is the bare one. *)
Lemma C2_witness :
  AutoGen.detect ast_parse agent_file autogen_no_agents =
    Returned (Some (mkResult true None (Some "/repo/agent.py") [] [] "MAS"
                      ["AutoGen"] "Python" "LLM Agent" [])) /\
  CrewAI.detect ast_parse get_docstring agent_file crew_no_agents =
    Returned (Some (mkResult true None (Some "/repo/agent.py") [] [] "MAS"
                      ["CrewAI"] "Python" "LLM Agent" [])).
Proof.
  split.
  - destruct (C2_coordinator_without_agents ast_parse get_docstring agent_file
                autogen_no_agents autogen_no_agents_tree) as (H & _);
      [reflexivity|].
    destruct H as (r & Hr & _ & Hbare & _);
      [vm_compute; reflexivity | vm_compute; discriminate|].
    rewrite Hr. do 2 f_equal. apply Hbare. vm_compute. reflexivity.
  - destruct (C2_coordinator_without_agents ast_parse get_docstring agent_file
                crew_no_agents crew_no_agents_tree) as (_ & H);
      [reflexivity|].
    destruct H as (r & Hr & _ & Hbare & _);
      [vm_compute; reflexivity | vm_compute; discriminate|].
    rewrite Hr. do 2 f_equal. apply Hbare. vm_compute. reflexivity.
Defined.

(** The group chats of a file are pooled: the manager is built over the
    chat without agents, and the agent of the other chat is bound. *)
Example group_chats_are_pooled :
  AutoGen.bound_agents autogen_two_chats_tree = ["coder"] /\
  AutoGen._extract_agents_info autogen_two_chats_tree autogen_two_chats
  = Some (AutoGen.mkInfo (Some "manager")
            [[("variable", VStr "coder"); ("type", VStr "AssistantAgent");
              ("name", VStr "coder")]]
            [("linked", VBool true)]).
Proof. split; vm_compute; reflexivity. Qed.

(** The claim as stated fails here: the file builds a group chat manager
    over a group chat with the empty list of agents, the construction is
    matched, no sub-agent is bound, and [detect] returns a result, with the
    architecture [MAS]. *)
Lemma C2_counterexample :
  check_construction_signature AutoGen.get_construction_signatures
    autogen_no_agents <> None /\
  AutoGen._extract_agents_info autogen_no_agents_tree autogen_no_agents = None /\
  AutoGen.detect ast_parse agent_file autogen_no_agents <> Returned None /\
  architecture <$> (match AutoGen.detect ast_parse agent_file autogen_no_agents with
                    | Returned r => r
                    | Raised => None
                    end) = Some "MAS".
Proof.
  split; [vm_compute; discriminate|].
  split; [vm_compute; reflexivity|].
  split; [vm_compute; discriminate|vm_compute; reflexivity].
Qed.

Lemma C4_witness :
  agent_type <$> (match LangChainPy.detect ast_parse get_docstring empty_repo
                          agent_file sql_lookup_agent with
                  | Returned r => r
                  | Raised => None
                  end) = Some "SQL Agent" /\
  agent_type <$> LangChainTs.detect new_factory empty_repo ["repo"; "agent.ts"]
                   sql_search_ts = Some "SQL Agent".
Proof.
  pose (py := mkResult true (Some "agent") (Some "/repo/agent.py") []
                [mkToolInfo "sql_lookup" "" 0 (Some "Query the vectorstore") ∅
                   None None]
                "Other" ["LangChain"] "Python" "SQL Agent" []).
  pose (ts := mkResult true (Some "executor") (Some "/repo/agent.ts") []
                [mkToolInfo "sql_search" "" 0 (Some "Query the vectorStore") ∅
                   None None]
                "Other" ["LangChain"; "@langchain/core"] "TypeScript"
                "SQL Agent" []).
  assert (Hpy : LangChainPy.detect ast_parse get_docstring empty_repo
                  agent_file sql_lookup_agent = Returned (Some py))
    by (vm_compute; reflexivity).
  assert (Hts : LangChainTs.detect new_factory empty_repo ["repo"; "agent.ts"]
                  sql_search_ts = Some ts)
    by (vm_compute; reflexivity).
  split.
  - destruct (C4_sql_check_comes_first ast_parse get_docstring empty_repo
                new_factory agent_file sql_lookup_agent py) as [H _].
    destruct (H Hpy) as [Ht _]. rewrite Hpy.
    change (Some (agent_type py) = Some "SQL Agent").
    rewrite Ht by (vm_compute; discriminate).
    vm_compute. reflexivity.
  - destruct (C4_sql_check_comes_first ast_parse get_docstring empty_repo
                new_factory ["repo"; "agent.ts"] sql_search_ts ts) as [_ H].
    destruct (H Hts) as [Ht _]. rewrite Hts.
    change (Some (agent_type ts) = Some "SQL Agent").
    rewrite Ht by (vm_compute; discriminate).
    vm_compute. reflexivity.
Defined.

(** The claim as stated fails here: the content holds the SQL indicator
    [SQLDatabaseToolkit] and the retrieval indicator [FAISS], the tools
    come from [toolkit.get_tools()], which the extraction does not follow,
    and the detected agent has the type [LLM Agent]. *)
Lemma C4_counterexample :
  LangChainPy._has_sql_tools [] toolkit_agent = true /\
  LangChainPy._has_retrieval_tools [] toolkit_agent = true /\
  LangChainPy.detect ast_parse get_docstring empty_repo agent_file toolkit_agent
  = Returned (Some (mkResult true None (Some "/repo/agent.py") [] [] "Other"
                      ["LangChain"] "Python" "LLM Agent" [])).
Proof. repeat split; vm_compute; reflexivity. Qed.

(* ===================================================================== *)
(** ** Tool references that no rule resolves *)
(* ===================================================================== *)

Section ToolReferences.
Variable ast_parse : string -> parse_outcome.
Variable get_docstring : node -> option string.
Variable fs : file_system.

(** The TypeScript detector returns one tool for each name of the tools
    array: a name that no rule resolves gives the bare tool. *)
Lemma ts_extract_tools_length (schema_factory : factory)
    (tools_array content : string) (file_path : Path) :
  length (LangChainTs._extract_tools schema_factory fs tools_array content
            file_path)
  = length (filter (fun t => truthy (strip t) = true) (split "," tools_array)).
Proof. unfold LangChainTs._extract_tools. by rewrite !length_map. Qed.

(** The Python detector returns one tool for a call of a name, also when
    no class of that name is found. *)
Lemma py_call_reference_is_kept (class_name content : string)
    (args keywords : list node) (file_path : Path) :
  length (LangChainPy.resolve_item ast_parse get_docstring fs content file_path
            (Call (Name class_name) args keywords)) = 1.
Proof.
  cbn [LangChainPy.resolve_item LangChainPy._extract_tool_from_call].
  destruct (existsb _ _); [reflexivity|].
  destruct (LangChainPy._extract_tool_from_class _ _ _ _); [reflexivity|].
  destruct (LangChainPy._find_tool_class_from_import _ _ _ _ _);
    reflexivity.
Qed.

(** The Python detector returns at most one tool for each item. *)
Lemma py_extract_tools_bound (elts : list node) (content : string)
    (file_path : Path) :
  length (LangChainPy._extract_tools_from_node ast_parse get_docstring fs
            (List_ elts) content file_path) <= length elts.
Proof.
  cbn [LangChainPy._extract_tools_from_node].
  induction elts as [|item elts IH]; cbn [flat_map length]; [lia|].
  rewrite length_app.
  assert (length (LangChainPy.resolve_item ast_parse get_docstring fs content
                    file_path item) <= 1); [|lia].
  destruct item; cbn [LangChainPy.resolve_item length]; try lia;
    match goal with
    | |- length (opt_list ?o) <= 1 => destruct o; cbn; lia
    end.
Qed.

End ToolReferences.

(** C1. The claim fails on the LangChain detector for Python: the tools
    list [[search_tool, calc]] holds two references, [search_tool] is
    imported from another module and no rule resolves it, and the detector
    returns the one tool [calc]; the reference [search_tool] is dropped. *)
Theorem C1_unresolved_name_is_dropped :
  LangChainPy._extract_tools_from_node ast_parse get_docstring empty_repo
    (List_ [Name "search_tool"; Name "calc"]) unresolved_reference agent_file
  = [mkToolInfo "calc" "" 0 (Some "Adds numbers") ∅ None None] /\
  LangChainPy._find_tool_definition ast_parse get_docstring empty_repo
    "search_tool" unresolved_reference agent_file = None /\
  LangChainPy.detect ast_parse get_docstring empty_repo agent_file
    unresolved_reference
  = Returned (Some (mkResult true (Some "agent") (Some "/repo/agent.py") []
                      [mkToolInfo "calc" "" 0 (Some "Adds numbers") ∅ None
                         None]
                      "Other" ["LangChain"] "Python" "LLM Agent" [])).
Proof. repeat split; vm_compute; reflexivity. Qed.

(* ===================================================================== *)
(** ** What a detection reads *)
(* ===================================================================== *)

Lemma first_some_ext {A B} (f g : A -> option B) (l : list A) :
  (forall x, In x l -> f x = g x) -> first_some f l = first_some g l.
Proof.
  induction l as [|x l IH]; intros Hfg; cbn [first_some]; [reflexivity|].
  rewrite (Hfg x) by (left; reflexivity).
  destruct (g x); [reflexivity|].
  apply IH. intros y Hy. apply Hfg. right. exact Hy.
Qed.

Lemma fold_left_ext_in {A B} (f g : A -> B -> A) (l : list B) (a : A) :
  (forall a x, In x l -> f a x = g a x) -> fold_left f l a = fold_left g l a.
Proof.
  revert a. induction l as [|x l IH]; intros a Hfg; cbn [fold_left];
    [reflexivity|].
  rewrite (Hfg a x) by (left; reflexivity).
  apply IH. intros b y Hy. apply Hfg. right. exact Hy.
Qed.

Lemma flat_map_ext_in {A B} (f g : A -> list B) (l : list A) :
  (forall x, In x l -> f x = g x) -> flat_map f l = flat_map g l.
Proof.
  induction l as [|x l IH]; intros Hfg; cbn [flat_map]; [reflexivity|].
  rewrite (Hfg x) by (left; reflexivity). f_equal.
  apply IH. intros y Hy. apply Hfg. right. exact Hy.
Qed.

Section FileSystemFrame.
Variables fs1 fs2 : file_system.

Lemma exists_agree (p : Path) : fs1 p = fs2 p -> exists_ fs1 p = exists_ fs2 p.
Proof. unfold exists_. by intros ->. Qed.

Lemma is_file_agree (p : Path) : fs1 p = fs2 p -> is_file fs1 p = is_file fs2 p.
Proof. unfold is_file. by intros ->. Qed.

Lemma read_text_agree (p : Path) :
  fs1 p = fs2 p -> read_text fs1 p = read_text fs2 p.
Proof. unfold read_text. by intros ->. Qed.

Lemma first_existing_agree (l : list Path) :
  (forall p, In p l -> fs1 p = fs2 p) ->
  LangChainPy.first_existing fs1 l = LangChainPy.first_existing fs2 l.
Proof.
  unfold LangChainPy.first_existing.
  induction l as [|q l IH]; intros Hl; cbn [List.find]; [reflexivity|].
  rewrite (exists_agree q) by (apply Hl; left; reflexivity).
  destruct (exists_ fs2 q); [reflexivity|].
  apply IH. intros p Hp. apply Hl. right. exact Hp.
Qed.

Lemma first_existing_in (fs : file_system) (l : list Path) (c : Path) :
  LangChainPy.first_existing fs l = Some c -> In c l.
Proof. intros H. exact (proj1 (find_some _ _ H)). Qed.

Lemma search_up_agree (n : nat) (parts : list string) (search_dir : Path) :
  (forall p, In p (LangChainPy.up_probes n parts search_dir) ->
             fs1 p = fs2 p) ->
  LangChainPy.search_up fs1 n parts search_dir
  = LangChainPy.search_up fs2 n parts search_dir.
Proof.
  revert search_dir.
  induction n as [|n IH]; intros search_dir Hp; [reflexivity|].
  cbn [LangChainPy.search_up LangChainPy.up_probes] in *.
  destruct (LangChainPy.candidates _) as [cs|]; [|reflexivity].
  cbn [default] in Hp.
  rewrite (first_existing_agree cs)
    by (intros p Hin; apply Hp, in_or_app; left; exact Hin).
  destruct (LangChainPy.first_existing fs2 cs); [reflexivity|].
  destruct (bool_decide _); [reflexivity|].
  apply IH. intros p Hin. apply Hp, in_or_app. right. exact Hin.
Qed.

Lemma search_up_in (fs : file_system) (n : nat) (parts : list string)
    (search_dir c : Path) :
  LangChainPy.search_up fs n parts search_dir = Returned (Some c) ->
  In c (LangChainPy.up_probes n parts search_dir).
Proof.
  revert search_dir.
  induction n as [|n IH]; intros search_dir; [discriminate|].
  cbn [LangChainPy.search_up LangChainPy.up_probes].
  destruct (LangChainPy.candidates _) as [cs|]; [|discriminate].
  cbn [default].
  destruct (LangChainPy.first_existing fs cs) as [c'|] eqn:Hc.
  - intros [= <-]. apply in_or_app. left.
    exact (first_existing_in fs cs c' Hc).
  - destruct (bool_decide _); [discriminate|].
    intros H. apply in_or_app. right. exact (IH _ H).
Qed.

Lemma resolve_python_import_agree (module_path : string)
    (current_file : Path) :
  (forall p, In p (LangChainPy.module_probes module_path current_file) ->
             fs1 p = fs2 p) ->
  LangChainPy._resolve_python_import fs1 module_path current_file
  = LangChainPy._resolve_python_import fs2 module_path current_file.
Proof.
  unfold LangChainPy._resolve_python_import, LangChainPy.module_probes.
  destruct (startswith module_path "."); intros Hp.
  - destruct (LangChainPy.candidates _) as [cs|]; [|reflexivity].
    cbn [default] in Hp. by rewrite (first_existing_agree cs).
  - by apply search_up_agree.
Qed.

Lemma resolve_python_import_in (fs : file_system) (module_path : string)
    (current_file c : Path) :
  LangChainPy._resolve_python_import fs module_path current_file
    = Returned (Some c) ->
  In c (LangChainPy.module_probes module_path current_file).
Proof.
  unfold LangChainPy._resolve_python_import, LangChainPy.module_probes.
  destruct (startswith module_path ".").
  - destruct (LangChainPy.candidates _) as [cs|]; [|discriminate].
    intros [= H]. exact (first_existing_in fs cs c H).
  - apply search_up_in.
Qed.

End FileSystemFrame.

Section PythonFrame.
Variable ast_parse : string -> parse_outcome.
Variable get_docstring : node -> option string.
Variables fs1 fs2 : file_system.
Variable file_path : Path.
Variable content : string.
Hypothesis agree :
  forall p, In p (LangChainPy.import_probes ast_parse file_path content) ->
            fs1 p = fs2 p.

Lemma follow_import_agree (class_name module_path : string) :
  (forall p, In p (LangChainPy.module_probes module_path file_path) ->
             fs1 p = fs2 p) ->
  LangChainPy.follow_import ast_parse fs1 class_name module_path file_path
  = LangChainPy.follow_import ast_parse fs2 class_name module_path file_path.
Proof.
  intros Hp. unfold LangChainPy.follow_import.
  rewrite (resolve_python_import_agree fs1 fs2 module_path file_path Hp).
  destruct (LangChainPy._resolve_python_import fs2 module_path file_path)
    as [[resolved|]|] eqn:Hr; try reflexivity.
  pose proof (Hp _ (resolve_python_import_in fs2 _ _ _ Hr)) as Heq.
  by rewrite (exists_agree fs1 fs2 resolved Heq),
             (read_text_agree fs1 fs2 resolved Heq).
Qed.

Lemma follow_imports_agree (class_name : string) (modules : list string) :
  (forall module_path, In module_path modules ->
     forall p, In p (LangChainPy.module_probes module_path file_path) ->
               fs1 p = fs2 p) ->
  LangChainPy.follow_imports ast_parse fs1 class_name modules file_path
  = LangChainPy.follow_imports ast_parse fs2 class_name modules file_path.
Proof.
  induction modules as [|m modules IH]; intros Hm; [reflexivity|].
  cbn [LangChainPy.follow_imports].
  rewrite (follow_import_agree class_name m)
    by (apply Hm; left; reflexivity).
  destruct (LangChainPy.follow_import _ fs2 _ _ _) as [[t|]|];
    try reflexivity.
  apply IH. intros m' Hin. apply Hm. right. exact Hin.
Qed.

Lemma imports_of_in (class_name module_path : string) (nodes : list node) :
  In module_path (LangChainPy.imports_of class_name nodes) ->
  exists names level, In (ImportFrom (Some module_path) names level) nodes.
Proof.
  unfold LangChainPy.imports_of. rewrite in_flat_map.
  intros (n & Hn & Hin).
  destruct n as [| | | | | |[m|] names level| | | | | | | | | | | | | | | | |];
    try (destruct Hin; fail).
  destruct (truthy m); [|destruct Hin].
  apply in_flat_map in Hin as (al & _ & Hal).
  destruct al as [| | | | | | |aname asname| | | | | | | | | | | | | | | |];
    try (destruct Hal; fail).
  destruct (String.eqb aname class_name); [|destruct Hal].
  destruct Hal as [<-|[]]. by exists names, level.
Qed.

Lemma find_tool_class_from_import_agree (class_name : string) :
  LangChainPy._find_tool_class_from_import ast_parse fs1 class_name content
    file_path
  = LangChainPy._find_tool_class_from_import ast_parse fs2 class_name content
      file_path.
Proof.
  unfold LangChainPy._find_tool_class_from_import.
  destruct (ast_parse content) as [tree| |] eqn:Hparse; try reflexivity.
  apply follow_imports_agree. intros m Hm p Hp.
  apply imports_of_in in Hm as (names & level & Hn).
  apply agree. unfold LangChainPy.import_probes. rewrite Hparse.
  apply in_flat_map. by exists (ImportFrom (Some m) names level).
Qed.

Lemma extract_tool_from_call_agree (n : node) :
  LangChainPy._extract_tool_from_call ast_parse get_docstring fs1 n content
    file_path
  = LangChainPy._extract_tool_from_call ast_parse get_docstring fs2 n content
      file_path.
Proof.
  destruct n as [| | | | | | | | |func args keywords| | | | | | | | | | | | | |];
    try reflexivity.
  destruct func; try reflexivity.
  cbn [LangChainPy._extract_tool_from_call].
  by rewrite find_tool_class_from_import_agree.
Qed.

Lemma find_tool_definition_agree (name : string) :
  LangChainPy._find_tool_definition ast_parse get_docstring fs1 name content
    file_path
  = LangChainPy._find_tool_definition ast_parse get_docstring fs2 name content
      file_path.
Proof.
  unfold LangChainPy._find_tool_definition, LangChainPy.assigned_tool.
  destruct (ast_parse content) as [tree| |]; try reflexivity.
  match goal with
  | |- match ?a with _ => _ end = match ?b with _ => _ end =>
      replace a with b; [reflexivity|]
  end.
  apply first_some_ext. intros n _.
  destruct n; try reflexivity.
  apply first_some_ext. intros target _.
  destruct target; try reflexivity.
  match goal with
  | |- match ?v with _ => _ end = _ => destruct v; try reflexivity
  end.
  destruct (String.eqb _ _); [|reflexivity].
  symmetry. apply extract_tool_from_call_agree.
Qed.

Lemma resolve_item_agree (item : node) :
  LangChainPy.resolve_item ast_parse get_docstring fs1 content file_path item
  = LangChainPy.resolve_item ast_parse get_docstring fs2 content file_path
      item.
Proof.
  destruct item; try reflexivity; cbn [LangChainPy.resolve_item].
  - by rewrite extract_tool_from_call_agree.
  - by rewrite find_tool_definition_agree.
Qed.

Lemma extract_tools_from_node_agree (n : node) :
  LangChainPy._extract_tools_from_node ast_parse get_docstring fs1 n content
    file_path
  = LangChainPy._extract_tools_from_node ast_parse get_docstring fs2 n content
      file_path.
Proof.
  assert (Hitems : forall elts,
            flat_map (LangChainPy.resolve_item ast_parse get_docstring fs1
                        content file_path) elts
            = flat_map (LangChainPy.resolve_item ast_parse get_docstring fs2
                          content file_path) elts).
  { intros elts. apply flat_map_ext_in. intros item _.
    apply resolve_item_agree. }
  destruct n; try reflexivity; cbn [LangChainPy._extract_tools_from_node];
    try apply Hitems.
  destruct (ast_parse content) as [tree| |]; try reflexivity.
  apply flat_map_ext_in. intros a _. destruct a; try reflexivity.
  apply flat_map_ext_in. intros target _. destruct target; try reflexivity.
  match goal with
  | |- match ?v with _ => _ end = _ => destruct v; try reflexivity
  end; destruct (String.eqb _ _); try reflexivity; apply Hitems.
Qed.

Lemma extract_agent_info_agree (n : node) :
  LangChainPy._extract_agent_info ast_parse get_docstring fs1 n content
    file_path
  = LangChainPy._extract_agent_info ast_parse get_docstring fs2 n content
      file_path.
Proof.
  destruct n; try reflexivity. cbn [LangChainPy._extract_agent_info].
  destruct (LangChainPy.func_name_of _) as [func_name|]; [|reflexivity].
  destruct (existsb _ _); [|reflexivity].
  match goal with
  | |- context [fold_left ?f ?l ?a] =>
      match goal with
      | |- _ = ?rhs =>
          match rhs with
          | context [fold_left ?g l a] =>
              replace (fold_left f l a) with (fold_left g l a); [reflexivity|]
          end
      end
  end.
  apply fold_left_ext_in. intros info kw _.
  destruct kw; try reflexivity.
  match goal with
  | |- match ?o with _ => _ end = _ => destruct o; try reflexivity
  end.
  destruct (String.eqb _ "tools"); [|reflexivity].
  by rewrite extract_tools_from_node_agree.
Qed.

Lemma python_detect_agree :
  LangChainPy.detect ast_parse get_docstring fs1 file_path content
  = LangChainPy.detect ast_parse get_docstring fs2 file_path content.
Proof.
  unfold LangChainPy.detect.
  destruct (negb _); [reflexivity|].
  destruct (check_construction_signature _ _); [|reflexivity].
  destruct (ast_parse content) as [tree| |]; try reflexivity.
  match goal with
  | |- context [first_some ?f ?l] =>
      match goal with
      | |- _ = ?rhs =>
          match rhs with
          | context [first_some ?g l] =>
              replace (first_some f l) with (first_some g l); [reflexivity|]
          end
      end
  end.
  apply first_some_ext. intros n _. destruct n; try reflexivity.
  symmetry. apply extract_agent_info_agree.
Qed.

End PythonFrame.

Section TypeScriptFrame.
Variable schema_factory : factory.
Variables fs1 fs2 : file_system.
Variable file_path : Path.
Variable content : string.
Hypothesis agree :
  forall factory_name im,
    search no_flags (LangChainTs.import_pattern factory_name) content
      = Some im ->
    forall p, In p (LangChainTs.import_candidates (group_str 1 im) file_path) ->
              fs1 p = fs2 p.

Lemma resolve_import_path_agree (import_path : string) :
  (forall p, In p (LangChainTs.import_candidates import_path file_path) ->
             fs1 p = fs2 p) ->
  LangChainTs._resolve_import_path fs1 import_path file_path
  = LangChainTs._resolve_import_path fs2 import_path file_path.
Proof.
  unfold LangChainTs._resolve_import_path, LangChainTs.import_candidates.
  intros Hp. destruct (startswith import_path "."); [|reflexivity].
  apply first_some_ext. intros ext Hext.
  destruct (truthy ext) eqn:Ht.
  - rewrite (exists_agree fs1 fs2 (add_extension _ ext)); [reflexivity|].
    apply Hp. cbn [In] in *.
    destruct Hext as [<-|[<-|[<-|[<-|[<-|[]]]]]]; auto 10.
    discriminate Ht.
  - rewrite (exists_agree fs1 fs2 (resolve_relative _ _))
      by (apply Hp; cbn [In]; auto 10).
    rewrite (is_file_agree fs1 fs2 (resolve_relative _ _))
      by (apply Hp; cbn [In]; auto 10).
    rewrite (exists_agree fs1 fs2 (joinpath _ _))
      by (apply Hp; cbn [In]; auto 10).
    reflexivity.
Qed.

Lemma resolve_import_path_in (fs : file_system) (import_path : string)
    (c : Path) :
  LangChainTs._resolve_import_path fs import_path file_path = Some c ->
  In c (LangChainTs.import_candidates import_path file_path).
Proof.
  unfold LangChainTs._resolve_import_path, LangChainTs.import_candidates.
  destruct (startswith import_path "."); [|discriminate].
  set (resolved := resolve_relative _ _).
  assert (Hstep : forall exts,
            Forall (fun ext => In ext [".ts"; ".tsx"; ".js"; ".jsx"; ""]) exts ->
            first_some
              (fun ext =>
                 if truthy ext then
                   if exists_ fs (add_extension resolved ext)
                   then Some (add_extension resolved ext) else None
                 else if exists_ fs resolved && is_file fs resolved
                 then Some resolved
                 else if exists_ fs (joinpath resolved "index.ts")
                      then Some (joinpath resolved "index.ts") else None)
              exts = Some c ->
            In c [add_extension resolved ".ts"; add_extension resolved ".tsx";
                  add_extension resolved ".js"; add_extension resolved ".jsx";
                  resolved; joinpath resolved "index.ts"]).
  { induction exts as [|ext exts IH]; [discriminate|].
    intros Hall. apply Forall_cons_1 in Hall as [Hext Hall].
    cbn [first_some].
    destruct (truthy ext) eqn:Ht.
    - destruct (exists_ fs (add_extension resolved ext)); [|by apply IH].
      intros [= <-]. cbn [In] in *.
      destruct Hext as [<-|[<-|[<-|[<-|[<-|[]]]]]]; auto 10.
      discriminate Ht.
    - destruct (exists_ fs resolved && is_file fs resolved).
      + intros [= <-]. cbn [In]. auto 10.
      + destruct (exists_ fs (joinpath resolved "index.ts")); [|by apply IH].
        intros [= <-]. cbn [In]. auto 10. }
  apply Hstep.
  repeat (apply List.Forall_cons; [cbn [In]; auto 10|]).
  apply List.Forall_nil.
Qed.

Lemma load_tool_from_import_agree (factory_name import_path : string) :
  (forall p, In p (LangChainTs.import_candidates import_path file_path) ->
             fs1 p = fs2 p) ->
  LangChainTs._load_tool_from_import schema_factory fs1 factory_name
    import_path file_path
  = LangChainTs._load_tool_from_import schema_factory fs2 factory_name
      import_path file_path.
Proof.
  intros Hp. unfold LangChainTs._load_tool_from_import.
  rewrite (resolve_import_path_agree import_path Hp).
  destruct (LangChainTs._resolve_import_path fs2 import_path file_path)
    as [resolved|] eqn:Hr; [|reflexivity].
  pose proof (Hp _ (resolve_import_path_in fs2 _ _ Hr)) as Heq.
  by rewrite (exists_agree fs1 fs2 resolved Heq),
             (read_text_agree fs1 fs2 resolved Heq).
Qed.

Lemma find_tool_from_import_agree (tool_var_name : string) :
  LangChainTs._find_tool_from_import schema_factory fs1 tool_var_name content
    file_path
  = LangChainTs._find_tool_from_import schema_factory fs2 tool_var_name
      content file_path.
Proof.
  unfold LangChainTs._find_tool_from_import.
  destruct (search no_flags (LangChainTs.tool_creation_pattern _) content)
    as [m|]; [|reflexivity].
  destruct (search no_flags (LangChainTs.import_pattern _) content)
    as [im|] eqn:Him; [|reflexivity].
  apply load_tool_from_import_agree. exact (agree _ _ Him).
Qed.

Lemma find_tool_factory_definition_agree (factory_name : string) :
  LangChainTs._find_tool_factory_definition schema_factory fs1 factory_name
    content file_path
  = LangChainTs._find_tool_factory_definition schema_factory fs2 factory_name
      content file_path.
Proof.
  unfold LangChainTs._find_tool_factory_definition.
  destruct (search no_flags (LangChainTs.import_pattern _) content)
    as [im|] eqn:Him; [|reflexivity].
  by rewrite (load_tool_from_import_agree factory_name (group_str 1 im)
                (agree _ _ Him)).
Qed.

Lemma ts_extract_tools_agree (tools_array : string) :
  LangChainTs._extract_tools schema_factory fs1 tools_array content file_path
  = LangChainTs._extract_tools schema_factory fs2 tools_array content
      file_path.
Proof.
  unfold LangChainTs._extract_tools. apply map_ext. intros tool_name.
  by rewrite find_tool_from_import_agree.
Qed.

Lemma ts_extract_agent_info_agree :
  LangChainTs._extract_agent_info schema_factory fs1 content file_path
  = LangChainTs._extract_agent_info schema_factory fs2 content file_path.
Proof.
  assert (Hc : forall body,
            LangChainTs._extract_tools_from_constructor schema_factory fs1
              body content file_path
            = LangChainTs._extract_tools_from_constructor schema_factory fs2
                body content file_path).
  { intros body. unfold LangChainTs._extract_tools_from_constructor.
    destruct (search DOTALL LangChainTs.tools_inline_pattern body);
      [apply ts_extract_tools_agree|].
    destruct (search no_flags LangChainTs.tools_ref_pattern body);
      [|reflexivity].
    destruct (search DOTALL _ content); [|reflexivity].
    apply ts_extract_tools_agree. }
  assert (Hf : LangChainTs._extract_tools_from_factory schema_factory fs1
                 content file_path
               = LangChainTs._extract_tools_from_factory schema_factory fs2
                   content file_path).
  { unfold LangChainTs._extract_tools_from_factory. f_equal.
    - destruct (search DOTALL LangChainTs.react_pattern content);
        [apply ts_extract_tools_agree|reflexivity].
    - apply map_ext. intros m.
      by rewrite find_tool_factory_definition_agree. }
  unfold LangChainTs._extract_agent_info.
  rewrite Hf.
  destruct (search DOTALL (LangChainTs.agent_pattern _) content) as [m|];
    [by rewrite Hc|].
  destruct (search DOTALL (LangChainTs.agent_pattern _) content) as [m|];
    [by rewrite Hc|].
  reflexivity.
Qed.

Lemma ts_detect_agree :
  LangChainTs.detect schema_factory fs1 file_path content
  = LangChainTs.detect schema_factory fs2 file_path content.
Proof.
  unfold LangChainTs.detect. by rewrite ts_extract_agent_info_agree.
Qed.

End TypeScriptFrame.

(** C5 (amended). The result of a LangChain detection is a function of the
    file path, of the content and of the files that the import statements
    of the content name: two file systems that agree on the paths that
    these statements make the detector test give the same result, for
    Python and for TypeScript. *)
Theorem C5_detection_reads_only_imported_files
    (ast_parse : string -> parse_outcome)
    (get_docstring : node -> option string) (schema_factory : factory)
    (fs1 fs2 : file_system) (file_path : Path) (content : string) :
  ((forall p, In p (LangChainPy.import_probes ast_parse file_path content) ->
              fs1 p = fs2 p) ->
   LangChainPy.detect ast_parse get_docstring fs1 file_path content
   = LangChainPy.detect ast_parse get_docstring fs2 file_path content) /\
  ((forall factory_name im,
      search no_flags (LangChainTs.import_pattern factory_name) content
        = Some im ->
      forall p,
        In p (LangChainTs.import_candidates (group_str 1 im) file_path) ->
        fs1 p = fs2 p) ->
   LangChainTs.detect schema_factory fs1 file_path content
   = LangChainTs.detect schema_factory fs2 file_path content).
Proof.
  split; intros Hagree.
  - by apply python_detect_agree.
  - by apply ts_detect_agree.
Qed.

(** The two repositories differ in a file that no import names; the
    detection of the agent file gives the same result in both. *)
Lemma C5_witness :
  LangChainPy.detect Examples.ast_parse Examples.get_docstring repo_with_tools
    agent_file imported_tool_agent
  = LangChainPy.detect Examples.ast_parse Examples.get_docstring
      repo_with_notes agent_file imported_tool_agent /\
  LangChainTs.detect new_factory repo_with_tools ["repo"; "agent.ts"]
    plain_text
  = LangChainTs.detect new_factory repo_with_notes ["repo"; "agent.ts"]
      plain_text.
Proof.
  split.
  - destruct (C5_detection_reads_only_imported_files Examples.ast_parse
                Examples.get_docstring new_factory repo_with_tools
                repo_with_notes agent_file imported_tool_agent) as [H _].
    apply H. intros p Hin. vm_compute in Hin.
    repeat destruct Hin as [<-|Hin]; try reflexivity. destruct Hin.
  - destruct (C5_detection_reads_only_imported_files Examples.ast_parse
                Examples.get_docstring new_factory repo_with_tools
                repo_with_notes ["repo"; "agent.ts"] plain_text) as [_ H].
    apply H. intros factory_name im Him. vm_compute in Him. discriminate Him.
Defined.

(** The claim as stated fails here: the same file path and the same
    content, in a repository without the imported module and in one that
    holds it, give two different results. *)
Lemma C5_counterexample :
  (map name ∘ tools) <$>
    (match LangChainPy.detect Examples.ast_parse Examples.get_docstring
             empty_repo agent_file imported_tool_agent with
     | Returned r => r
     | Raised => None
     end) = Some ["FetchTool"] /\
  (map name ∘ tools) <$>
    (match LangChainPy.detect Examples.ast_parse Examples.get_docstring
             repo_with_tools agent_file imported_tool_agent with
     | Returned r => r
     | Raised => None
     end) = Some ["fetch_page"] /\
  LangChainPy.detect Examples.ast_parse Examples.get_docstring empty_repo
    agent_file imported_tool_agent
  <> LangChainPy.detect Examples.ast_parse Examples.get_docstring
       repo_with_tools agent_file imported_tool_agent.
Proof.
  split; [vm_compute; reflexivity|].
  split; [vm_compute; reflexivity|].
  intros Heq.
  apply (f_equal (fun o => match o with
                           | Returned (Some r) => map name (tools r)
                           | _ => []
                           end)) in Heq.
  vm_compute in Heq. discriminate Heq.
Qed.

(* ===================================================================== *)
(** ** The docstring parser *)
(* ===================================================================== *)

Section ParserProperties.
Implicit Types (d : ParameterDoc) (docstring : string).

Lemma google_param_default name group2 group3 :
  is_Some (pd_default (google_param name group2 group3)) ->
  pd_required (google_param name group2 group3) = false.
Proof.
  unfold google_param.
  destruct (or_none group2); cbv zeta;
    destruct (search no_flags defaults_to_pattern _); cbn;
    try reflexivity; by intros [? [=]].
Qed.

Lemma google_lines_default lines : forall cur acc,
  (forall d, cur = Some d -> is_Some (pd_default d) -> pd_required d = false) ->
  Forall (fun d => is_Some (pd_default d) -> pd_required d = false) acc ->
  Forall (fun d => is_Some (pd_default d) -> pd_required d = false)
    (google_lines lines cur acc).
Proof.
  assert (Hflush : forall cur acc,
    (forall d, cur = Some d -> is_Some (pd_default d) -> pd_required d = false) ->
    Forall (fun d => is_Some (pd_default d) -> pd_required d = false) acc ->
    Forall (fun d => is_Some (pd_default d) -> pd_required d = false)
      (flush cur acc)).
  { intros [p|] acc Hc Ha; cbn; [|done].
    apply Forall_app. split; [done|]. constructor; [by apply Hc|constructor]. }
  induction lines as [|line lines IH]; intros cur acc Hc Ha;
    cbn [google_lines]; [by apply Hflush|].
  destruct (re_match no_flags returns_line_pattern line); [by apply Hflush|].
  destruct (re_match no_flags google_param_pattern line) as [m|].
  - apply IH; [|by apply Hflush].
    intros d [= <-]. apply google_param_default.
  - destruct cur as [p|]; [|by apply IH].
    destruct (truthy (strip line) && negb (startswith (strip line) "Returns"));
      [|by apply IH].
    apply IH; [|done]. intros d [= <-]. cbn. by apply Hc.
Qed.

Lemma numpy_param_default m :
  is_Some (pd_default (numpy_param m)) -> pd_required (numpy_param m) = false.
Proof.
  unfold numpy_param. cbv zeta.
  destruct (search no_flags default_colon_pattern _); cbn;
    [reflexivity|by intros [? [=]]].
Qed.

Lemma sphinx_param_default descs types name :
  is_Some (pd_default (sphinx_param descs types name)) ->
  pd_required (sphinx_param descs types name) = false.
Proof.
  unfold sphinx_param. cbv zeta.
  destruct (if truthy _ then _ else _); cbn;
    [reflexivity|by intros [? [=]]].
Qed.

(** X1. Whatever the docstring and whatever the style it is read in, a
    documented parameter for which the parser found a default value is
    reported as not required. *)
Theorem X1_documented_default_is_not_required docstring :
  Forall (fun d => is_Some (pd_default d) -> pd_required d = false)
    (di_parameters (parse docstring)).
Proof.
  assert (Hg : forall s,
    Forall (fun d => is_Some (pd_default d) -> pd_required d = false)
      (di_parameters (_parse_google_style s))).
  { intros s. unfold _parse_google_style. cbn [di_parameters].
    destruct (search no_flags args_pattern s); [|constructor].
    apply google_lines_default; [discriminate|constructor]. }
  assert (Hn : forall s,
    Forall (fun d => is_Some (pd_default d) -> pd_required d = false)
      (di_parameters (_parse_numpy_style s))).
  { intros s. unfold _parse_numpy_style. cbn [di_parameters].
    destruct (search no_flags _ s); [|constructor].
    apply Forall_map, Forall_forall. intros m _. apply numpy_param_default. }
  assert (Hs : forall s,
    Forall (fun d => is_Some (pd_default d) -> pd_required d = false)
      (di_parameters (_parse_sphinx_style s))).
  { intros s. unfold _parse_sphinx_style. cbn [di_parameters].
    apply Forall_map, Forall_forall. intros m _. apply sphinx_param_default. }
  unfold parse. destruct (negb (truthy docstring)); [constructor|].
  cbv zeta.
  set (s := strip docstring).
  set (info1 := if is_empty (di_parameters (_parse_google_style s)) then _
                else _).
  set (info2 := if is_empty (di_parameters info1) then _ else _).
  assert (H1 : Forall (fun d => is_Some (pd_default d) -> pd_required d = false)
                 (di_parameters info1)).
  { subst info1. destruct (is_empty (di_parameters (_parse_google_style s)));
      [|apply Hg].
    destruct (is_empty (di_parameters (_parse_numpy_style s)));
      [apply Hg|apply Hn]. }
  assert (H2 : Forall (fun d => is_Some (pd_default d) -> pd_required d = false)
                 (di_parameters info2)).
  { subst info2. destruct (is_empty (di_parameters info1)); [|exact H1].
    destruct (is_empty (di_parameters (_parse_sphinx_style s)));
      [exact H1|apply Hs]. }
  destruct (di_description info2) as [d|]; [destruct (truthy d)|]; exact H2.
Qed.

(** X2. The description that the parser reports is never the empty
    string: it is absent, or it holds at least one character. *)
Theorem X2_description_is_never_empty docstring :
  di_description (parse docstring) <> Some "".
Proof.
  assert (He : forall s, _extract_description s <> Some "").
  { intros s. unfold _extract_description. cbv zeta.
    match goal with
    | |- (if truthy ?x then _ else _) <> _ => destruct x; cbn; congruence
    end. }
  unfold parse. destruct (negb (truthy docstring)); [discriminate|].
  cbv zeta.
  match goal with
  | |- di_description (match di_description ?i with _ => _ end) <> _ =>
      destruct (di_description i) as [d|] eqn:Hd
  end; [|apply He].
  destruct d; cbn [truthy]; [apply He|].
  rewrite Hd. discriminate.
Qed.

(** X3. A docstring of white space alone documents nothing: no
    description, no parameter, no return value. *)
Theorem X3_blank_docstring_documents_nothing docstring :
  strip docstring = "" -> parse docstring = empty_info.
Proof.
  intros Hblank. unfold parse.
  destruct (negb (truthy docstring)); [reflexivity|].
  cbv zeta. rewrite Hblank. vm_compute. reflexivity.
Qed.

Lemma X3_witness : parse blank_docstring = empty_info.
Proof.
  apply (X3_blank_docstring_documents_nothing blank_docstring).
  vm_compute. reflexivity.
Defined.

End ParserProperties.

(* ===================================================================== *)
(** ** Signatures and the merge of their documentation *)
(* ===================================================================== *)

Section SignatureProperties.
Implicit Types (params : gmap string param_info) (docs : list ParameterDoc).

Lemma merge_parameters_dom docs : forall params,
  dom (merge_parameters docs params) = dom params.
Proof.
  induction docs as [|d docs IH]; intros params; [reflexivity|].
  rewrite merge_parameters_cons, IH.
  destruct (params !! pd_name d) eqn:Hd; [|reflexivity].
  apply dom_insert_lookup_L. by rewrite Hd.
Qed.

Lemma merge_docstring_info_dom (sg : signature) (docstring : option string) :
  dom (sig_parameters (merge_docstring_info sg docstring))
  = dom (sig_parameters sg).
Proof.
  unfold merge_docstring_info.
  destruct docstring as [d|]; [destruct (truthy d)|]; try reflexivity.
  apply merge_parameters_dom.
Qed.

(** X4. The merge of a docstring neither adds nor removes a parameter:
    the merged signature has the parameter names of the structural
    signature, whatever the docstring documents. *)
Theorem X4_merge_keeps_parameter_names (sg : signature)
    (docstring : option string) :
  dom (sig_parameters (merge_docstring_info sg docstring))
  = dom (sig_parameters sg).
Proof. apply merge_docstring_info_dom. Qed.

(** X5. A parameter that the docstring does not document keeps its
    entry unchanged through the merge. *)
Theorem X5_merge_leaves_undocumented_parameters (sg : signature)
    (docstring pname : string) :
  Forall (fun d => pd_name d <> pname) (di_parameters (parse docstring)) ->
  sig_parameters (merge_docstring_info sg (Some docstring)) !! pname
  = sig_parameters sg !! pname.
Proof.
  intros Hdocs. unfold merge_docstring_info.
  destruct (truthy docstring); [|reflexivity].
  by apply merge_parameters_other.
Qed.

Lemma X5_witness :
  sig_parameters
    (merge_docstring_info (extract_function_signature lookup_function)
       (Some lookup_docstring)) !! "query"
  = sig_parameters (extract_function_signature lookup_function) !! "query".
Proof.
  apply (X5_merge_leaves_undocumented_parameters
           (extract_function_signature lookup_function) lookup_docstring
           "query").
  vm_compute. repeat constructor. discriminate.
Defined.

(** X6. A return type that the signature declares is kept through the
    merge, whatever return type the docstring claims; the documented
    return description, when there is one, is taken over. *)
Theorem X6_merge_keeps_declared_return_type (sg : signature)
    (docstring : option string) :
  ri_type (sig_returns sg) <> "Any" ->
  ri_type (sig_returns (merge_docstring_info sg docstring))
    = ri_type (sig_returns sg) /\
  (forall d rd,
     docstring = Some d -> truthy d = true ->
     di_returns (parse d) = Some rd -> truthy (rd_description rd) = true ->
     ri_description (sig_returns (merge_docstring_info sg docstring))
       = Some (rd_description rd)).
Proof.
  intros Hty.
  assert (String.eqb (ri_type (sig_returns sg)) "Any" = false) as E
    by (by apply String.eqb_neq).
  unfold merge_docstring_info. split.
  - destruct docstring as [d|]; [destruct (truthy d)|]; try reflexivity.
    cbn [merge_doc_info sig_returns]. unfold merge_returns.
    destruct (di_returns (parse d)); [|reflexivity].
    cbn [ri_type]. by rewrite E, andb_false_r.
  - intros d rd -> Hd Hrd Hdesc. rewrite Hd.
    cbn [merge_doc_info sig_returns]. unfold merge_returns.
    rewrite Hrd. cbn [ri_description]. by rewrite Hdesc.
Qed.

Lemma X6_witness :
  sig_returns
    (merge_docstring_info (extract_function_signature lookup_function)
       (Some lookup_docstring))
  = mkReturns "list" (Some "The hits.").
Proof.
  destruct (X6_merge_keeps_declared_return_type
              (extract_function_signature lookup_function)
              (Some lookup_docstring)) as [Hty Hdesc];
    [vm_compute; discriminate|].
  specialize (Hdesc lookup_docstring (mkReturnsDoc "dict" "The hits.")
                eq_refl eq_refl).
  destruct (sig_returns _) as [ty desc]. cbn in Hty, Hdesc.
  rewrite Hty, Hdesc; [reflexivity|vm_compute; reflexivity|reflexivity].
Defined.


Lemma positional_params_dom args : forall i offset defaults params,
  dom (positional_params args i offset defaults params)
  = list_to_set (map arg_name args) ∪ dom params.
Proof.
  induction args as [|a args IH]; intros i offset defaults params;
    cbn [positional_params map list_to_set];
    [by rewrite (left_id_L ∅ (∪))|].
  rewrite IH, dom_insert_L.
  apply set_eq. intros x. rewrite !elem_of_union. tauto.
Qed.

Lemma kwonly_params_dom args : forall i offset kw_defaults params,
  dom (kwonly_params args i offset kw_defaults params)
  = list_to_set (map arg_name args) ∪ dom params.
Proof.
  induction args as [|a args IH]; intros i offset kw_defaults params;
    cbn [kwonly_params map list_to_set];
    [by rewrite (left_id_L ∅ (∪))|].
  rewrite IH, dom_insert_L.
  apply set_eq. intros x. rewrite !elem_of_union. tauto.
Qed.

Lemma star_param_dom stars text a params :
  dom (star_param stars text a params)
  = match a with
    | Some v => {[ String.append stars (arg_name v) ]}
    | None => ∅
    end ∪ dom params.
Proof.
  destruct a as [v|]; cbn [star_param];
    [by rewrite dom_insert_L|by rewrite (left_id_L ∅ (∪))].
Qed.

Lemma extract_function_signature_dom (fname : string)
    (posonlyargs args kwonlyargs : list node) (vararg kwarg : option node)
    (kw_defaults : list (option node)) (defaults body decorator_list : list node)
    (rets : option node) :
  dom (sig_parameters
         (extract_function_signature
            (FunctionDef fname
               (arguments posonlyargs args vararg kwonlyargs kw_defaults
                  kwarg defaults)
               body decorator_list rets)))
  = list_to_set (map arg_name args)
    ∪ list_to_set (map arg_name kwonlyargs)
    ∪ match vararg with
      | Some v => {[ String.append "*" (arg_name v) ]}
      | None => ∅
      end
    ∪ match kwarg with
      | Some v => {[ String.append "**" (arg_name v) ]}
      | None => ∅
      end.
Proof.
  cbn [extract_function_signature sig_parameters].
  rewrite star_param_dom, kwonly_params_dom, star_param_dom,
    positional_params_dom, dom_empty_L.
  apply set_eq. intros x. rewrite !elem_of_union, elem_of_empty. tauto.
Qed.

(** X7. The parameters of a signature are named after the positional
    parameters, the keyword-only parameters, and the two starred
    parameters with their stars; positional-only parameters are not
    recorded. *)
Theorem X7_signature_parameter_names (fname : string)
    (posonlyargs args kwonlyargs : list node) (vararg kwarg : option node)
    (kw_defaults : list (option node)) (defaults body decorator_list : list node)
    (rets : option node) :
  dom (sig_parameters
         (extract_function_signature
            (FunctionDef fname
               (arguments posonlyargs args vararg kwonlyargs kw_defaults
                  kwarg defaults)
               body decorator_list rets)))
  = list_to_set (map arg_name args)
    ∪ list_to_set (map arg_name kwonlyargs)
    ∪ match vararg with
      | Some v => {[ String.append "*" (arg_name v) ]}
      | None => ∅
      end
    ∪ match kwarg with
      | Some v => {[ String.append "**" (arg_name v) ]}
      | None => ∅
      end.
Proof. apply extract_function_signature_dom. Qed.


Lemma positional_params_other args (k : string) :
  forall i offset defaults params,
  Forall (fun b => arg_name b <> k) args ->
  positional_params args i offset defaults params !! k = params !! k.
Proof.
  induction args as [|a args IH]; intros i offset defaults params Hall;
    cbn [positional_params]; [reflexivity|].
  apply Forall_cons_1 in Hall as [Ha Hall].
  rewrite IH by done. by rewrite lookup_insert_ne.
Qed.

Lemma kwonly_params_other args (k : string) :
  forall i offset kw_defaults params,
  Forall (fun b => arg_name b <> k) args ->
  kwonly_params args i offset kw_defaults params !! k = params !! k.
Proof.
  induction args as [|a args IH]; intros i offset kw_defaults params Hall;
    cbn [kwonly_params]; [reflexivity|].
  apply Forall_cons_1 in Hall as [Ha Hall].
  rewrite IH by done. by rewrite lookup_insert_ne.
Qed.

Lemma startswith_append_star (stars x : string) :
  startswith stars "*" = true ->
  startswith (String.append stars x) "*" = true.
Proof.
  destruct stars as [|c stars]; [discriminate|].
  change (String c stars +:+ x) with (String c (stars +:+ x)).
  cbn [startswith].
  assert (He : forall s, startswith s "" = true) by (by intros []).
  by rewrite !He.
Qed.

Lemma star_param_other stars text a params (k : string) :
  startswith stars "*" = true ->
  startswith k "*" = false ->
  star_param stars text a params !! k = params !! k.
Proof.
  intros Hs Hk. destruct a as [v|]; cbn [star_param]; [|reflexivity].
  apply lookup_insert_ne. intros <-.
  rewrite startswith_append_star in Hk by done. discriminate.
Qed.

Lemma positional_params_lookup args : forall j a i offset defaults params,
  args !! j = Some a ->
  Forall (fun b => arg_name b <> arg_name a) (skipn (S j) args) ->
  positional_params args i offset defaults params !! arg_name a
  = Some (let ty := type_string_or_any (arg_annotation a) in
          if (offset <=? Z.of_nat (i + j))%Z then
            mkParam ty false None
              (_ast_to_value_string
                 <$> defaults !! Z.to_nat (Z.of_nat (i + j) - offset))
          else mkParam ty true None None).
Proof.
  induction args as [|b args IH]; intros j a i offset defaults params Hj Hlater;
    [discriminate|].
  destruct j as [|j]; cbn [positional_params].
  - injection Hj as ->. cbn [skipn] in Hlater.
    rewrite positional_params_other by done.
    rewrite lookup_insert_eq, Nat.add_0_r. f_equal. cbv zeta.
    destruct (offset <=? Z.of_nat i)%Z; [|reflexivity].
    by destruct (defaults !! _).
  - cbn in Hj. cbn [skipn] in Hlater.
    rewrite (IH j a (S i) offset defaults _ Hj Hlater).
    by replace (S i + j) with (i + S j) by lia.
Qed.

(** X8. A positional parameter of a function, whose name no later
    parameter bears, is recorded with its annotation as type; it is
    required exactly when it stands before the parameters that have a
    default, and otherwise carries the text of its default value. *)
Theorem X8_positional_parameter_entry (fname : string)
    (posonlyargs args kwonlyargs : list node) (vararg kwarg : option node)
    (kw_defaults : list (option node)) (defaults body decorator_list : list node)
    (rets : option node) (j : nat) (a : node) :
  args !! j = Some a ->
  Forall (fun b => arg_name b <> arg_name a) (skipn (S j) args) ->
  Forall (fun b => arg_name b <> arg_name a) kwonlyargs ->
  startswith (arg_name a) "*" = false ->
  sig_parameters
    (extract_function_signature
       (FunctionDef fname
          (arguments posonlyargs args vararg kwonlyargs kw_defaults kwarg
             defaults)
          body decorator_list rets)) !! arg_name a
  = Some (let offset := (length_Z args - length_Z defaults)%Z in
          let ty := type_string_or_any (arg_annotation a) in
          if (Z.of_nat j <? offset)%Z then mkParam ty true None None
          else mkParam ty false None
                 (_ast_to_value_string
                    <$> defaults !! Z.to_nat (Z.of_nat j - offset))).
Proof.
  intros Hj Hlater Hkw Hstar.
  cbn [extract_function_signature sig_parameters].
  rewrite star_param_other, kwonly_params_other, star_param_other by done.
  rewrite (positional_params_lookup args j a 0 _ _ _ Hj Hlater).
  cbn [Nat.add]. f_equal. cbv zeta.
  rewrite Z.ltb_antisym. by destruct (_ <=? _)%Z.
Qed.

Lemma X8_witness :
  sig_parameters (extract_function_signature lookup_function) !! "limit"
  = Some (mkParam "int" false None (Some "10")).
Proof.
  apply (X8_positional_parameter_entry "lookup" []
           [arg "query" (Some (Name "str")); arg "limit" (Some (Name "int"))]
           [arg "exact" (Some (Name "bool"))] (Some (arg "rest" None)) None
           [Some (Constant (CBool false))] [Constant (CInt 10)]
           [Expr (Constant CEllipsis)] [Name "tool"] (Some (Name "list"))
           1 (arg "limit" (Some (Name "int")))).
  - reflexivity.
  - constructor.
  - repeat constructor. discriminate.
  - reflexivity.
Defined.

End SignatureProperties.

Section ToolParameterNames.
Lemma convert_parameters_dom (params : gmap string param_info) (k : string) :
  k ∈ dom (convert_parameters params) <->
  startswith k "*" = false /\ k ∈ dom params.
Proof.
  rewrite !elem_of_dom, convert_parameters_lookup.
  destruct (startswith k "*").
  - split; [by intros [? [=]]|by intros [[=] _]].
  - rewrite fmap_is_Some. tauto.
Qed.

(** X9. The parameter conversion of the scanner, applied to what
    [extract_function_signature] and [merge_docstring_info] give for a
    function, keeps exactly the names of [args.args] and of
    [args.kwonlyargs]: the starred parameters are left out,
    positional-only parameters are absent as they are never recorded, and
    a name that the docstring alone documents is not added. *)
Theorem X9_function_tool_parameter_names (fname : string)
    (posonlyargs args kwonlyargs : list node) (vararg kwarg : option node)
    (kw_defaults : list (option node)) (defaults body decorator_list : list node)
    (rets : option node) (docstring : option string) :
  Forall (fun b => startswith (arg_name b) "*" = false) (args ++ kwonlyargs) ->
  dom (convert_parameters
         (sig_parameters
            (merge_docstring_info
               (extract_function_signature
                  (FunctionDef fname
                     (arguments posonlyargs args vararg kwonlyargs
                        kw_defaults kwarg defaults)
                     body decorator_list rets))
               docstring)))
  = list_to_set (map arg_name (args ++ kwonlyargs)).
Proof.
  intros Hnames. apply set_eq. intros k.
  rewrite convert_parameters_dom, merge_docstring_info_dom,
    extract_function_signature_dom.
  rewrite map_app, list_to_set_app_L, !elem_of_union.
  split.
  - intros (Hk & [[H|H]|H]); [exact H| |].
    + destruct vararg as [v|]; [|by apply elem_of_empty in H].
      apply elem_of_singleton in H. subst k.
      by rewrite startswith_append_star in Hk.
    + destruct kwarg as [v|]; [|by apply elem_of_empty in H].
      apply elem_of_singleton in H. subst k.
      by rewrite startswith_append_star in Hk.
  - intros H. split; [|by do 2 left].
    assert (k ∈ map arg_name (args ++ kwonlyargs)) as Hin.
    { rewrite map_app, elem_of_app.
      destruct H as [H|H]; [left|right]; by apply elem_of_list_to_set in H. }
    apply list_elem_of_In, in_map_iff in Hin as (b & <- & Hb).
    rewrite List.Forall_forall in Hnames. by apply Hnames.
Qed.

End ToolParameterNames.

Lemma X9_witness :
  dom (convert_parameters
         (sig_parameters
            (merge_docstring_info (extract_function_signature lookup_function)
               (Some lookup_docstring))))
  = ({[ "query"; "limit"; "exact" ]} : gset string).
Proof.
  unfold lookup_function.
  rewrite (X9_function_tool_parameter_names "lookup" []
             [arg "query" (Some (Name "str")); arg "limit" (Some (Name "int"))]
             [arg "exact" (Some (Name "bool"))] (Some (arg "rest" None)) None
             [Some (Constant (CBool false))] [Constant (CInt 10)]
             [Expr (Constant CEllipsis)] [Name "tool"] (Some (Name "list"))
             (Some lookup_docstring))
    by (repeat constructor).
  apply (bool_decide_unpack _). vm_compute. exact I.
Defined.

(* ===================================================================== *)
(** ** The tools of a tools collection *)
(* ===================================================================== *)

Lemma first_some_elim {A B} (f : A -> option B) (l : list A) (b : B) :
  first_some f l = Some b -> exists x, In x l /\ f x = Some b.
Proof.
  induction l as [|x l IH]; cbn [first_some]; [discriminate|].
  destruct (f x) as [b'|] eqn:Hx.
  - intros [= <-]. exists x. split; [by left|done].
  - intros (y & Hy & Hfy)%IH. exists y. split; [by right|done].
Qed.

Section ToolCollections.
Variable ast_parse : string -> parse_outcome.
Variable get_docstring : node -> option string.
Variable fs : file_system.

(** X10. The TypeScript detector returns one tool for each name of a
    tools array, in the order of the array; a name that neither a
    definition in the file nor an import resolves gives the bare tool of
    that name, without description and parameters. *)
Theorem X10_ts_one_tool_for_each_name (schema_factory : factory)
    (tools_array content : string) (file_path : Path) :
  Forall2
    (fun piece tool =>
       let tool_name := strip (strip piece) in
       LangChainTs._find_tool_definition schema_factory tool_name content
         = None ->
       LangChainTs._find_tool_from_import schema_factory fs tool_name content
         file_path = None ->
       tool = new_tool tool_name "")
    (filter (fun t => truthy (strip t) = true) (split "," tools_array))
    (LangChainTs._extract_tools schema_factory fs tools_array content
       file_path).
Proof.
  unfold LangChainTs._extract_tools.
  induction (filter _ (split "," tools_array)) as [|piece pieces IH];
    cbn [map]; constructor; [|exact IH].
  cbv zeta. by intros -> ->.
Qed.

Lemma decorated_tool_name (tree : node) (tname : string) (t : ToolInfo) :
  decorated_tool get_docstring tree tname = Some t -> name t = tname.
Proof.
  unfold decorated_tool. intros (n & _ & Hn)%first_some_elim.
  destruct n; try discriminate.
  destruct (_ && _); [|discriminate]. by injection Hn as <-.
Qed.

Lemma crew_find_tool_definition_name (tname content : string) (t : ToolInfo) :
  CrewAI._find_tool_definition ast_parse get_docstring tname content = Some t ->
  name t = tname.
Proof.
  unfold CrewAI._find_tool_definition.
  destruct (search _ _ content); [|discriminate].
  destruct (ast_parse content); try (by intros [= <-]).
  apply decorated_tool_name.
Qed.

(** X11. The CrewAI detector returns one tool for every item of a tools
    list that is a name or a call of a name, in the order of the list,
    and the tool bears that name: the names of the tools are the items
    that [extract_list_items] lists. *)
Theorem X11_crew_tools_are_the_list_items (n : node) (content : string) :
  map name (CrewAI._extract_tools_from_node ast_parse get_docstring n content)
  = extract_list_items n.
Proof.
  assert (Hitems : forall elts,
    map name
      (CrewAI._extract_tools_from_node ast_parse get_docstring (List_ elts)
         content)
    = extract_list_items (List_ elts)).
  { intros elts. cbn [CrewAI._extract_tools_from_node extract_list_items].
    induction elts as [|item elts IH]; cbn [flat_map map]; [reflexivity|].
    rewrite map_app, IH. f_equal.
    destruct item; try reflexivity.
    - match goal with
      | |- context [match ?f with _ => _ end] => destruct f; reflexivity
      end.
    - destruct (truthy content); [|reflexivity].
      destruct (CrewAI._find_tool_definition _ _ _ _) as [t|] eqn:Ht;
        [|reflexivity].
      cbn. by rewrite (crew_find_tool_definition_name _ _ _ Ht). }
  destruct n; try reflexivity; apply Hitems.
Qed.

(** X12. For a tools list or tuple written in place, the LangChain
    detector for Python returns at most one tool for each item that
    [extract_list_items] lists, and exactly one for each item that is a
    call of a name. *)
Theorem X12_python_tools_bound (elts : list node) (content : string)
    (file_path : Path) :
  length (LangChainPy._extract_tools_from_node ast_parse get_docstring fs
            (List_ elts) content file_path)
    <= length (extract_list_items (List_ elts)) /\
  LangChainPy._extract_tools_from_node ast_parse get_docstring fs
    (Tuple_ elts) content file_path
  = LangChainPy._extract_tools_from_node ast_parse get_docstring fs
      (List_ elts) content file_path /\
  Forall
    (fun item =>
       forall class_name args keywords,
         item = Call (Name class_name) args keywords ->
         length (LangChainPy.resolve_item ast_parse get_docstring fs content
                   file_path item) = 1)
    elts.
Proof.
  split; [|split; [reflexivity|]].
  - cbn [LangChainPy._extract_tools_from_node extract_list_items].
    induction elts as [|item elts IH]; cbn [flat_map length]; [lia|].
    rewrite !length_app.
    apply Nat.add_le_mono; [|exact IH].
    destruct item; cbn [LangChainPy.resolve_item length]; try lia.
    + match goal with
      | |- context [match ?f with _ => _ end] => destruct f
      end; cbn [LangChainPy._extract_tool_from_call opt_list length]; try lia.
      match goal with
      | |- length (opt_list ?o) <= _ => destruct o; cbn; lia
      end.
    + match goal with
      | |- length (opt_list ?o) <= _ => destruct o; cbn; lia
      end.
  - apply Forall_forall. intros item _ class_name args keywords ->.
    cbn [LangChainPy.resolve_item LangChainPy._extract_tool_from_call].
    destruct (existsb _ _); [reflexivity|].
    destruct (LangChainPy._extract_tool_from_class _ _ _ _); [reflexivity|].
    destruct (LangChainPy._find_tool_class_from_import _ _ _ _ _);
      reflexivity.
Qed.

End ToolCollections.

(* ===================================================================== *)
(** ** The files that a tool is loaded from *)
(* ===================================================================== *)

Section ToolProvenance.
Variable ast_parse : string -> parse_outcome.
Variable fs : file_system.

Lemma extract_tool_from_class_path (class_name content : string)
    (file_path : Path) (t : ToolInfo) :
  LangChainPy._extract_tool_from_class ast_parse class_name content file_path
    = Some t ->
  BaseDetector.file_path t = path_str file_path.
Proof.
  unfold LangChainPy._extract_tool_from_class.
  destruct (ast_parse content) as [tree| |]; try discriminate.
  intros (n & _ & Hn)%first_some_elim.
  destruct n; try discriminate.
  destruct (_ && _); [|discriminate].
  destruct (truthy _); [|discriminate]. by injection Hn as <-.
Qed.

Lemma follow_imports_elim (class_name : string) (modules : list string)
    (file_path : Path) (t : ToolInfo) :
  LangChainPy.follow_imports ast_parse fs class_name modules file_path
    = Some t ->
  exists module_path,
    In module_path modules /\
    LangChainPy.follow_import ast_parse fs class_name module_path file_path
      = Returned (Some t).
Proof.
  induction modules as [|m modules IH]; cbn [LangChainPy.follow_imports];
    [discriminate|].
  destruct (LangChainPy.follow_import _ _ _ m _) as [[t'|]|] eqn:Hm;
    try discriminate.
  - intros [= <-]. exists m. split; [by left|done].
  - intros (m' & Hin & Hm')%IH. exists m'. split; [by right|done].
Qed.

(** X13. A tool that the LangChain detector for Python loads through an
    import carries the path of the file it was read from: a file that
    exists, whose text could be read, and which is one of the candidates
    of a [from ... import] statement of the content. *)
Theorem X13_python_imported_tool_provenance (class_name content : string)
    (file_path : Path) (t : ToolInfo) :
  LangChainPy._find_tool_class_from_import ast_parse fs class_name content
    file_path = Some t ->
  exists p,
    In p (LangChainPy.import_probes ast_parse file_path content) /\
    exists_ fs p = true /\
    is_Some (read_text fs p) /\
    BaseDetector.file_path t = path_str p.
Proof.
  unfold LangChainPy._find_tool_class_from_import, LangChainPy.import_probes.
  destruct (ast_parse content) as [tree| |]; try discriminate.
  intros (m & Hm & Hfollow)%follow_imports_elim.
  apply imports_of_in in Hm as (names & level & Hn).
  unfold LangChainPy.follow_import in Hfollow.
  destruct (LangChainPy._resolve_python_import fs m file_path)
    as [[p|]|] eqn:Hr; try discriminate.
  destruct (exists_ fs p) eqn:He; [|discriminate].
  destruct (read_text fs p) as [text|] eqn:Ht; [|discriminate].
  injection Hfollow as Hclass.
  exists p. split; [|split; [done|split; [by rewrite Ht|]]].
  - apply in_flat_map. exists (ImportFrom (Some m) names level).
    split; [done|]. by apply (resolve_python_import_in fs).
  - by apply (extract_tool_from_class_path class_name text).
Qed.

(** X14. The TypeScript detector follows relative imports alone: a tool
    loaded through an import comes from an import path that begins with a
    dot, and it carries the path of the file it was read from, which
    exists and is one of the candidates of that import path. *)
Theorem X14_typescript_imported_tool_provenance (schema_factory : factory)
    (factory_name import_path : string) (file_path : Path) (t : ToolInfo) :
  LangChainTs._load_tool_from_import schema_factory fs factory_name
    import_path file_path = Some t ->
  startswith import_path "." = true /\
  exists p,
    In p (LangChainTs.import_candidates import_path file_path) /\
    exists_ fs p = true /\
    is_Some (read_text fs p) /\
    BaseDetector.file_path t = path_str p.
Proof.
  unfold LangChainTs._load_tool_from_import.
  destruct (LangChainTs._resolve_import_path fs import_path file_path)
    as [p|] eqn:Hr; [|discriminate].
  destruct (exists_ fs p) eqn:He; [|discriminate].
  destruct (read_text fs p) as [text|] eqn:Ht; [|discriminate].
  intros Hparse. split.
  - unfold LangChainTs._resolve_import_path in Hr.
    by destruct (startswith import_path ".").
  - exists p. split; [by apply (resolve_import_path_in _ fs)|].
    split; [done|]. split; [by rewrite Ht|].
    unfold LangChainTs._parse_tool_from_file in Hparse.
    destruct (truthy _); [|discriminate]. by injection Hparse as <-.
Qed.

End ToolProvenance.

Lemma X13_witness :
  exists p,
    In p (LangChainPy.import_probes Examples.ast_parse agent_file
            imported_tool_agent) /\
    exists_ repo_with_tools p = true /\
    is_Some (read_text repo_with_tools p) /\
    path_str p = "/repo/tools.py".
Proof.
  destruct (X13_python_imported_tool_provenance Examples.ast_parse
              repo_with_tools "FetchTool" imported_tool_agent agent_file
              (mkToolInfo "fetch_page" "/repo/tools.py" 0
                 (Some "Fetch a web page") ∅ None None))
    as (p & Hin & Hex & Hread & Hpath); [vm_compute; reflexivity|].
  exists p. repeat split; done.
Defined.

Lemma X14_witness :
  startswith "./tools/search" "." = true /\
  exists p,
    In p (LangChainTs.import_candidates "./tools/search" ["repo"; "agent.ts"]) /\
    exists_ repo_with_ts_tool p = true /\
    is_Some (read_text repo_with_ts_tool p) /\
    path_str p = "/repo/tools/search.ts".
Proof.
  destruct (X14_typescript_imported_tool_provenance repo_with_ts_tool
              new_factory "createSearchTool" "./tools/search"
              ["repo"; "agent.ts"]
              (mkToolInfo "web_search" "/repo/tools/search.ts" 0
                 (Some "Search the web") ∅ None None))
    as (Hdot & p & Hin & Hex & Hread & Hpath); [vm_compute; reflexivity|].
  split; [done|]. exists p. repeat split; done.
Defined.

(* ===================================================================== *)
(** ** The schema of a tool factory *)
(* ===================================================================== *)

Section FactorySchema.

Lemma zod_content_is_zod (schema_body : string) :
  zod_can_extract
    ("import { z } from 'zod'" ++ String nl "" ++ "z.object({" ++ schema_body
     ++ "})") = true.
Proof.
  unfold zod_can_extract, zod_indicators. cbn [existsb].
  apply orb_true_iff. left.
  unfold matches. apply bool_decide_eq_true.
  match goal with
  | |- is_Some ?o =>
      assert (exists m, o = Some m) as [m ->]; [|by eexists]
  end.
  vm_compute. by eexists.
Qed.

(** X15. With the extractors that a detector starts with, the schema of
    a tool factory is always read in the Zod dialect, whatever the schema
    body holds: the content that [_extract_zod_schema_params] builds around
    the body is accepted by the Zod extractor, which stands first. *)
Theorem X15_factory_schema_is_read_as_zod (content schema_body : string) :
  LangChainTs._extract_zod_schema_params new_factory schema_body
  = zod_extract_params content schema_body.
Proof.
  unfold LangChainTs._extract_zod_schema_params,
    LangChainTs._extract_schema_params.
  cbn [new_factory get_extractor can_extract ZodSchemaExtractor].
  rewrite zod_content_is_zod. reflexivity.
Qed.

End FactorySchema.

(* ===================================================================== *)
(** ** The results of the detectors and the processing of a file *)
(* ===================================================================== *)

Lemma fold_left_invariant {A B} (P : A -> Prop) (f : A -> B -> A)
    (l : list B) (a : A) :
  P a -> (forall a x, P a -> P (f a x)) -> P (fold_left f l a).
Proof.
  intros Ha Hf. revert a Ha.
  induction l as [|x l IH]; intros a Ha; cbn [fold_left]; [done|].
  apply IH. by apply Hf.
Qed.

Section ResultInvariants.
Variable ast_parse : string -> parse_outcome.
Variable get_docstring : node -> option string.
Variable fs : file_system.

Lemma python_agent_architecture (n : node) (content : string)
    (file_path : Path) (info : LangChainPy.agent_info) :
  LangChainPy._extract_agent_info ast_parse get_docstring fs n content
    file_path = Some info ->
  In (LangChainPy.ai_architecture info) ["ReAct"; "MAS"; "Other"].
Proof.
  destruct n; try discriminate. cbn [LangChainPy._extract_agent_info].
  destruct (LangChainPy.func_name_of _) as [func_name|]; [|discriminate].
  destruct (existsb _ _); [|discriminate].
  match goal with
  | |- context [fold_left ?f ?l ?a] =>
      assert (In (LangChainPy.ai_architecture (fold_left f l a))
                ["ReAct"; "MAS"; "Other"]) as Hfold;
      [|generalize dependent (fold_left f l a)]
  end.
  { apply (fold_left_invariant
             (fun i => In (LangChainPy.ai_architecture i)
                         ["ReAct"; "MAS"; "Other"])).
    - cbn. tauto.
    - intros i kw Hi. destruct kw; try exact Hi.
      match goal with
      | |- context [match ?o with Some _ => _ | None => _ end] =>
          destruct o; [|exact Hi]
      end.
      destruct (String.eqb _ "tools"); [exact Hi|].
      destruct (_ && _).
      + match goal with
        | |- context [match ?v with _ => _ end] => destruct v; try exact Hi
        end.
        destruct (String.eqb _ _); [cbn; tauto|exact Hi].
      + destruct (String.eqb _ _); [|exact Hi].
        destruct (extract_string_value _) as [text|]; [|exact Hi].
        destruct (truthy text); exact Hi. }
  intros i Hi.
  destruct (ast_parse content); cbn [LangChainPy.ai_tools];
    match goal with
    | |- match ?t with _ => _ end = _ -> _ =>
        destruct t; [discriminate|]; by intros [= <-]
    end.
Qed.

Lemma detector_result_invariants (d : ScanFile.detector)
    (file_path : Path) (content : string) (r : DetectorResult) :
  ScanFile.detect ast_parse get_docstring fs d file_path content
    = Returned (Some r) ->
  found r = true /\
  constructor_file r = Some (path_str file_path) /\
  tool_files r = [] /\
  frameworks r <> [] /\
  In (agent_type r) ["LLM Agent"; "SQL Agent"; "Retrieval Agent"] /\
  In (architecture r) ["ReAct"; "MAS"; "Other"] /\
  In (language r) ["Python"; "TypeScript"].
Proof.
  destruct d; cbn [ScanFile.detect].
  - unfold LangChainPy.detect.
    destruct (negb _); [discriminate|].
    destruct (check_construction_signature _ _); [|discriminate].
    destruct (ast_parse content) as [tree| |]; try discriminate.
    destruct (first_some _ _) as [info|] eqn:Hinfo; cbn [found];
      intros [= <-]; cbn; repeat split; try discriminate; try tauto.
    + unfold LangChainPy.classify_agent_type.
      destruct (LangChainPy._has_sql_tools _ _); [tauto|].
      destruct (LangChainPy._has_retrieval_tools _ _); tauto.
    + apply first_some_elim in Hinfo as (n & _ & Hn).
      destruct n; try discriminate.
      exact (python_agent_architecture _ _ _ _ Hn).
  - unfold LangChainTs.detect.
    destruct (negb _); [discriminate|].
    destruct (negb _); [discriminate|].
    destruct (check_construction_signature _ _); [|discriminate].
    destruct (LangChainTs._extract_agent_info _ _ _ _) as [info|];
      cbn [found]; intros [= <-]; cbn; repeat split; try discriminate;
      try tauto.
    unfold LangChainTs.classify_agent_type.
    destruct (LangChainTs._has_sql_tools _ _); [tauto|].
    destruct (LangChainTs._has_retrieval_tools _ _); tauto.
  - unfold AutoGen.detect.
    destruct (negb _); [discriminate|].
    destruct (check_construction_signature _ _); [|discriminate].
    destruct (ast_parse content) as [tree| |]; try discriminate.
    destruct (AutoGen._extract_agents_info _ _); cbn [found];
      intros [= <-]; cbn; repeat split; try discriminate; tauto.
  - unfold CrewAI.detect.
    destruct (negb _); [discriminate|].
    destruct (check_construction_signature _ _); [|discriminate].
    destruct (ast_parse content) as [tree| |]; try discriminate.
    destruct (CrewAI._extract_crew_info _ _ _ _); cbn [found];
      intros [= <-]; cbn; repeat split; try discriminate; tauto.
Qed.


(** X16. A result that a detector returns is marked as found, names the
    file it was given as constructor file, lists no tool file, names at
    least one framework, and its agent type, architecture and language
    are among the values that the [Agent] model admits. *)
Theorem X16_detector_results_fit_the_agent_model (d : ScanFile.detector)
    (file_path : Path) (content : string) (r : DetectorResult) :
  ScanFile.detect ast_parse get_docstring fs d file_path content
    = Returned (Some r) ->
  found r = true /\
  constructor_file r = Some (path_str file_path) /\
  tool_files r = [] /\
  frameworks r <> [] /\
  In (agent_type r) ["LLM Agent"; "SQL Agent"; "Retrieval Agent"] /\
  In (architecture r) ["ReAct"; "MAS"; "Other"] /\
  In (language r) ["Python"; "TypeScript"].
Proof. apply detector_result_invariants. Qed.

Lemma relative_to_app (root rel : Path) :
  FileWalker.relative_to (root ++ rel)%list root = Some rel.
Proof.
  induction root as [|c root IH]; cbn; [by destruct rel|].
  by rewrite String.eqb_refl.
Qed.

Section ProcessFile.
Variable read_text_as : string -> Path -> option string.

Lemma try_detectors_first (detectors : list ScanFile.detector)
    (file_path root_path : Path) (content : string) (r : DetectorResult) :
  ScanFile.try_detectors ast_parse get_docstring fs detectors file_path
    root_path content = Some r <->
  exists before d after r0,
    detectors = (before ++ d :: after)%list /\
    Forall
      (fun d' =>
         ScanFile.detect ast_parse get_docstring fs d' file_path content
           = Returned None \/
         ScanFile.detect ast_parse get_docstring fs d' file_path content
           = Raised)
      before /\
    ScanFile.detect ast_parse get_docstring fs d file_path content
      = Returned (Some r0) /\
    r = ScanFile._resolve_tool_files r0 file_path root_path.
Proof.
  split.
  - induction detectors as [|d detectors IH];
      cbn [ScanFile.try_detectors]; [discriminate|].
    destruct (ScanFile.detect _ _ _ d _ _) as [[r0|]|] eqn:Hd.
    + destruct (detector_result_invariants d _ _ _ Hd) as [-> _].
      intros [= <-]. exists [], d, detectors, r0. by repeat split.
    + intros (before & d' & after & r0 & -> & Hb & Hd' & ->)%IH.
      exists (d :: before), d', after, r0. repeat split; try done.
      constructor; [by left|done].
    + intros (before & d' & after & r0 & -> & Hb & Hd' & ->)%IH.
      exists (d :: before), d', after, r0. repeat split; try done.
      constructor; [by right|done].
  - intros (before & d & after & r0 & -> & Hb & Hd & ->).
    induction Hb as [|d' before [Hd'|Hd'] _ IH];
      cbn [ScanFile.try_detectors app].
    + rewrite Hd. by destruct (detector_result_invariants d _ _ _ Hd) as [-> _].
    + by rewrite Hd'.
    + by rewrite Hd'.
Qed.

(** X17. The processing of a file returns the result of the first
    detector, in the order of the scanner, that returns one; a detector
    that raises is passed over like one that returns nothing.  A file that
    cannot be read in any of the four encodings, or that is empty, gives
    no result. *)
Theorem X17_first_detector_wins (detectors : list ScanFile.detector)
    (file_path root_path : Path) (r : DetectorResult) :
  ScanFile._process_file ast_parse get_docstring fs read_text_as detectors
    file_path root_path = Some r <->
  exists content before d after r0,
    FileWalker.read_file_safely read_text_as file_path = Some content /\
    content <> "" /\
    detectors = (before ++ d :: after)%list /\
    Forall
      (fun d' =>
         ScanFile.detect ast_parse get_docstring fs d' file_path content
           = Returned None \/
         ScanFile.detect ast_parse get_docstring fs d' file_path content
           = Raised)
      before /\
    ScanFile.detect ast_parse get_docstring fs d file_path content
      = Returned (Some r0) /\
    r = ScanFile._resolve_tool_files r0 file_path root_path.
Proof.
  unfold ScanFile._process_file. split.
  - destruct (FileWalker.read_file_safely _ _) as [content|]; [|discriminate].
    destruct content as [|c content]; [discriminate|]. cbn [truthy].
    intros (before & d & after & r0 & H)%try_detectors_first.
    exists (String c content), before, d, after, r0.
    split; [reflexivity|]. split; [discriminate|]. exact H.
  - intros (content & before & d & after & r0 & -> & Hne & H).
    destruct content as [|c content]; [done|]. cbn [truthy].
    apply try_detectors_first. by exists before, d, after, r0.
Qed.

(** X18. The result of the processing of a file that lies below the root
    of the scan names the path of the file relative to the root, both as
    its constructor file and as its one tool file. *)
Theorem X18_processed_result_names_the_relative_path
    (detectors : list ScanFile.detector) (root_path rel : Path)
    (r : DetectorResult) :
  rel <> [] ->
  ScanFile._process_file ast_parse get_docstring fs read_text_as detectors
    (root_path ++ rel)%list root_path = Some r ->
  constructor_file r = Some (join "/" rel) /\
  tool_files r = [join "/" rel].
Proof.
  intros Hrel Hr. unfold ScanFile._process_file in Hr.
  destruct (FileWalker.read_file_safely _ _) as [content|]; [|discriminate].
  destruct (truthy content); [|discriminate].
  apply try_detectors_first in Hr
    as (before & d & after & r0 & _ & _ & Hd & ->).
  destruct (detector_result_invariants d _ _ _ Hd) as (_ & _ & Hfiles & _).
  unfold ScanFile._resolve_tool_files, FileWalker.relative_str.
  rewrite relative_to_app, Hfiles. cbn [constructor_file tool_files].
  by destruct rel.
Qed.

End ProcessFile.

End ResultInvariants.

Lemma X16_witness :
  let r := mkResult true None (Some "/repo/agent.py") [] [] "MAS" ["AutoGen"]
             "Python" "LLM Agent" [] in
  found r = true /\
  constructor_file r = Some (path_str agent_file) /\
  tool_files r = [] /\
  frameworks r <> [] /\
  In (agent_type r) ["LLM Agent"; "SQL Agent"; "Retrieval Agent"] /\
  In (architecture r) ["ReAct"; "MAS"; "Other"] /\
  In (language r) ["Python"; "TypeScript"].
Proof.
  apply (X16_detector_results_fit_the_agent_model Examples.ast_parse
           Examples.get_docstring empty_repo ScanFile.AutoGenDetector
           agent_file autogen_no_agents).
  vm_compute. reflexivity.
Defined.

(** The default scanner on the agent file of a repository: the detector
    for Python answers, and the result names the file below the root. *)
Example process_file_of_a_repository :
  ScanFile._process_file Examples.ast_parse Examples.get_docstring
    repo_with_agent (read_from repo_with_agent)
    (ScanFile.scanner_detectors None) ["repo"; "src"; "agent.py"] ["repo"]
  = Some (mkResult true (Some "agent") (Some "src/agent.py") ["src/agent.py"]
            [mkToolInfo "sql_lookup" "" 0 (Some "Query the vectorstore") ∅
               None None]
            "Other" ["LangChain"] "Python" "SQL Agent" []).
Proof. vm_compute. reflexivity. Qed.

Lemma X18_witness :
  let r := mkResult true (Some "agent") (Some "src/agent.py") ["src/agent.py"]
             [mkToolInfo "sql_lookup" "" 0 (Some "Query the vectorstore") ∅
                None None]
             "Other" ["LangChain"] "Python" "SQL Agent" [] in
  constructor_file r = Some "src/agent.py" /\ tool_files r = ["src/agent.py"].
Proof.
  apply (X18_processed_result_names_the_relative_path Examples.ast_parse
           Examples.get_docstring repo_with_agent (read_from repo_with_agent)
           (ScanFile.scanner_detectors None) ["repo"] ["src"; "agent.py"]).
  - discriminate.
  - vm_compute. reflexivity.
Defined.

(* ===================================================================== *)
(** ** The file walker *)
(* ===================================================================== *)

Section WalkerProperties.
Variable fnmatch : string -> string -> bool.
Variable st_size : Path -> option nat.

Lemma removelast_snoc {A} (l : list A) (x : A) :
  removelast (l ++ [x]) = l.
Proof. by rewrite removelast_app, app_nil_r. Qed.

Lemma last_snoc {A} (l : list A) (x d : A) : List.last (l ++ [x]) d = x.
Proof. apply last_last. Qed.

Lemma excluded_parent_below (excludes : gset string) (root : Path)
    (dirs : list string) : forall n,
  length dirs <= n ->
  (exists d, In d dirs /\ d ∈ excludes) ->
  FileWalker.excluded_parent excludes root
    ((root ++ dirs)%list :: FileWalker.parents_from n (root ++ dirs)%list)
  = true.
Proof.
  induction dirs as [|x dirs IH] using rev_ind; intros n Hn (d & Hin & Hd);
    [destruct Hin|].
  cbn [FileWalker.excluded_parent].
  rewrite bool_decide_eq_false_2.
  2:{ intros Heq. apply (f_equal (@length string)) in Heq.
      rewrite !length_app in Heq. cbn in Heq. lia. }
  rewrite app_assoc.
  assert (FileWalker.name_of ((root ++ dirs) ++ [x])%list = x) as ->
    by apply last_snoc.
  destruct (bool_decide (x ∈ excludes)) eqn:Hx; [reflexivity|].
  apply bool_decide_eq_false in Hx.
  rewrite length_app in Hn. cbn in Hn.
  destruct n as [|n]; [lia|]. cbn [FileWalker.parents_from].
  unfold parent. rewrite removelast_snoc.
  apply IH; [lia|].
  apply in_app_or in Hin as [Hin|[<-|[]]]; [by exists d|done].
Qed.

(** X19. A file that lies below the root of the walk in a directory
    whose name is among the excluded names, at any depth, is not
    processed, whatever its size, its name and the patterns. *)
Theorem X19_files_below_excluded_directories_are_skipped
    (w : FileWalker.walker) (root : Path) (dirs : list string)
    (fname d : string) :
  In d dirs ->
  d ∈ FileWalker.excludes w ->
  FileWalker._should_process_file fnmatch st_size w
    (root ++ dirs ++ [fname])%list root = false.
Proof.
  intros Hin Hd. unfold FileWalker._should_process_file.
  destruct (st_size _) as [size|]; [|reflexivity].
  repeat match goal with
         | |- (if ?b then false else _) = false =>
             destruct b; [reflexivity|]
         end.
  apply negb_false_iff.
  unfold FileWalker.parents.
  rewrite !length_app. cbn [length].
  replace (length root + (length dirs + 1))
    with (S (length root + length dirs)) by lia.
  cbn [FileWalker.parents_from]. unfold parent at 1 2.
  rewrite !app_assoc, !removelast_snoc.
  apply excluded_parent_below; [lia|by exists d].
Qed.

End WalkerProperties.

Lemma X19_witness :
  FileWalker._should_process_file String.eqb (fun _ => Some 120)
    default_walker ["repo"; "web"; "node_modules"; "pkg"; "index.js"]
    ["repo"] = false.
Proof.
  apply (X19_files_below_excluded_directories_are_skipped String.eqb
           (fun _ => Some 120) default_walker ["repo"]
           ["web"; "node_modules"; "pkg"] "index.js" "node_modules").
  - cbn. tauto.
  - apply (bool_decide_unpack _). vm_compute. exact I.
Defined.

(* ===================================================================== *)
(** ** The agents of a group chat *)
(* ===================================================================== *)

Section GroupChatAgents.

Lemma dict_get_set (k k' : string) (v : pyval) (d : list (string * pyval)) :
  dict_get k (dict_set k' v d)
  = if String.eqb k k' then Some v else dict_get k d.
Proof.
  induction d as [|[k0 v0] d IH]; cbn [dict_set dict_get]; [reflexivity|].
  destruct (String.eqb k' k0) eqn:E0; cbn [dict_get].
  - apply String.eqb_eq in E0 as ->.
    by destruct (String.eqb k k0).
  - destruct (String.eqb k k0) eqn:E1; [|exact IH].
    apply String.eqb_eq in E1 as ->.
    by rewrite String.eqb_sym, E0.
Qed.

Lemma autogen_details_keys (call_node : node) (k : string) :
  k = "type" \/ k = "variable" ->
  dict_get k (AutoGen._extract_agent_details call_node) = None.
Proof.
  intros Hk. destruct call_node; try reflexivity.
  cbn [AutoGen._extract_agent_details].
  apply (fold_left_invariant (fun d => dict_get k d = None));
    [reflexivity|].
  intros d kw Hd. destruct kw; try exact Hd.
  match goal with
  | |- context [match ?o with Some _ => _ | None => _ end] =>
      destruct o; [|exact Hd]
  end.
  repeat match goal with
         | |- context [if String.eqb ?a ?b then _ else _] =>
             destruct (String.eqb a b)
         | |- context [match extract_string_value ?v with _ => _ end] =>
             destruct (extract_string_value v)
         | |- context [if truthy ?t then _ else _] => destruct (truthy t)
         | |- context [match ?v with Constant _ => _ | _ => _ end] =>
             destruct v
         end;
    try exact Hd; rewrite dict_get_set, Hd;
    destruct Hk as [-> | ->]; reflexivity.
Qed.

Lemma agent_record_get (variable type k : string)
    (details : list (string * pyval)) :
  dict_get k details = None ->
  dict_get k (AutoGen.agent_record variable type details)
  = dict_get k [("variable", VStr variable); ("type", VStr type)].
Proof.
  unfold AutoGen.agent_record.
  generalize [("variable", VStr variable); ("type", VStr type)].
  induction details as [|[k0 v0] details IH]; intros base Hk;
    cbn [fold_left]; [reflexivity|].
  cbn [dict_get] in Hk. destruct (String.eqb k k0) eqn:E; [discriminate|].
  rewrite IH by done. cbn [fst snd]. by rewrite dict_get_set, E.
Qed.

(** X20. Every agent that the AutoGen detector reports for a group chat
    was built by [AssistantAgent] or by [UserProxyAgent]: its record
    holds that class as type and the variable it is bound to; the
    keywords of the constructor cannot overwrite either. *)
Theorem X20_group_chat_agents_are_typed (tree : node) (content : string)
    (info : AutoGen.agents_info) :
  AutoGen._extract_agents_info tree content = Some info ->
  AutoGen.ai_agents info <> [] /\
  Forall
    (fun a =>
       (dict_get "type" a = Some (VStr "AssistantAgent") \/
        dict_get "type" a = Some (VStr "UserProxyAgent")) /\
       exists variable, dict_get "variable" a = Some (VStr variable))
    (AutoGen.ai_agents info).
Proof.
  unfold AutoGen._extract_agents_info. cbv zeta.
  set (P := fun a : list (string * pyval) =>
              (dict_get "type" a = Some (VStr "AssistantAgent") \/
               dict_get "type" a = Some (VStr "UserProxyAgent")) /\
              exists variable, dict_get "variable" a = Some (VStr variable)).
  set (st := fold_left AutoGen.visit (walk tree) _).
  assert (Hst : map_Forall (fun _ a => P a) (AutoGen.agents st)).
  { subst st.
    apply (fold_left_invariant
             (fun st => map_Forall (fun _ a => P a) (AutoGen.agents st)));
      [apply map_Forall_empty|].
    intros s n Hs. destruct n; try exact Hs.
    unfold AutoGen.visit.
    match goal with
    | |- context [match ?v with Call _ _ _ => _ | _ => _ end] =>
        destruct v; try exact Hs
    end.
    match goal with
    | |- context [match ?f with Name _ => _ | _ => _ end] =>
        destruct f; try exact Hs
    end.
    match goal with
    | |- context [if existsb ?f ?l then _ else _] =>
        destruct (existsb f l) eqn:Hc
    end.
    - cbn [AutoGen.agents].
      apply (fold_left_invariant (map_Forall (fun _ a => P a))); [exact Hs|].
      intros ags v Hags. apply map_Forall_insert_2; [|exact Hags].
      split.
      + rewrite agent_record_get by (apply autogen_details_keys; by left).
        cbn [existsb] in Hc. cbn.
        apply orb_true_iff in Hc as [Hc|Hc].
        * apply String.eqb_eq in Hc as <-. by left.
        * apply orb_true_iff in Hc as [Hc|[=]].
          apply String.eqb_eq in Hc as <-. by right.
      + exists v.
        by rewrite agent_record_get
          by (apply autogen_details_keys; by right).
    - repeat match goal with
             | |- context [if ?b then _ else _] => destruct b
             end; exact Hs. }
  match goal with
  | |- match ?b with _ => _ end = _ -> _ =>
      assert (Forall P b) as Hb; [|destruct b; [discriminate|]]
  end.
  { apply List.Forall_forall. intros a (v & _ & Ha)%in_flat_map.
    destruct (AutoGen.agents st !! v) as [a'|] eqn:Hv; [|destruct Ha].
    destruct Ha as [<-|[]]. exact (Hst v a' Hv). }
  intros [= <-]. cbn [AutoGen.ai_agents]. split; [discriminate|exact Hb].
Qed.

End GroupChatAgents.

Lemma X20_witness :
  exists info,
    AutoGen._extract_agents_info autogen_team_tree autogen_team = Some info /\
    map (dict_get "type") (AutoGen.ai_agents info)
    = [Some (VStr "AssistantAgent"); Some (VStr "UserProxyAgent")] /\
    Forall
      (fun a =>
         (dict_get "type" a = Some (VStr "AssistantAgent") \/
          dict_get "type" a = Some (VStr "UserProxyAgent")) /\
         exists variable, dict_get "variable" a = Some (VStr variable))
      (AutoGen.ai_agents info).
Proof.
  destruct (AutoGen._extract_agents_info autogen_team_tree autogen_team)
    as [info|] eqn:Hinfo; [|vm_compute in Hinfo; discriminate Hinfo].
  exists info. split; [reflexivity|]. split.
  - vm_compute in Hinfo. injection Hinfo as <-. reflexivity.
  - exact (proj2 (X20_group_chat_agents_are_typed autogen_team_tree
                    autogen_team info Hinfo)).
Defined.

(* ===================================================================== *)
(** ** The fields of an arguments model *)
(* ===================================================================== *)

Section ModelFields.
Variable ast_parse : string -> parse_outcome.

Lemma field_default_required (value : option node) :
  fst (LangChainPy.field_default value) = true ->
  snd (LangChainPy.field_default value) = None.
Proof.
  destruct value as [v|]; [|reflexivity].
  unfold LangChainPy.field_default.
  destruct v; try discriminate.
  match goal with
  | |- context [match ?f with Name _ => _ | _ => _ end] =>
      destruct f; try discriminate
  end.
  destruct (String.eqb _ "Field"); [|discriminate].
  apply (fold_left_invariant
           (fun acc : bool * option string => fst acc = true -> snd acc = None));
    [reflexivity|].
  intros acc kw Hacc. destruct kw; try exact Hacc.
  match goal with
  | |- context [match ?o with Some _ => _ | None => _ end] =>
      destruct o; [|exact Hacc]
  end.
  destruct (String.eqb _ "default"); [discriminate|].
  destruct (String.eqb _ "default_factory"); [discriminate|exact Hacc].
Qed.

(** X21. Every field that is read from an arguments model and reported
    as required has no default value, and its type text holds neither
    [Optional] nor [| None]: a default or an optional type always makes
    the field not required. *)
Theorem X21_required_model_fields (model_name content : string)
    (file_path : Path) :
  map_Forall
    (fun _ p =>
       pi_required p = true ->
       pi_default p = None /\
       contains "Optional" (pi_type p) = false /\
       contains "| None" (pi_type p) = false)
    (LangChainPy._extract_pydantic_model_fields ast_parse model_name content
       file_path).
Proof.
  unfold LangChainPy._extract_pydantic_model_fields.
  destruct (ast_parse content) as [tree| |]; try apply map_Forall_empty.
  apply (fold_left_invariant
           (map_Forall
              (fun _ p =>
                 pi_required p = true ->
                 pi_default p = None /\
                 contains "Optional" (pi_type p) = false /\
                 contains "| None" (pi_type p) = false)));
    [apply map_Forall_empty|].
  intros params n Hparams. destruct n; try exact Hparams.
  destruct (_ && _); [|exact Hparams].
  unfold LangChainPy.model_fields.
  apply fold_left_invariant; [exact Hparams|].
  intros ps item Hps. destruct item; try exact Hps.
  match goal with
  | |- context [match ?t with Name _ => _ | _ => _ end] =>
      destruct t; try exact Hps
  end.
  pose proof (field_default_required value) as Hdef.
  destruct (LangChainPy.field_default value) as [required default].
  cbn [fst snd] in Hdef.
  apply map_Forall_insert_2; [|exact Hps].
  cbn [pi_required pi_default pi_type].
  destruct (contains "Optional" _); [discriminate|].
  destruct (contains "| None" _); [discriminate|].
  cbn [orb]. intros ->. by rewrite Hdef.
Qed.

End ModelFields.
